(** * Eco AI chat client: streaming relay and incremental renderer

    A shallow embedding of the relay endpoint ([handler]), of the renderer's
    turn logic ([sendTextMessage], [sendUserPrompt], [handleRegenerate]), of
    the memory digest ([generateConversationSummary]) and of the page's
    bookkeeping (titles, conversations, the greeting and memory effects, the
    sign-up form), with the platform functions they call (string methods,
    the UTF-8 [TextDecoder], [JSON.parse]) modelled next to them.  Strings are sequences of UTF-16 code units, as in the host
    language, so that [length], [slice] and [trim] count what the code
    counts. *)

From Stdlib Require Import String Ascii ZArith Bool Lia List Sorted Permutation.
Import ListNotations.

Set Implicit Arguments.

(* ================================================================== *)
(** * Strings of the host language *)
(* ================================================================== *)

Module JSString.

Local Open Scope Z_scope.

(** A string is its list of UTF-16 code units. *)
Definition jsstring := list Z.

(** An ASCII literal of the source text. *)
Definition lit (s : string) : jsstring :=
  map (fun c => Z.of_N (N_of_ascii c)) (list_ascii_of_string s).

(** A literal written with ['] where the source text has a double quote. *)
Definition quoted (s : string) : jsstring :=
  map (fun c => if c =? 39 then 34 else c) (lit s).

Fixpoint eqb (a b : jsstring) : bool :=
  match a, b with
  | [], [] => true
  | x :: a', y :: b' => (x =? y) && eqb a' b'
  | _, _ => false
  end.

Definition isEmpty (s : jsstring) : bool :=
  match s with [] => true | _ => false end.

(** WhiteSpace and LineTerminator code points: the class [\s] of a regular
    expression and the characters removed by [trim]. *)
Definition isWhiteSpace (c : Z) : bool :=
  ((9 <=? c) && (c <=? 13))
  || (c =? 32) || (c =? 160) || (c =? 5760)
  || ((8192 <=? c) && (c <=? 8202))
  || (c =? 8232) || (c =? 8233) || (c =? 8239) || (c =? 8287)
  || (c =? 12288) || (c =? 65279).

Fixpoint trimStart (s : jsstring) : jsstring :=
  match s with
  | [] => []
  | c :: r => if isWhiteSpace c then trimStart r else s
  end.

Definition trimEnd (s : jsstring) : jsstring := rev (trimStart (rev s)).

Definition trim (s : jsstring) : jsstring := trimEnd (trimStart s).

Fixpoint startsWith (s prefix : jsstring) : bool :=
  match prefix, s with
  | [], _ => true
  | p :: prefix', c :: s' => (c =? p) && startsWith s' prefix'
  | _ :: _, [] => false
  end.

(** [s.split(sep)] for a separator of one code unit: never empty. *)
Fixpoint split (sep : Z) (s : jsstring) : list jsstring :=
  match s with
  | [] => [[]]
  | c :: r =>
      if c =? sep then [] :: split sep r
      else match split sep r with
           | [] => [[c]]
           | l :: ls => (c :: l) :: ls
           end
  end.

(** [parts.join(sep)]. *)
Fixpoint join (sep : jsstring) (parts : list jsstring) : jsstring :=
  match parts with
  | [] => []
  | [p] => p
  | p :: ps => p ++ sep ++ join sep ps
  end.

(** [s.replace(/\s+/g, ' ')]: every maximal run of white space becomes one
    space.  [inRun] tells that the previous unit belonged to a run. *)
Fixpoint collapseFrom (inRun : bool) (s : jsstring) : jsstring :=
  match s with
  | [] => []
  | c :: r =>
      if isWhiteSpace c
      then (if inRun then collapseFrom true r else 32 :: collapseFrom true r)
      else c :: collapseFrom false r
  end.

Definition collapseWhiteSpace (s : jsstring) : jsstring := collapseFrom false s.

(** [s.slice(0, n)] and [xs.slice(-n)] for a literal [n >= 0]. *)
Definition sliceTo {A} (n : nat) (xs : list A) : list A := firstn n xs.
Definition sliceLast {A} (n : nat) (xs : list A) : list A :=
  skipn (length xs - n) xs.

(** [s.includes(t)]. *)
Fixpoint includes (s t : jsstring) : bool :=
  startsWith s t || match s with [] => false | _ :: r => includes r t end.

End JSString.

Import JSString.

(* ================================================================== *)
(** * UTF-8: the platform's decoder and encoder *)
(* ================================================================== *)

Module Utf8.

Local Open Scope Z_scope.

(** The state of the decoder between two bytes. *)
Record decoder := {
  codePoint : Z;
  bytesSeen : Z;
  bytesNeeded : Z;
  lowerBoundary : Z;
  upperBoundary : Z
}.

Definition idle : decoder :=
  {| codePoint := 0; bytesSeen := 0; bytesNeeded := 0;
     lowerBoundary := 128; upperBoundary := 191 |}.

Definition REPLACEMENT : Z := 65533.

Definition between (lo b hi : Z) : bool := (lo <=? b) && (b <=? hi).

(** A byte met when no sequence is open. *)
Definition lead (b : Z) : decoder * list Z :=
  if between 0 b 127 then (idle, [b])
  else if between 194 b 223 then
    ({| codePoint := Z.land b 31; bytesSeen := 0; bytesNeeded := 1;
        lowerBoundary := 128; upperBoundary := 191 |}, [])
  else if between 224 b 239 then
    ({| codePoint := Z.land b 15; bytesSeen := 0; bytesNeeded := 2;
        lowerBoundary := (if b =? 224 then 160 else 128);
        upperBoundary := (if b =? 237 then 159 else 191) |}, [])
  else if between 240 b 244 then
    ({| codePoint := Z.land b 7; bytesSeen := 0; bytesNeeded := 3;
        lowerBoundary := (if b =? 240 then 144 else 128);
        upperBoundary := (if b =? 244 then 143 else 191) |}, [])
  else (idle, [REPLACEMENT]).

(** One byte: the next state and the code points that come out.  A byte
    that cannot continue the open sequence yields the replacement
    character and is then read again as a first byte. *)
Definition step (d : decoder) (b : Z) : decoder * list Z :=
  if bytesNeeded d =? 0 then lead b
  else if negb (between (lowerBoundary d) b (upperBoundary d)) then
    let (d', out) := lead b in (d', REPLACEMENT :: out)
  else
    let cp := Z.lor (Z.shiftl (codePoint d) 6) (Z.land b 63) in
    let seen := bytesSeen d + 1 in
    if seen =? bytesNeeded d then (idle, [cp])
    else ({| codePoint := cp; bytesSeen := seen; bytesNeeded := bytesNeeded d;
             lowerBoundary := 128; upperBoundary := 191 |}, []).

Fixpoint run (d : decoder) (bytes : list Z) : decoder * list Z :=
  match bytes with
  | [] => (d, [])
  | b :: r =>
      let (d1, out1) := step d b in
      let (d2, out2) := run d1 r in
      (d2, out1 ++ out2)
  end.

(** A code point as UTF-16 code units. *)
Definition units (cp : Z) : jsstring :=
  if cp <? 65536 then [cp]
  else let v := cp - 65536 in
       [55296 + Z.shiftr v 10; 56320 + Z.land v 1023].

(** [new TextDecoder('utf-8')]: the byte decoder and the flag telling that
    the first code point of the stream has been looked at (a byte order
    mark there is dropped). *)
Record TextDecoder := { bytesState : decoder; bomSeen : bool }.

Definition newTextDecoder : TextDecoder :=
  {| bytesState := idle; bomSeen := false |}.

(** [decoder.decode(value, { stream: true })]: an unfinished trailing
    sequence stays in the state for the next call. *)
Definition decodeStream (t : TextDecoder) (chunk : list Z) : TextDecoder * jsstring :=
  let (d, cps) := run (bytesState t) chunk in
  match cps with
  | [] => ({| bytesState := d; bomSeen := bomSeen t |}, [])
  | c :: r =>
      ({| bytesState := d; bomSeen := true |},
       if negb (bomSeen t) && (c =? 65279)
       then flat_map units r else flat_map units cps)
  end.

(** [buffer.toString('utf-8')]: the whole buffer at once, an unfinished
    sequence at its end becoming a replacement character. *)
Definition toString (bytes : list Z) : jsstring :=
  let (d, cps) := run idle bytes in
  flat_map units (cps ++ (if bytesNeeded d =? 0 then [] else [REPLACEMENT])).

Definition encodeCodePoint (cp : Z) : list Z :=
  if cp <? 128 then [cp]
  else if cp <? 2048 then
    [Z.lor 192 (Z.shiftr cp 6); Z.lor 128 (Z.land cp 63)]
  else if cp <? 65536 then
    [Z.lor 224 (Z.shiftr cp 12); Z.lor 128 (Z.land (Z.shiftr cp 6) 63);
     Z.lor 128 (Z.land cp 63)]
  else
    [Z.lor 240 (Z.shiftr cp 18); Z.lor 128 (Z.land (Z.shiftr cp 12) 63);
     Z.lor 128 (Z.land (Z.shiftr cp 6) 63); Z.lor 128 (Z.land cp 63)].

(** [Buffer.from(text)]: surrogate pairs are joined, a lone surrogate is
    written as the replacement character. *)
Fixpoint encode (s : jsstring) : list Z :=
  match s with
  | [] => []
  | c :: r =>
      if between 55296 c 56319 then
        match r with
        | lo :: r' =>
            if between 56320 lo 57343
            then encodeCodePoint (65536 + Z.shiftl (c - 55296) 10 + (lo - 56320))
                   ++ encode r'
            else encodeCodePoint REPLACEMENT ++ encode r
        | [] => encodeCodePoint REPLACEMENT
        end
      else if between 56320 c 57343 then encodeCodePoint REPLACEMENT ++ encode r
      else encodeCodePoint c ++ encode r
  end.

End Utf8.

(* ================================================================== *)
(** * JSON values and the platform's [JSON.parse] *)
(* ================================================================== *)

Module Json.

Local Open Scope Z_scope.

(** A parsed value.  A number keeps its text; an object keeps its members
    in the order of the text. *)
#[warnings="-register-all"] Inductive json :=
| JNull
| JBool (b : bool)
| JNumber (lexeme : jsstring)
| JString (s : jsstring)
| JArray (items : list json)
| JObject (members : list (jsstring * json)).

Inductive token :=
| TLBrace | TRBrace | TLBracket | TRBracket | TColon | TComma
| TScalar (v : json).

(** ** The scanner, one code unit at a time *)

Inductive numState :=
| NMinus | NZero | NInt | NDot | NFrac | NExp | NExpSign | NExpDigits.

Inductive lexState :=
| LIdle
| LString (acc : jsstring)
| LEscape (acc : jsstring)
| LUnicode (acc : jsstring) (digits : list Z)
| LNumber (st : numState) (acc : jsstring)
| LWord (rest : jsstring) (v : json).

Definition isDigit (c : Z) : bool := (48 <=? c) && (c <=? 57).

Definition hexValue (c : Z) : option Z :=
  if isDigit c then Some (c - 48)
  else if (65 <=? c) && (c <=? 70) then Some (c - 55)
  else if (97 <=? c) && (c <=? 102) then Some (c - 87)
  else None.

Definition numAccepting (st : numState) : bool :=
  match st with
  | NZero | NInt | NFrac | NExpDigits => true
  | _ => false
  end.

(** The state after one more unit of a number, when the unit belongs to it. *)
Definition numStep (st : numState) (c : Z) : option numState :=
  match st with
  | NMinus => if c =? 48 then Some NZero
              else if isDigit c then Some NInt else None
  | NZero => if c =? 46 then Some NDot
             else if (c =? 101) || (c =? 69) then Some NExp else None
  | NInt => if isDigit c then Some NInt
            else if c =? 46 then Some NDot
            else if (c =? 101) || (c =? 69) then Some NExp else None
  | NDot => if isDigit c then Some NFrac else None
  | NFrac => if isDigit c then Some NFrac
             else if (c =? 101) || (c =? 69) then Some NExp else None
  | NExp => if (c =? 43) || (c =? 45) then Some NExpSign
            else if isDigit c then Some NExpDigits else None
  | NExpSign => if isDigit c then Some NExpDigits else None
  | NExpDigits => if isDigit c then Some NExpDigits else None
  end.

Definition idleStep (c : Z) : option (lexState * list token) :=
  if (c =? 32) || (c =? 9) || (c =? 10) || (c =? 13) then Some (LIdle, [])
  else if c =? 123 then Some (LIdle, [TLBrace])
  else if c =? 125 then Some (LIdle, [TRBrace])
  else if c =? 91 then Some (LIdle, [TLBracket])
  else if c =? 93 then Some (LIdle, [TRBracket])
  else if c =? 58 then Some (LIdle, [TColon])
  else if c =? 44 then Some (LIdle, [TComma])
  else if c =? 34 then Some (LString [], [])
  else if c =? 45 then Some (LNumber NMinus [c], [])
  else if c =? 48 then Some (LNumber NZero [c], [])
  else if isDigit c then Some (LNumber NInt [c], [])
  else if c =? 116 then Some (LWord (lit "rue") (JBool true), [])
  else if c =? 102 then Some (LWord (lit "alse") (JBool false), [])
  else if c =? 110 then Some (LWord (lit "ull") JNull, [])
  else None.

Definition escapeUnit (c : Z) : option Z :=
  if (c =? 34) || (c =? 92) || (c =? 47) then Some c
  else if c =? 98 then Some 8
  else if c =? 102 then Some 12
  else if c =? 110 then Some 10
  else if c =? 114 then Some 13
  else if c =? 116 then Some 9
  else None.

(** String and number texts are accumulated in reverse. *)
Definition lexStep (st : lexState) (c : Z) : option (lexState * list token) :=
  match st with
  | LIdle => idleStep c
  | LString acc =>
      if c =? 34 then Some (LIdle, [TScalar (JString (rev acc))])
      else if c =? 92 then Some (LEscape acc, [])
      else if c <? 32 then None
      else Some (LString (c :: acc), [])
  | LEscape acc =>
      if c =? 117 then Some (LUnicode acc [], [])
      else match escapeUnit c with
           | Some u => Some (LString (u :: acc), [])
           | None => None
           end
  | LUnicode acc digits =>
      match hexValue c with
      | None => None
      | Some h =>
          match digits with
          | [d1; d2; d3] =>
              Some (LString (((d1 * 16 + d2) * 16 + d3) * 16 + h :: acc), [])
          | _ => Some (LUnicode acc (digits ++ [h]), [])
          end
      end
  | LNumber ns acc =>
      match numStep ns c with
      | Some ns' => Some (LNumber ns' (c :: acc), [])
      | None =>
          if numAccepting ns then
            match idleStep c with
            | Some (st', toks) => Some (st', TScalar (JNumber (rev acc)) :: toks)
            | None => None
            end
          else None
      end
  | LWord rest v =>
      match rest with
      | [] => None
      | [e] => if c =? e then Some (LIdle, [TScalar v]) else None
      | e :: rest' => if c =? e then Some (LWord rest' v, []) else None
      end
  end.

Fixpoint lexFrom (st : lexState) (s : jsstring) : option (list token) :=
  match s with
  | [] =>
      match st with
      | LIdle => Some []
      | LNumber ns acc =>
          if numAccepting ns then Some [TScalar (JNumber (rev acc))] else None
      | _ => None
      end
  | c :: r =>
      match lexStep st c with
      | None => None
      | Some (st', toks) =>
          match lexFrom st' r with
          | None => None
          | Some more => Some (toks ++ more)
          end
      end
  end.

(** ** The parser, one token at a time, with a stack of open containers *)

Inductive frame :=
| InArray (acc : list json)
| InObject (acc : list (jsstring * json)) (pending : option jsstring).

Inductive expect :=
| EValue | EValueOrClose | EKeyOrClose | EKey | EColon | ECommaOrClose
| EEnd (v : json).

Definition pstate := (list frame * expect)%type.

(** A value is complete: it is the result, or it joins the open container. *)
Definition complete (v : json) (stack : list frame) : option pstate :=
  match stack with
  | [] => Some ([], EEnd v)
  | InArray acc :: st => Some (InArray (v :: acc) :: st, ECommaOrClose)
  | InObject acc (Some k) :: st =>
      Some (InObject ((k, v) :: acc) None :: st, ECommaOrClose)
  | InObject _ None :: _ => None
  end.

Definition startValue (t : token) (stack : list frame) : option pstate :=
  match t with
  | TScalar v => complete v stack
  | TLBracket => Some (InArray [] :: stack, EValueOrClose)
  | TLBrace => Some (InObject [] None :: stack, EKeyOrClose)
  | _ => None
  end.

Definition startKey (t : token) (stack : list frame) : option pstate :=
  match t, stack with
  | TScalar (JString k), InObject acc None :: st =>
      Some (InObject acc (Some k) :: st, EColon)
  | _, _ => None
  end.

Definition parseStep (p : pstate) (t : token) : option pstate :=
  let (stack, e) := p in
  match e with
  | EValue => startValue t stack
  | EValueOrClose =>
      match t, stack with
      | TRBracket, InArray acc :: st => complete (JArray (rev acc)) st
      | _, _ => startValue t stack
      end
  | EKeyOrClose =>
      match t, stack with
      | TRBrace, InObject acc None :: st => complete (JObject (rev acc)) st
      | _, _ => startKey t stack
      end
  | EKey => startKey t stack
  | EColon => match t with TColon => Some (stack, EValue) | _ => None end
  | ECommaOrClose =>
      match t, stack with
      | TComma, InArray _ :: _ => Some (stack, EValue)
      | TComma, InObject _ None :: _ => Some (stack, EKey)
      | TRBracket, InArray acc :: st => complete (JArray (rev acc)) st
      | TRBrace, InObject acc None :: st => complete (JObject (rev acc)) st
      | _, _ => None
      end
  | EEnd _ => None
  end.

Fixpoint parseFrom (p : pstate) (ts : list token) : option json :=
  match ts with
  | [] => match p with (_, EEnd v) => Some v | _ => None end
  | t :: r =>
      match parseStep p t with
      | None => None
      | Some p' => parseFrom p' r
      end
  end.

(** [JSON.parse(text)]: [None] when it throws a [SyntaxError]. *)
Definition parse (text : jsstring) : option json :=
  match lexFrom LIdle text with
  | None => None
  | Some ts => parseFrom ([], EValue) ts
  end.

(** ** Reading a parsed value *)

(** [v[name]] on an object made by [parse], for a name that is neither an
    index nor a member of a prototype: the last member of that name. *)
Fixpoint lookup (name : jsstring) (members : list (jsstring * json)) : option json :=
  match members with
  | [] => None
  | (k, v) :: r =>
      match lookup name r with
      | Some v' => Some v'
      | None => if JSString.eqb k name then Some v else None
      end
  end.

(** [v.name] on a value that is neither [null] nor [undefined]; [None] is
    [undefined].  Only objects carry the names read by this program. *)
Definition prop (name : jsstring) (v : json) : option json :=
  match v with
  | JObject members => lookup name members
  | _ => None
  end.

(** [v[0]] on a value that is neither [null] nor [undefined]. *)
Definition first (v : json) : option json :=
  match v with
  | JArray items => hd_error items
  | JString (c :: _) => Some (JString [c])
  | JObject members => lookup (lit "0") members
  | _ => None
  end.

(** [x?.name] and [x?.[0]]: [undefined] when [x] is [null] or [undefined]. *)
Definition optProp (name : jsstring) (x : option json) : option json :=
  match x with
  | None | Some JNull => None
  | Some v => prop name v
  end.

Definition optFirst (x : option json) : option json :=
  match x with
  | None | Some JNull => None
  | Some v => first v
  end.

Definition isArray (x : option json) : bool :=
  match x with Some (JArray _) => true | _ => false end.

(** A number text denotes zero when its digits before the exponent are all
    zeros (a value too small for a double is not told apart). *)
Fixpoint mantissaIsZero (lexeme : jsstring) : bool :=
  match lexeme with
  | [] => true
  | c :: r =>
      if (c =? 101) || (c =? 69) then true
      else if (49 <=? c) && (c <=? 57) then false
      else mantissaIsZero r
  end.

(** Truthiness of a value, as tested by [if (v)]. *)
Definition truthy (v : json) : bool :=
  match v with
  | JNull => false
  | JBool b => b
  | JNumber lexeme => negb (mantissaIsZero lexeme)
  | JString s => negb (isEmpty s)
  | JArray _ | JObject _ => true
  end.

(** The text a value contributes to [text + v].  The program declares the
    values it appends as strings; for the other types this follows the
    conversion of the language, a number being given by its text (which is
    its conversion when it is an integer below 2^53 in magnitude). *)
Fixpoint toText (v : json) : jsstring :=
  match v with
  | JNull => lit "null"
  | JBool true => lit "true"
  | JBool false => lit "false"
  | JNumber lexeme => lexeme
  | JString s => s
  | JArray items =>
      join (lit ",")
           (map (fun x => match x with JNull => [] | _ => toText x end) items)
  | JObject _ => lit "[object Object]"
  end.

End Json.

Import Json.

(* ================================================================== *)
(** * Chat messages and the memory digest *)
(* ================================================================== *)

Inductive ChatRole := user | assistant | system.

Definition ChatRole_eqb (a b : ChatRole) : bool :=
  match a, b with
  | user, user | assistant, assistant | system, system => true
  | _, _ => false
  end.

Record ChatMessageData := {
  id : jsstring;
  role : ChatRole;
  content : jsstring;
  createdAt : Z
}.

(** [createMessage]: the two reads of the environment, [generateId()] and
    [Date.now()], are arguments. *)
Definition createMessage (newId : jsstring) (now : Z)
           (r : ChatRole) (c : jsstring) : ChatMessageData :=
  {| id := newId; role := r; content := c; createdAt := now |}.

Definition MAX_MEMORY_MESSAGES : nat := 6.

Definition isDialogue (m : ChatMessageData) : bool :=
  ChatRole_eqb (role m) user || ChatRole_eqb (role m) assistant.

(** The callback of [recent.map]: [None] stands for [null]. *)
Definition summaryLine (m : ChatMessageData) : option jsstring :=
  let speaker := if ChatRole_eqb (role m) assistant
                 then lit "Eco AI" else lit "User" in
  let c := trim (collapseWhiteSpace (content m)) in
  if isEmpty c then None else Some (speaker ++ lit ": " ++ c).

(** [.filter((line) => Boolean(line))]. *)
Fixpoint keepTruthy (ls : list (option jsstring)) : list jsstring :=
  match ls with
  | [] => []
  | Some l :: r => if isEmpty l then keepTruthy r else l :: keepTruthy r
  | None :: r => keepTruthy r
  end.

Definition recentDialogue (history : list ChatMessageData) : list ChatMessageData :=
  sliceLast MAX_MEMORY_MESSAGES (filter isDialogue history).

Definition joinedDigest (recent : list ChatMessageData) : jsstring :=
  join (lit " | ") (keepTruthy (map summaryLine recent)).

Definition generateConversationSummary (history : list ChatMessageData) : jsstring :=
  let recent := recentDialogue history in
  if Nat.eqb (length recent) 0 then []
  else
    let lines := keepTruthy (map summaryLine recent) in
    if Nat.eqb (length lines) 0 then []
    else
      let summary := join (lit " | ") lines in
      if Nat.ltb 600 (length summary)
      then sliceTo 597 summary ++ lit "..."
      else summary.

(* ================================================================== *)
(** * Promises and byte streams *)
(* ================================================================== *)

(** What [await] finds: a value, an exception, or no answer at all. *)
Inductive awaited (A : Type) :=
| Fulfilled (value : A)
| Rejected
| Unsettled.

Arguments Rejected {A}.
Arguments Unsettled {A}.

Module Stream.

(** How a body stream goes on after its chunks: it closes, it fails, or
    nothing more arrives. *)
Inductive ending := Ends | Errors | Stalls.

Record body := { chunks : list (list Z); ending_of : ending }.

(** What a readable stream emits to its listeners. *)
Inductive event := Data (chunk : list Z) | Error | End.

Definition emitted (b : body) : list event :=
  map Data (chunks b)
  ++ match ending_of b with
     | Ends => [End]
     | Errors => [Error]
     | Stalls => []
     end.

(** [response.ok]. *)
Definition okStatus (status : Z) : bool := ((200 <=? status) && (status <=? 299))%Z.

End Stream.

(* ================================================================== *)
(** * The renderer: one chat turn *)
(* ================================================================== *)

Module Api.
Record ApiMessage := { role : ChatRole; content : jsstring }.
End Api.

Definition ApiMessage := Api.ApiMessage.

Definition SYSTEM_PROMPT : ApiMessage :=
  {| Api.role := system;
     Api.content :=
       lit "You are Eco AI " ++ [55356; 57151]%Z
       ++ lit ", an intelligent, calm, and creative assistant built by Chandon Kumar. Keep replies helpful, concise, and lightly witty with sparing emoji use. Reference earlier context when it helps, ask clarifying questions when unsure, and always introduce yourself as Eco AI when asked about your identity." |}.

(** The state of the page that a turn reads and writes; the speech output,
    which a turn only stops, is left out. *)
Record HomeState := {
  messages : list ChatMessageData;
  input : jsstring;
  isStreaming : bool;
  error : option jsstring;
  isHydrated : bool;
  memory : jsstring
}.

Definition setMessages (f : list ChatMessageData -> list ChatMessageData)
           (st : HomeState) : HomeState :=
  {| messages := f (messages st); input := input st;
     isStreaming := isStreaming st; error := error st;
     isHydrated := isHydrated st; memory := memory st |}.

Definition setInput (v : jsstring) (st : HomeState) : HomeState :=
  {| messages := messages st; input := v;
     isStreaming := isStreaming st; error := error st;
     isHydrated := isHydrated st; memory := memory st |}.

Definition setIsStreaming (b : bool) (st : HomeState) : HomeState :=
  {| messages := messages st; input := input st;
     isStreaming := b; error := error st;
     isHydrated := isHydrated st; memory := memory st |}.

Definition setError (e : option jsstring) (st : HomeState) : HomeState :=
  {| messages := messages st; input := input st;
     isStreaming := isStreaming st; error := e;
     isHydrated := isHydrated st; memory := memory st |}.

Definition mapMessagesToApi (history : list ChatMessageData) : list ApiMessage :=
  filter (fun m => negb (isEmpty (Api.content m)))
    (map (fun m => {| Api.role := role m; Api.content := trim (content m) |})
       (filter isDialogue history)).

(** ** The request to the relay and what comes back *)

Record ChatRequest := {
  url : jsstring;
  httpMethod : jsstring;
  contentType : jsstring;
  bodyMessages : list ApiMessage
}.

(** [fetch] answers with a response, fails, or does not answer. *)
Record Response := { status : Z; body : option Stream.body }.

(** ** The parsing loop *)

Definition DONE : jsstring := lit "[DONE]".

(** [trimmed.replace(/^data:\s*/, '')]. *)
Definition removeDataPrefix (trimmed : jsstring) : jsstring :=
  if startsWith trimmed (lit "data:") then trimStart (skipn 5 trimmed) else trimmed.

(** [parsed.choices?.[0]?.delta?.content ?? ''].  [None]: reading [choices]
    of [null] throws. *)
Definition deltaOf (parsed : json) : option json :=
  match parsed with
  | JNull => None
  | _ =>
      match optProp (lit "content")
              (optProp (lit "delta") (optFirst (prop (lit "choices") parsed))) with
      | None | Some JNull => Some (JString [])
      | Some v => Some v
      end
  end.

(** The local variable [assistantMessage] together with the page state. *)
Record turn := { assistantMessage : ChatMessageData; view : HomeState }.

(** [next[next.length - 1] = m] on a copy of [prev]; on an empty array the
    assignment adds no element. *)
Definition replaceLast (m : ChatMessageData) (prev : list ChatMessageData) :
  list ChatMessageData :=
  match prev with
  | [] => []
  | _ => removelast prev ++ [m]
  end.

Definition applyDelta (t : turn) (delta : json) : turn :=
  let m := {| id := id (assistantMessage t);
              role := role (assistantMessage t);
              content := content (assistantMessage t) ++ toText delta;
              createdAt := createdAt (assistantMessage t) |} in
  {| assistantMessage := m; view := setMessages (replaceLast m) (view t) |}.

Definition stopStreaming (t : turn) : turn :=
  {| assistantMessage := assistantMessage t;
     view := setIsStreaming false (view t) |}.

(** The body of [for (const line of lines)]: go on with the next line, or
    return from the whole function. *)
Inductive lineOutcome := Continue (t : turn) | Return (t : turn).

Definition processLine (t : turn) (line : jsstring) : lineOutcome :=
  let trimmed := trim line in
  if isEmpty trimmed || negb (startsWith trimmed (lit "data:")) then Continue t
  else
    let payload := removeDataPrefix trimmed in
    if JSString.eqb payload DONE then Return (stopStreaming t)
    else
      match Json.parse payload with
      | None => Continue t
      | Some parsed =>
          match deltaOf parsed with
          | None => Continue t
          | Some delta =>
              if truthy delta then Continue (applyDelta t delta) else Continue t
          end
      end.

Fixpoint processLines (t : turn) (lines : list jsstring) : lineOutcome :=
  match lines with
  | [] => Continue t
  | line :: rest =>
      match processLine t line with
      | Continue t' => processLines t' rest
      | Return t' => Return t'
      end
  end.

(** The chunks read so far: all of them went through, or a line returned. *)
Inductive chunksOutcome :=
| Exhausted (decoder : Utf8.TextDecoder) (t : turn)
| Sentinel (t : turn).

Fixpoint readChunks (decoder : Utf8.TextDecoder) (t : turn)
         (chunks : list (list Z)) : chunksOutcome :=
  match chunks with
  | [] => Exhausted decoder t
  | value :: rest =>
      let (decoder', chunkValue) := Utf8.decodeStream decoder value in
      match processLines t (split 10 chunkValue) with
      | Return t' => Sentinel t'
      | Continue t' => readChunks decoder' t' rest
      end
  end.

(** How [while (true)] is left: by [return], by [break] on [done], by an
    exception of [reader.read()], or not at all. *)
Inductive loopOutcome :=
| Returned (t : turn) | Broke (t : turn) | Threw (t : turn) | Waiting (t : turn).

Definition readLoop (decoder : Utf8.TextDecoder) (t : turn) (b : Stream.body) :
  loopOutcome :=
  match readChunks decoder t (Stream.chunks b) with
  | Sentinel t' => Returned t'
  | Exhausted _ t' =>
      match Stream.ending_of b with
      | Stream.Ends => Broke t'
      | Stream.Errors => Threw t'
      | Stream.Stalls => Waiting t'
      end
  end.

(** ** [sendTextMessage] *)

Definition RETRY_MESSAGE : jsstring := lit "Something went wrong, try again.".

(** The test of [prev.filter] in the [catch] block. *)
Definition keepsMessage (msg : ChatMessageData) : bool :=
  negb (ChatRole_eqb (role msg) assistant) || negb (isEmpty (content msg)).

(** The [catch] block. *)
Definition turnFailed (st : HomeState) : HomeState :=
  setMessages (filter keepsMessage)
    (setError (Some RETRY_MESSAGE) (setIsStreaming false st)).

(** What a call leaves behind: the page state, the requests it issued, and
    whether the call has come to its end. *)
Record sent := {
  after : HomeState;
  requests : list ChatRequest;
  settled : bool
}.

Definition systemMessages (mem : jsstring) : list ApiMessage :=
  if isEmpty mem then [SYSTEM_PROMPT]
  else [SYSTEM_PROMPT;
        {| Api.role := system;
           Api.content := lit "Long-term memory summary: " ++ mem |}].

Definition chatRequest (mem : jsstring) (history : list ApiMessage) : ChatRequest :=
  {| url := lit "/api/chat"; httpMethod := lit "POST";
     contentType := lit "application/json";
     bodyMessages := systemMessages mem ++ history |}.

Section Turn.

(** The network, and the identifier and the clock read by [createMessage]
    for the assistant message. *)
Variable fetch : ChatRequest -> awaited Response.
Variable newId : jsstring.
Variable now : Z.

Definition sendTextMessage (st : HomeState) (history : list ApiMessage) : sent :=
  let st1 := setError None (setIsStreaming true st) in
  match history with
  | [] => {| after := setIsStreaming false st1; requests := []; settled := true |}
  | _ =>
      let request := chatRequest (memory st) history in
      let failed s := {| after := turnFailed s; requests := [request];
                         settled := true |} in
      match fetch request with
      | Rejected => failed st1
      | Unsettled => {| after := st1; requests := [request]; settled := false |}
      | Fulfilled response =>
          match Stream.okStatus (status response), body response with
          | true, Some b =>
              let assistantMessage0 := createMessage newId now assistant [] in
              let st2 := setMessages (fun prev => prev ++ [assistantMessage0]) st1 in
              match readLoop Utf8.newTextDecoder
                      {| assistantMessage := assistantMessage0; view := st2 |} b with
              | Returned t =>
                  {| after := view t; requests := [request]; settled := true |}
              | Broke t =>
                  {| after := setIsStreaming false (view t);
                     requests := [request]; settled := true |}
              | Threw t => failed (view t)
              | Waiting t =>
                  {| after := view t; requests := [request]; settled := false |}
              end
          | _, _ => failed st1
          end
      end
  end.

(** The identifier and the clock read for the user message. *)
Variable userId : jsstring.
Variable userNow : Z.

Definition sendUserPrompt (st : HomeState) (prompt : jsstring) : sent :=
  let trimmed := trim prompt in
  if isEmpty trimmed || isStreaming st || negb (isHydrated st)
  then {| after := st; requests := []; settled := true |}
  else
    let st1 := setError None st in
    let userMessage := createMessage userId userNow user trimmed in
    let updatedMessages := messages st ++ [userMessage] in
    let st2 := setInput [] (setMessages (fun _ => updatedMessages) st1) in
    sendTextMessage st2 (mapMessagesToApi updatedMessages).

Definition submitMessage (st : HomeState) : sent :=
  if isEmpty (trim (input st))
  then {| after := st; requests := []; settled := true |}
  else sendUserPrompt st (trim (input st)).

End Turn.

(** The turn as the parsing loop finds it: the empty assistant message has
    just been appended. *)
Definition openTurn (newId : jsstring) (now : Z) (st : HomeState) : turn :=
  let m := createMessage newId now assistant [] in
  {| assistantMessage := m;
     view := setMessages (fun prev => prev ++ [m])
               (setError None (setIsStreaming true st)) |}.

(** The assistant message keeps its identity and its role. *)
Definition sameHead (m m' : ChatMessageData) : Prop :=
  id m' = id m /\ role m' = role m /\ createdAt m' = createdAt m.

(** A line that carries data, and what it carries. *)
Definition isDataLine (line : jsstring) : bool :=
  negb (isEmpty (trim line)) && startsWith (trim line) (lit "data:").

Definition payloadOf (line : jsstring) : jsstring := removeDataPrefix (trim line).

Definition isDoneLine (line : jsstring) : bool :=
  isDataLine line && JSString.eqb (payloadOf line) DONE.

(** The page state with the message list [prev] followed by [m], the
    streaming flag [streaming], and the other fields of [base]. *)
Definition shown (base : HomeState) (prev : list ChatMessageData)
           (m : ChatMessageData) (streaming : bool) : HomeState :=
  {| messages := prev ++ [m]; input := input base; isStreaming := streaming;
     error := error base; isHydrated := isHydrated base; memory := memory base |}.

(** ** Sample event streams, in the framing of the provider *)

Definition dataLine (payload : jsstring) : jsstring := lit "data: " ++ payload.

Definition sseEvent (payload : jsstring) : jsstring :=
  dataLine payload ++ [10; 10]%Z.

Definition deltaPayload (delta : jsstring) : jsstring :=
  quoted "{'id':'c1','choices':[{'index':0,'delta':{'content':'"
  ++ delta ++ quoted "'},'finish_reason':null}]}".

Definition deltaEvent (delta : jsstring) : jsstring := sseEvent (deltaPayload delta).

(** A relay that answers 200 with the given body. *)
Definition mockedRelay (chunks : list (list Z)) (e : Stream.ending)
  : ChatRequest -> awaited Response :=
  fun _ => Fulfilled {| status := 200;
                          body := Some {| Stream.chunks := chunks;
                                          Stream.ending_of := e |} |}.

(** Two text deltas and the sentinel. *)
Definition helloEvents : list jsstring :=
  [deltaEvent (lit "Hel"); deltaEvent (lit "lo"); sseEvent DONE].

(** One event whose delta ends in a two-byte character, as bytes. *)
Definition cafeBytes : list Z := Utf8.encode (deltaEvent (lit "caf" ++ [233]%Z)).

Definition hiHistory : list ApiMessage :=
  [{| Api.role := user; Api.content := lit "Hi" |}].

(** A hydrated page holding the user message "Hi". *)
Definition hiPage : HomeState :=
  {| messages := [createMessage (lit "u1") 1 user (lit "Hi")];
     input := []; isStreaming := false; error := None;
     isHydrated := true; memory := [] |}.

(** The texts shown on [hiPage] after a turn over the given chunks. *)
Definition rendered (chunks : list (list Z)) : list jsstring :=
  map content
    (messages (after (sendTextMessage (mockedRelay chunks Stream.Ends)
                        (lit "a1") 2 hiPage hiHistory))).

(** The page after a failed turn that leaves the messages [kept]. *)
Definition failedPage (st : HomeState) (kept : list ChatMessageData) : HomeState :=
  {| messages := kept; input := input st; isStreaming := false;
     error := Some RETRY_MESSAGE; isHydrated := isHydrated st;
     memory := memory st |}.

(** The [disabled] attributes of the text area and of the send button. *)
Definition textareaDisabled (st : HomeState) : bool := isStreaming st.
Definition submitDisabled (st : HomeState) : bool :=
  isStreaming st || isEmpty (trim (input st)).

(* ================================================================== *)
(** * The relay endpoint *)
(* ================================================================== *)

Module Relay.

(** A chunk of the inbound request: text or bytes. *)
Inductive requestChunk := Text (s : jsstring) | Bytes (b : list Z).

Record NextApiRequest := {
  method : jsstring;
  bodyChunks : list requestChunk;
  bodyEnding : Stream.ending
}.

(** What the handler does to its response object, in order. *)
Inductive resEvent :=
| SetHeader (name : jsstring) (values : list jsstring)
| StatusJson (status : Z) (errorText : jsstring)
| WriteHead (status : Z) (headers : list (jsstring * jsstring))
| Write (chunk : list Z)
| EndResponse.

(** The outbound request; its body is kept as the object handed to
    [JSON.stringify]. *)
Record UpstreamRequest := {
  upstreamUrl : jsstring;
  upstreamMethod : jsstring;
  upstreamContentType : jsstring;
  authorization : jsstring;
  model : jsstring;
  stream : bool;
  temperature : jsstring;
  upstreamMessages : json
}.

(** The upstream response; [text]: what [await response.text()] finds. *)
Record UpstreamResponse := {
  upstreamStatus : Z;
  upstreamBody : option Stream.body;
  text : awaited jsstring
}.

(** [bufferRequest]: the text of the whole body once the request has ended. *)
Definition bufferRequest (req : NextApiRequest) : awaited jsstring :=
  match bodyEnding req with
  | Stream.Ends =>
      Fulfilled (Utf8.toString
                   (concat (map (fun chunk => match chunk with
                                              | Text s => Utf8.encode s
                                              | Bytes b => b
                                              end) (bodyChunks req))))
  | Stream.Errors => Rejected
  | Stream.Stalls => Unsettled
  end.

Definition STREAM_HEADERS : list (jsstring * jsstring) :=
  [(lit "Content-Type", lit "text/event-stream");
   (lit "Cache-Control", lit "no-cache, no-transform");
   (lit "Connection", lit "keep-alive")].

(** The three listeners put on the upstream stream. *)
Definition onData (chunk : list Z) : list resEvent := [Write chunk].
Definition onError : list resEvent := [EndResponse].
Definition onEnd : list resEvent := [EndResponse].

Definition listener (e : Stream.event) : list resEvent :=
  match e with
  | Stream.Data chunk => onData chunk
  | Stream.Error => onError
  | Stream.End => onEnd
  end.

Definition pipe (events : list Stream.event) : list resEvent :=
  flat_map listener events.

Record handled := {
  upstreamCalls : list UpstreamRequest;
  response : list resEvent
}.

Definition unexpected : list resEvent :=
  [StatusJson 500 (lit "Something went wrong. Please try again.")].

Section Handler.

(** [process.env.OPENAI_API_KEY] and the network. *)
Variable OPENAI_API_KEY : option jsstring.
Variable fetch : UpstreamRequest -> awaited UpstreamResponse.

Definition upstreamRequest (apiKey : jsstring) (msgs : json) : UpstreamRequest :=
  {| upstreamUrl := lit "https://api.openai.com/v1/chat/completions";
     upstreamMethod := lit "POST";
     upstreamContentType := lit "application/json";
     authorization := lit "Bearer " ++ apiKey;
     model := lit "gpt-4-turbo";
     stream := true;
     temperature := lit "0.7";
     upstreamMessages := msgs |}.

Definition handler (req : NextApiRequest) : handled :=
  if negb (JSString.eqb (method req) (lit "POST")) then
    {| upstreamCalls := [];
       response := [SetHeader (lit "Allow") [lit "POST"];
                    StatusJson 405 (lit "Method not allowed")] |}
  else
    match OPENAI_API_KEY with
    | None | Some [] =>
        {| upstreamCalls := [];
           response := [StatusJson 500 (lit "OpenAI API key is not configured.")] |}
    | Some apiKey =>
        match bufferRequest req with
        | Rejected => {| upstreamCalls := []; response := unexpected |}
        | Unsettled => {| upstreamCalls := []; response := [] |}
        | Fulfilled rawBody =>
            match Json.parse rawBody with
            | None | Some JNull => {| upstreamCalls := []; response := unexpected |}
            | Some requestBody =>
                match prop (lit "messages") requestBody with
                | Some (JArray items) =>
                    let rq := upstreamRequest apiKey (JArray items) in
                    {| upstreamCalls := [rq];
                       response :=
                         match fetch rq with
                         | Rejected => unexpected
                         | Unsettled => []
                         | Fulfilled r =>
                             match Stream.okStatus (upstreamStatus r),
                                   upstreamBody r with
                             | true, Some b =>
                                 WriteHead 200 STREAM_HEADERS
                                   :: pipe (Stream.emitted b)
                             | _, _ =>
                                 match text r with
                                 | Rejected => unexpected
                                 | Unsettled => []
                                 | Fulfilled _ =>
                                     [StatusJson (upstreamStatus r)
                                        (lit "Failed to fetch from OpenAI.")]
                                 end
                             end
                         end |}
                | _ =>
                    {| upstreamCalls := [];
                       response := [StatusJson 400 (lit "Invalid request payload.")] |}
                end
            end
        end
    end.

End Handler.

(** ** Reading a response *)

(** The status line of the response. *)
Fixpoint statusOf (out : list resEvent) : option Z :=
  match out with
  | [] => None
  | StatusJson s _ :: _ => Some s
  | WriteHead s _ :: _ => Some s
  | _ :: r => statusOf r
  end.

Fixpoint errorTextOf (out : list resEvent) : option jsstring :=
  match out with
  | [] => None
  | StatusJson _ e :: _ => Some e
  | _ :: r => errorTextOf r
  end.

(** The chunks written to the response body, in order. *)
Fixpoint written (out : list resEvent) : list (list Z) :=
  match out with
  | [] => []
  | Write c :: r => c :: written r
  | _ :: r => written r
  end.

Fixpoint ended (out : list resEvent) : bool :=
  match out with
  | [] => false
  | EndResponse :: _ => true
  | _ :: r => ended r
  end.

(** The request body decodes to an object with an array [messages]. *)
Definition hasMessageArray (req : NextApiRequest) : bool :=
  match bufferRequest req with
  | Rejected | Unsettled => false
  | Fulfilled rawBody =>
      match Json.parse rawBody with
      | Some (JObject members) => isArray (lookup (lit "messages") members)
      | _ => false
      end
  end.

(** An entry of the list is a role/content pair. *)
Definition isRoleContent (v : json) : bool :=
  match v with
  | JObject members =>
      match lookup (lit "role") members, lookup (lit "content") members with
      | Some (JString r), Some (JString _) =>
          JSString.eqb r (lit "user") || JSString.eqb r (lit "assistant")
          || JSString.eqb r (lit "system")
      | _, _ => false
      end
  | _ => false
  end.

(** The request body decodes to an object holding a list of role/content
    pairs: the shape the interface asks of a request, which the handler
    does not test beyond [hasMessageArray]. *)
Definition hasRoleContentList (req : NextApiRequest) : bool :=
  match bufferRequest req with
  | Rejected | Unsettled => false
  | Fulfilled rawBody =>
      match Json.parse rawBody with
      | Some (JObject members) =>
          match lookup (lit "messages") members with
          | Some (JArray items) => forallb isRoleContent items
          | _ => false
          end
      | _ => false
      end
  end.

(** ** Sample requests and a sample upstream *)

(** A request with the given method and body text, sent in one piece. *)
Definition plainRequest (m body : jsstring) : NextApiRequest :=
  {| method := m; bodyChunks := [Bytes (Utf8.encode body)];
     bodyEnding := Stream.Ends |}.

(** An upstream that answers 200 with the given body. *)
Definition sampleUpstream (chunks : list (list Z)) (e : Stream.ending)
  : UpstreamRequest -> awaited UpstreamResponse :=
  fun _ => Fulfilled {| upstreamStatus := 200;
                         upstreamBody := Some {| Stream.chunks := chunks;
                                                 Stream.ending_of := e |};
                         text := Fulfilled [] |}.

Definition isClientError (s : Z) : bool := ((400 <=? s) && (s <=? 499))%Z.
Definition isServerError (s : Z) : bool := ((500 <=? s) && (s <=? 599))%Z.

(** The error text tells that the server lacks its configuration. *)
Definition namesConfiguration (errorText : jsstring) : bool :=
  includes errorText (lit "not configured").

End Relay.

(* ================================================================== *)
(** * The rest of the page: titles, tokens, conversations, effects *)
(* ================================================================== *)

(** ** [deriveConversationTitle] *)

(** The test of [history.find]. *)
Definition titleSource (m : ChatMessageData) : bool :=
  ChatRole_eqb (role m) user && Nat.ltb 0 (length (trim (content m))).

Definition deriveConversationTitle (history : list ChatMessageData) : jsstring :=
  match find titleSource history with
  | None => lit "New Chat"
  | Some firstUserMessage =>
      let trimmed := trim (content firstUserMessage) in
      if Nat.ltb 40 (length trimmed)
      then sliceTo 40 trimmed ++ [8230]%Z
      else trimmed
  end.

(** ** The tokens of a rendered message *)

(** [content.match(/[^\s]+|\s+/g) ?? []]: the maximal runs of white space
    and of other code units, in order. *)
Fixpoint tokens (s : jsstring) : list jsstring :=
  match s with
  | [] => []
  | c :: r =>
      match tokens r with
      | (d :: tok) :: toks =>
          if Bool.eqb (isWhiteSpace c) (isWhiteSpace d)
          then (c :: d :: tok) :: toks
          else [c] :: (d :: tok) :: toks
      | _ => [[c]]
      end
  end.

(** A token is of the class of its first unit; it is uniform when all its
    units are of that class. *)
Definition tokenClass (tok : jsstring) : bool :=
  match tok with
  | c :: _ => isWhiteSpace c
  | [] => false
  end.

Definition uniformToken (tok : jsstring) : bool :=
  negb (isEmpty tok)
  && forallb (fun c => Bool.eqb (isWhiteSpace c) (tokenClass tok)) tok.

(** Neighbouring tokens are of different classes. *)
Fixpoint alternating (toks : list jsstring) : bool :=
  match toks with
  | a :: (b :: _) as rest => negb (Bool.eqb (tokenClass a) (tokenClass b))
                             && alternating rest
  | _ => true
  end.

(** A unit of a one-line text: not white space, or the plain space. *)
Definition plainUnit (c : Z) : bool := negb (isWhiteSpace c) || (c =? 32)%Z.

(** ** Conversations *)

Definition INITIAL_GREETING : jsstring :=
  lit "Hey there! I" ++ [8217]%Z ++ lit "m Eco AI " ++ [55356; 57151; 8212]%Z
  ++ lit "built by Chandon Kumar to help with code, green ideas, and whatever else you need. What can I do for you today?".

Module Conv.
Record Conversation := {
  id : jsstring;
  title : jsstring;
  messages : list ChatMessageData;
  updatedAt : Z;
  memory : option jsstring
}.
End Conv.

Definition Conversation := Conv.Conversation.

(** The page together with the list of conversations and the active one. *)
Record Workspace := {
  page : HomeState;
  conversations : list Conversation;
  activeConversationId : jsstring
}.

Definition setMemory (m : jsstring) (st : HomeState) : HomeState :=
  {| messages := messages st; input := input st;
     isStreaming := isStreaming st; error := error st;
     isHydrated := isHydrated st; memory := m |}.

(** [conversation.memory ?? '']. *)
Definition memoryOrEmpty (c : Conversation) : jsstring :=
  match Conv.memory c with Some m => m | None => [] end.

Definition hasId (conversationId : jsstring) (c : Conversation) : bool :=
  JSString.eqb (Conv.id c) conversationId.

Section Conversations.

(** The reads of the environment: identifier and clock for the greeting
    message, identifier and clock for the conversation. *)
Variable greetingId : jsstring.
Variable greetingNow : Z.
Variable conversationId0 : jsstring.
Variable conversationNow : Z.

Definition handleNewConversation (w : Workspace) : Workspace :=
  let initialMessages :=
    [createMessage greetingId greetingNow assistant INITIAL_GREETING] in
  let newConversation : Conversation :=
    {| Conv.id := conversationId0; Conv.title := lit "New Chat";
       Conv.messages := initialMessages; Conv.updatedAt := conversationNow;
       Conv.memory := Some [] |} in
  {| conversations := sliceTo 25 (newConversation :: conversations w);
     activeConversationId := Conv.id newConversation;
     page := setIsStreaming false
               (setError None
                  (setInput []
                     (setMemory []
                        (setMessages (fun _ => initialMessages) (page w))))) |}.

Definition handleSelectConversation (w : Workspace) (conversationId : jsstring)
  : Workspace :=
  if JSString.eqb conversationId (activeConversationId w) then w
  else
    match find (hasId conversationId) (conversations w) with
    | None => w
    | Some conversation =>
        {| conversations := conversations w;
           activeConversationId := conversationId;
           page := setIsStreaming false
                     (setError None
                        (setInput []
                           (setMemory (memoryOrEmpty conversation)
                              (setMessages (fun _ => Conv.messages conversation)
                                 (page w))))) |}
    end.

Definition handleRemoveConversation (w : Workspace) (conversationId : jsstring)
  : Workspace :=
  let remaining :=
    filter (fun conversation => negb (hasId conversationId conversation))
           (conversations w) in
  let w1 := {| conversations := remaining;
               activeConversationId := activeConversationId w;
               page := page w |} in
  if JSString.eqb conversationId (activeConversationId w) then
    match remaining with
    | [] => handleNewConversation w1
    | nextConversation :: _ =>
        {| conversations := remaining;
           activeConversationId := Conv.id nextConversation;
           page := setError None
                     (setInput []
                        (setMemory (memoryOrEmpty nextConversation)
                           (setMessages (fun _ => Conv.messages nextConversation)
                              (page w)))) |}
    end
  else w1.

(** The callback of [conversations.map] in [clearChat]; [clock k] is the
    [k]-th reading of the clock made by the callbacks. *)
Fixpoint resetActive (active : jsstring) (resetMessages : list ChatMessageData)
         (clock : nat -> Z) (k : nat) (cs : list Conversation) : list Conversation :=
  match cs with
  | [] => []
  | conversation :: rest =>
      if hasId active conversation
      then {| Conv.id := Conv.id conversation; Conv.title := lit "New Chat";
              Conv.messages := resetMessages; Conv.updatedAt := clock k;
              Conv.memory := Some [] |}
             :: resetActive active resetMessages clock (S k) rest
      else conversation :: resetActive active resetMessages clock k rest
  end.

(** [clearChat]; the copies written to the browser store are left out. *)
Definition clearChat (clock : nat -> Z) (w : Workspace) : Workspace :=
  let resetMessages :=
    [createMessage greetingId greetingNow assistant INITIAL_GREETING] in
  {| conversations :=
       resetActive (activeConversationId w) resetMessages clock 0 (conversations w);
     activeConversationId := activeConversationId w;
     page := setIsStreaming false
               (setInput []
                  (setMemory []
                     (setMessages (fun _ => resetMessages) (page w)))) |}.

(** The effect that keeps a greeting at the head of the message list. *)
Definition ensureGreeting (st : HomeState) : HomeState :=
  if negb (isHydrated st) then st
  else
    match messages st with
    | [] =>
        setMessages
          (fun _ => [createMessage greetingId greetingNow assistant INITIAL_GREETING])
          st
    | first :: _ =>
        if negb (ChatRole_eqb (role first) assistant)
           || Nat.eqb (length (trim (content first))) 0
        then setMessages
               (fun _ => createMessage greetingId greetingNow assistant INITIAL_GREETING
                           :: messages st)
               st
        else st
    end.

End Conversations.

(** The active identifier names a conversation of the list. *)
Definition activeListed (w : Workspace) : Prop :=
  exists c, In c (conversations w) /\ Conv.id c = activeConversationId w.

(** ** [recentChats] *)

(** One step of a stable sort by [(a, b) => b.updatedAt - a.updatedAt]:
    [c], which stood before all of [sorted], goes before the first entry
    that is not newer than it. *)
Fixpoint insertByRecency (c : Conversation) (sorted : list Conversation)
  : list Conversation :=
  match sorted with
  | [] => [c]
  | d :: rest =>
      if (Conv.updatedAt c <? Conv.updatedAt d)%Z
      then d :: insertByRecency c rest
      else c :: d :: rest
  end.

(** [a] is at least as recent as [b]. *)
Definition newerFirst (a b : Conversation) : Prop :=
  (Conv.updatedAt b <= Conv.updatedAt a)%Z.

Definition sortByRecency (cs : list Conversation) : list Conversation :=
  fold_right insertByRecency [] cs.

Definition recentChats (cs : list Conversation) : list Conversation :=
  if Nat.eqb (length cs) 0 then [] else sliceTo 10 (sortByRecency cs).

(** ** The effect that refreshes the memory digest *)

(** The copy written to the browser store is left out. *)
Definition refreshMemory (st : HomeState) : HomeState :=
  if negb (isHydrated st) || isStreaming st then st
  else if Nat.ltb (length (messages st)) 4 then st
  else
    let summary := generateConversationSummary (messages st) in
    if isEmpty summary || JSString.eqb summary (memory st) then st
    else setMemory summary st.

(** ** [handleRegenerate] *)

(** [xs.findIndex(p)]: [-1] when no entry passes. *)
Fixpoint findIndexFrom {A} (p : A -> bool) (i : Z) (xs : list A) : Z :=
  match xs with
  | [] => (-1)%Z
  | x :: r => if p x then i else findIndexFrom p (i + 1)%Z r
  end.

Definition findIndex {A} (p : A -> bool) (xs : list A) : Z := findIndexFrom p 0%Z xs.

(** [xs.slice(0, e)]: a negative [e] counts from the end. *)
Definition sliceUpTo {A} (e : Z) (xs : list A) : list A :=
  if (e <? 0)%Z then firstn (length xs - Z.to_nat (- e)) xs
  else firstn (Z.to_nat e) xs.

Definition handleRegenerate (fetch : ChatRequest -> awaited Response)
           (newId : jsstring) (now : Z)
           (st : HomeState) (message : ChatMessageData) : sent :=
  if isStreaming st then {| after := st; requests := []; settled := true |}
  else
    let lastAssistantIndex :=
      findIndex (fun msg => JSString.eqb (id msg) (id message)) (messages st) in
    if negb (lastAssistantIndex =? Z.of_nat (length (messages st)) - 1)%Z
       || negb (ChatRole_eqb (role message) assistant)
    then {| after := st; requests := []; settled := true |}
    else
      let trimmedMessages := sliceUpTo lastAssistantIndex (messages st) in
      sendTextMessage fetch newId now
        (setMessages (fun _ => trimmedMessages) st)
        (mapMessagesToApi trimmedMessages).

(** ** The sign-up form *)

Module SignUp.

Record Form := {
  name : jsstring;
  email : jsstring;
  password : jsstring;
  error : option jsstring;
  isSubmitting : bool
}.

(** The calls made to the identity provider and to the router. *)
Inductive call :=
| CreateUser (email password : jsstring)
| UpdateProfile (displayName : jsstring)
| Push (path : jsstring).

Record submitted := { form : Form; calls : list call; settled : bool }.

Definition FAILURE : jsstring :=
  lit "Unable to create account. Please try again with a different email or check your password.".

Section Submit.

(** The credential type and the three external calls. *)
Variable credential : Type.
Variable createUserWithEmailAndPassword : jsstring -> jsstring -> awaited credential.
Variable updateProfile : credential -> jsstring -> awaited unit.
Variable routerPush : jsstring -> awaited bool.

Definition started (f : Form) : Form :=
  {| name := name f; email := email f; password := password f;
     error := None; isSubmitting := true |}.

(** The [finally] block after a normal end, and after the [catch] block. *)
Definition finished (f : Form) : Form :=
  {| name := name f; email := email f; password := password f;
     error := error f; isSubmitting := false |}.

Definition failed (f : Form) : Form :=
  {| name := name f; email := email f; password := password f;
     error := Some FAILURE; isSubmitting := false |}.

Definition navigate (f : Form) (made : list call) : submitted :=
  let made' := made ++ [Push (lit "/")] in
  match routerPush (lit "/") with
  | Fulfilled _ => {| form := finished f; calls := made'; settled := true |}
  | Rejected => {| form := failed f; calls := made'; settled := true |}
  | Unsettled => {| form := f; calls := made'; settled := false |}
  end.

Definition handleSubmit (f0 : Form) : submitted :=
  let f := started f0 in
  let create := CreateUser (trim (email f0)) (password f0) in
  match createUserWithEmailAndPassword (trim (email f0)) (password f0) with
  | Rejected => {| form := failed f; calls := [create]; settled := true |}
  | Unsettled => {| form := f; calls := [create]; settled := false |}
  | Fulfilled cred =>
      if Nat.ltb 0 (length (trim (name f0))) then
        let update := UpdateProfile (trim (name f0)) in
        match updateProfile cred (trim (name f0)) with
        | Rejected => {| form := failed f; calls := [create; update]; settled := true |}
        | Unsettled => {| form := f; calls := [create; update]; settled := false |}
        | Fulfilled _ => navigate f [create; update]
        end
      else navigate f [create]
  end.

End Submit.

End SignUp.

(** ** Chunks and lines *)

(** The chunk ends with a line feed. *)
Definition endsWithLineFeed (chunk : list Z) : bool :=
  match rev chunk with
  | c :: _ => (c =? 10)%Z
  | [] => false
  end.

(** The bound every decoder state reached from [Utf8.idle] satisfies: a
    continuation byte is never looked for below 128. *)
Definition decoderInRange (d : Utf8.decoder) : Prop :=
  (128 <= Utf8.lowerBoundary d)%Z.

(** ** The bytes of a request *)

(** All the bytes of the request body, in order of arrival. *)
Definition requestBytes (req : Relay.NextApiRequest) : list Z :=
  concat (map (fun chunk => match chunk with
                            | Relay.Text s => Utf8.encode s
                            | Relay.Bytes b => b
                            end) (Relay.bodyChunks req)).

(** ** The shape of a relay response *)

(** No reply yet; one JSON reply, after an [Allow] header or not; or a head
    followed by writes only and then, at most, the end. *)
Inductive wellFormedReply : list Relay.resEvent -> Prop :=
| NoReply : wellFormedReply []
| JsonReply s e : wellFormedReply [Relay.StatusJson s e]
| HeaderJsonReply n vs s e :
    wellFormedReply [Relay.SetHeader n vs; Relay.StatusJson s e]
| StreamReply s hs cs tail :
    tail = [] \/ tail = [Relay.EndResponse] ->
    wellFormedReply (Relay.WriteHead s hs :: map Relay.Write cs ++ tail).

(** ** Renders and the callbacks they build *)

(** Every render of the page builds [sendTextMessage] anew, over the
    [memory] of that render; the setters it calls act on the page as it is
    when the call is made.  [useCallback] keeps [sendUserPrompt] from one
    render to the next as long as [isHydrated], [isStreaming] and
    [messages] are the same ([mapMessagesToApi] never changes), and the
    function kept calls the [sendTextMessage] of the render it was built
    in.  [sendTextMessage] and [sendUserPrompt] above are the case in which
    the render that built the function is the page the call finds. *)
Definition keepsCallback (built st : HomeState) : Prop :=
  isHydrated st = isHydrated built
  /\ isStreaming st = isStreaming built
  /\ messages st = messages built.

Section Renders.

Variable fetch : ChatRequest -> awaited Response.
Variable newId : jsstring.
Variable now : Z.

(** [sendTextMessage] as built in [render], called on the page [st]. *)
Definition sendTextMessageOf (render st : HomeState) (history : list ApiMessage)
  : sent :=
  let st1 := setError None (setIsStreaming true st) in
  match history with
  | [] => {| after := setIsStreaming false st1; requests := []; settled := true |}
  | _ =>
      let request := chatRequest (memory render) history in
      let failed s := {| after := turnFailed s; requests := [request];
                         settled := true |} in
      match fetch request with
      | Rejected => failed st1
      | Unsettled => {| after := st1; requests := [request]; settled := false |}
      | Fulfilled response =>
          match Stream.okStatus (status response), body response with
          | true, Some b =>
              let assistantMessage0 := createMessage newId now assistant [] in
              let st2 := setMessages (fun prev => prev ++ [assistantMessage0]) st1 in
              match readLoop Utf8.newTextDecoder
                      {| assistantMessage := assistantMessage0; view := st2 |} b with
              | Returned t =>
                  {| after := view t; requests := [request]; settled := true |}
              | Broke t =>
                  {| after := setIsStreaming false (view t);
                     requests := [request]; settled := true |}
              | Threw t => failed (view t)
              | Waiting t =>
                  {| after := view t; requests := [request]; settled := false |}
              end
          | _, _ => failed st1
          end
      end
  end.

Variable userId : jsstring.
Variable userNow : Z.

(** [sendUserPrompt] as built in the render [built], called on the page
    [st]: the flags and the message list it reads are those of [built]. *)
Definition sendUserPromptOf (built st : HomeState) (prompt : jsstring) : sent :=
  let trimmed := trim prompt in
  if isEmpty trimmed || isStreaming built || negb (isHydrated built)
  then {| after := st; requests := []; settled := true |}
  else
    let st1 := setError None st in
    let userMessage := createMessage userId userNow user trimmed in
    let updatedMessages := messages built ++ [userMessage] in
    let st2 := setInput [] (setMessages (fun _ => updatedMessages) st1) in
    sendTextMessageOf built st2 (mapMessagesToApi updatedMessages).

(** [submitMessage] is built by every render and reads the [input] of the
    page; the [sendUserPrompt] it calls is the one kept from [built]. *)
Definition submitMessageOf (built st : HomeState) : sent :=
  if isEmpty (trim (input st))
  then {| after := st; requests := []; settled := true |}
  else sendUserPromptOf built st (trim (input st)).

End Renders.

(** A page whose memory digest was refreshed after [hiPage] was rendered. *)
Definition remindedPage : HomeState :=
  {| messages := messages hiPage; input := lit "again"; isStreaming := false;
     error := None; isHydrated := true; memory := lit "User: Hi" |}.

(** A hydrated, idle page of four messages with no memory digest yet. *)
Definition fourPage : HomeState :=
  {| messages := [createMessage (lit "u1") 1 user (lit "Hi");
                  createMessage (lit "a0") 2 assistant (lit "Hello");
                  createMessage (lit "u2") 3 user (lit "More");
                  createMessage (lit "a1") 4 assistant (lit "Sure")];
     input := []; isStreaming := false; error := None;
     isHydrated := true; memory := [] |}.

(** ** The lines of a stream and the text they carry *)

(** The lines the loop goes through, chunk by chunk. *)
Fixpoint streamLines (decoder : Utf8.TextDecoder) (chunks : list (list Z))
  : list jsstring :=
  match chunks with
  | [] => []
  | value :: rest =>
      let (decoder', chunkValue) := Utf8.decodeStream decoder value in
      split 10 chunkValue ++ streamLines decoder' rest
  end.

(** The text a line adds to the assistant message. *)
Definition lineDelta (line : jsstring) : jsstring :=
  if isDataLine line then
    match Json.parse (payloadOf line) with
    | Some parsed =>
        match deltaOf parsed with
        | Some delta => if truthy delta then toText delta else []
        | None => []
        end
    | None => []
    end
  else [].

(** The delta of the line, if it has one, is of a type whose conversion to
    text [toText] gives as the language does: a string (the type the
    program declares for it) or a boolean. *)
Definition plainDelta (line : jsstring) : bool :=
  match Json.parse (payloadOf line) with
  | Some parsed =>
      match deltaOf parsed with
      | Some (JString _) | Some (JBool _) | None => true
      | Some _ => false
      end
  | None => true
  end.

(** A line that adds nothing: it is no data line, or its payload does not
    parse, or reading the delta throws, or the delta is missing or falsy. *)
Definition isSilent (line : jsstring) : Prop :=
  isDataLine line = false
  \/ Json.parse (payloadOf line) = None
  \/ exists parsed,
       Json.parse (payloadOf line) = Some parsed
       /\ (deltaOf parsed = None
           \/ exists delta, deltaOf parsed = Some delta /\ truthy delta = false).

(** [m] with [text] added to its content. *)
Definition withText (m : ChatMessageData) (text : jsstring) : ChatMessageData :=
  {| id := id m; role := role m; content := content m ++ text;
     createdAt := createdAt m |}.

(** A stream of a comment, a data line that is not JSON, an event that only
    names the role, and an event without choices, cut in the middle of a
    line; and the same stream with one text delta. *)
Definition quietLines : list jsstring :=
  [lit ": keep-alive"; [];
   dataLine (quoted "{'choices':[{'delta':"); [];
   dataLine (quoted "{'choices':[{'delta':{'role':'assistant'}}]}"); [];
   dataLine (quoted "{'id':'c1'}"); []; []].

Definition quietChunks : list (list Z) :=
  let bytes := Utf8.encode (join [10%Z] quietLines) in
  [firstn 20 bytes; skipn 20 bytes].

Definition quietThenHel : list (list Z) :=
  quietChunks ++ [Utf8.encode (deltaEvent (lit "Hel"))].

(** A page whose last message is an answer, and that answer. *)
Definition helloAnswer : ChatMessageData :=
  createMessage (lit "a0") 2 assistant (lit "Hello").

Definition answeredPage : HomeState :=
  {| messages := messages hiPage ++ [helloAnswer];
     input := []; isStreaming := false; error := None;
     isHydrated := true; memory := [] |}.

(* ================================================================== *)
(** * Properties *)
(* ================================================================== *)

Section MemoryDigest.

Lemma filter_all_true {A} (p : A -> bool) (l : list A) :
  Forall (fun x => p x = true) l -> filter p l = l.
Proof.
  induction 1 as [|x l Hx _ IH]; simpl; [reflexivity|].
  now rewrite Hx, IH.
Qed.

Lemma Forall_sliceLast {A} (P : A -> Prop) n (l : list A) :
  Forall P l -> Forall P (sliceLast n l).
Proof.
  unfold sliceLast. generalize (length l - n)%nat as k.
  intros k H; revert k. induction H; intros [|k]; simpl; auto.
Qed.

Lemma sliceLast_length {A} n (l : list A) :
  (length (sliceLast n l) <= n)%nat.
Proof. unfold sliceLast. rewrite length_skipn. lia. Qed.

Lemma sliceLast_short {A} n (l : list A) :
  (length l <= n)%nat -> sliceLast n l = l.
Proof.
  intros H. unfold sliceLast.
  replace (length l - n)%nat with 0%nat by lia. reflexivity.
Qed.

Lemma recentDialogue_idem history :
  recentDialogue (recentDialogue history) = recentDialogue history.
Proof.
  unfold recentDialogue at 1.
  rewrite filter_all_true.
  - apply sliceLast_short, sliceLast_length.
  - apply Forall_sliceLast. apply Forall_forall.
    intros x Hx. apply filter_In in Hx. tauto.
Qed.

(** C10: the memory digest reads only the last (at most) six user or
    assistant messages of the history, and it is never longer than 600
    code units: a longer joined digest is cut to its first 597 units
    followed by three dots. *)
Theorem generateConversationSummary_bounded (history : list ChatMessageData) :
  let recent := recentDialogue history in
  let digest := joinedDigest recent in
  (length recent <= 6)%nat
  /\ (exists older, filter isDialogue history = older ++ recent)
  /\ generateConversationSummary history = generateConversationSummary recent
  /\ generateConversationSummary history
     = (if Nat.ltb 600 (length digest)
        then firstn 597 digest ++ lit "..." else digest)
  /\ (length (generateConversationSummary history) <= 600)%nat.
Proof.
  intros recent digest.
  assert (Hshape : generateConversationSummary history
                   = if Nat.ltb 600 (length digest)
                     then firstn 597 digest ++ lit "..." else digest).
  { unfold generateConversationSummary. cbv zeta.
    fold recent. fold (joinedDigest recent). fold digest.
    destruct (Nat.eqb (length recent) 0) eqn:E0.
    - apply Nat.eqb_eq in E0. subst digest.
      destruct recent; [reflexivity|discriminate].
    - destruct (Nat.eqb (length (keepTruthy (map summaryLine recent))) 0) eqn:E1;
        [|reflexivity].
      apply Nat.eqb_eq in E1. subst digest. unfold joinedDigest.
      destruct (keepTruthy (map summaryLine recent)); [reflexivity|discriminate]. }
  repeat split.
  - apply sliceLast_length.
  - exists (firstn (length (filter isDialogue history) - MAX_MEMORY_MESSAGES)
                   (filter isDialogue history)).
    symmetry. apply firstn_skipn.
  - subst recent. unfold generateConversationSummary. cbv zeta.
    now rewrite !recentDialogue_idem.
  - exact Hshape.
  - rewrite Hshape.
    destruct (Nat.ltb_spec 600 (length digest)) as [Hlong|Hshort].
    + rewrite length_app, length_firstn.
      change (length (lit "...")) with 3%nat. lia.
    + exact Hshort.
Qed.

End MemoryDigest.


Section RelayEndpoint.

Import Relay.

Lemma pipe_emitted (b : Stream.body) :
  pipe (Stream.emitted b)
  = map Write (Stream.chunks b)
    ++ match Stream.ending_of b with
       | Stream.Stalls => []
       | _ => [EndResponse]
       end.
Proof.
  unfold pipe, Stream.emitted. rewrite flat_map_app. f_equal.
  - induction (Stream.chunks b) as [|c cs IH]; simpl; [reflexivity|].
    now rewrite IH.
  - now destruct (Stream.ending_of b).
Qed.

Lemma pipe_firstn n (events : list Stream.event) :
  pipe (firstn n events) = firstn n (pipe events).
Proof.
  revert n. induction events as [|e es IH]; intros [|n]; simpl; try reflexivity.
  rewrite IH. now destruct e.
Qed.

Lemma written_writes (cs : list (list Z)) (tail : list resEvent) :
  written (map Write cs ++ tail) = cs ++ written tail.
Proof. induction cs as [|c cs IH]; simpl; [reflexivity|]. now rewrite IH. Qed.

Lemma ended_writes (cs : list (list Z)) (tail : list resEvent) :
  ended (map Write cs ++ tail) = ended tail.
Proof. induction cs as [|c cs IH]; simpl; [reflexivity|]. exact IH. Qed.

(** The handler's own test of the body, read off [hasMessageArray]. *)
Lemma hasMessageArray_inv (req : NextApiRequest) :
  hasMessageArray req = true ->
  exists rawBody members items,
    bufferRequest req = Fulfilled rawBody
    /\ Json.parse rawBody = Some (JObject members)
    /\ lookup (lit "messages") members = Some (JArray items).
Proof.
  unfold hasMessageArray. intros H.
  destruct (bufferRequest req) as [rawBody| |] eqn:Eb; try discriminate.
  destruct (Json.parse rawBody) as [[| | | | |members]|] eqn:Ep; try discriminate.
  destruct (lookup (lit "messages") members) as [[| | | |items|]|] eqn:Em;
    try discriminate.
  now exists rawBody, members, items.
Qed.

(** C1: a POST request whose body parses to an object with an array
    [messages], for which the upstream call is made and answers with an
    ok status and a body, gets status 200 and then exactly the chunks of
    the upstream body, one write per chunk and in their order; the
    response is ended when, and only when, the upstream stream ends or
    fails.  After any number [n] of upstream events the response holds
    the head and the image of these [n] events, nothing more. *)
Theorem handler_forwards_upstream_stream
        (key : option jsstring) (fetch : UpstreamRequest -> awaited UpstreamResponse)
        (req : NextApiRequest) (rq : UpstreamRequest)
        (r : UpstreamResponse) (b : Stream.body) :
  method req = lit "POST" ->
  hasMessageArray req = true ->
  In rq (upstreamCalls (handler key fetch req)) ->
  fetch rq = Fulfilled r ->
  Stream.okStatus (upstreamStatus r) = true ->
  upstreamBody r = Some b ->
  let out := response (handler key fetch req) in
  out = WriteHead 200 STREAM_HEADERS
          :: map Write (Stream.chunks b)
          ++ match Stream.ending_of b with
             | Stream.Stalls => []
             | _ => [EndResponse]
             end
  /\ statusOf out = Some 200%Z
  /\ written out = Stream.chunks b
  /\ ended out = match Stream.ending_of b with
                 | Stream.Stalls => false
                 | _ => true
                 end
  /\ (forall n, firstn (S n) out
                = WriteHead 200 STREAM_HEADERS
                    :: pipe (firstn n (Stream.emitted b))).
Proof.
  intros Hpost Hbody Hcall Hfetch Hok Hstream out.
  assert (Hout : out = WriteHead 200 STREAM_HEADERS :: pipe (Stream.emitted b)).
  { subst out. revert Hcall. unfold handler. rewrite Hpost.
    change (JSString.eqb (lit "POST") (lit "POST")) with true. cbn [negb].
    destruct key as [[|k ks]|]; cbn [upstreamCalls In]; try tauto.
    destruct (hasMessageArray_inv req Hbody) as (raw & members & items & Hb & Hp & Hm).
    rewrite Hb, Hp. cbn [prop]. rewrite Hm.
    cbn [upstreamCalls response In]. intros [<-|[]].
    now rewrite Hfetch, Hok, Hstream. }
  rewrite Hout, pipe_emitted. repeat split.
  - cbn [written]. rewrite written_writes.
    destruct (Stream.ending_of b); cbn; now rewrite app_nil_r.
  - cbn [ended]. rewrite ended_writes. now destruct (Stream.ending_of b).
  - intros n. cbn [firstn]. f_equal.
    now rewrite pipe_firstn, pipe_emitted.
Qed.

Lemma handler_forwards_upstream_stream_witness :
  let req := plainRequest (lit "POST")
               (quoted "{'messages':[{'role':'user','content':'Hi'}]}") in
  let fetch := sampleUpstream [[100; 97]; [116; 97]; [58]]%Z Stream.Ends in
  written (response (handler (Some (lit "sk-test")) fetch req))
  = [[100; 97]; [116; 97]; [58]]%Z.
Proof.
  intros req fetch.
  refine (proj1 (proj2 (proj2
    (@handler_forwards_upstream_stream (Some (lit "sk-test")) fetch req
       (upstreamRequest (lit "sk-test")
          (JArray [JObject [(lit "role", JString (lit "user"));
                            (lit "content", JString (lit "Hi"))]]))
       {| upstreamStatus := 200;
          upstreamBody := Some {| Stream.chunks := [[100; 97]; [116; 97]; [58]]%Z;
                                  Stream.ending_of := Stream.Ends |};
          text := Fulfilled [] |}
       {| Stream.chunks := [[100; 97]; [116; 97]; [58]]%Z;
          Stream.ending_of := Stream.Ends |}
       _ _ _ _ _ _)))).
  - reflexivity.
  - vm_compute. reflexivity.
  - vm_compute. left. reflexivity.
  - reflexivity.
  - reflexivity.
  - reflexivity.
Defined.

(** C6, as stated, fails: with the credential in place a body that is
    not JSON is answered with status 500, a body whose [messages] array
    holds no role/content pair is forwarded upstream, and without the
    credential any body is answered with status 500. *)
Lemma handler_malformed_body_not_always_4xx :
  let key := Some (lit "sk-test") in
  let fetch := sampleUpstream [[100; 97]]%Z Stream.Ends in
  ~ (forall key fetch req,
        method req = lit "POST" ->
        hasRoleContentList req = false ->
        (exists s, statusOf (response (handler key fetch req)) = Some s
                   /\ isClientError s = true)
        /\ upstreamCalls (handler key fetch req) = [])
  /\ (hasRoleContentList (plainRequest (lit "POST") (lit "not json")) = false
      /\ handler key fetch (plainRequest (lit "POST") (lit "not json"))
         = {| upstreamCalls := []; response := unexpected |})
  /\ (hasRoleContentList (plainRequest (lit "POST") (quoted "{'messages':[1,2]}"))
      = false
      /\ upstreamCalls
           (handler key fetch (plainRequest (lit "POST") (quoted "{'messages':[1,2]}")))
         = [upstreamRequest (lit "sk-test") (JArray [JNumber (lit "1"); JNumber (lit "2")])]
      /\ statusOf
           (response
              (handler key fetch (plainRequest (lit "POST") (quoted "{'messages':[1,2]}"))))
         = Some 200%Z)
  /\ statusOf (response (handler None fetch (plainRequest (lit "POST") (lit "{}"))))
     = Some 500%Z.
Proof.
  intros key fetch. split; [|repeat split; vm_compute; reflexivity].
  intros claim.
  destruct (claim key fetch (plainRequest (lit "POST") (lit "not json")))
    as [(s & Hs & H4) _]; [reflexivity|vm_compute; reflexivity|].
  vm_compute in Hs. injection Hs as <-. vm_compute in H4. discriminate.
Qed.

(** C6, amended: a POST request whose body does not decode to an object
    with an array [messages] causes no upstream call; when the credential
    is configured and the body is JSON other than [null], the reply is
    status 400 with the text "Invalid request payload.". *)
Theorem handler_rejects_body_without_message_array
        (key : option jsstring) (fetch : UpstreamRequest -> awaited UpstreamResponse)
        (req : NextApiRequest) :
  method req = lit "POST" ->
  hasMessageArray req = false ->
  upstreamCalls (handler key fetch req) = []
  /\ (forall apiKey rawBody v,
        key = Some apiKey -> apiKey <> [] ->
        bufferRequest req = Fulfilled rawBody ->
        Json.parse rawBody = Some v -> v <> JNull ->
        response (handler key fetch req)
        = [StatusJson 400 (lit "Invalid request payload.")]).
Proof.
  intros Hpost Hbody. unfold handler. rewrite Hpost.
  change (JSString.eqb (lit "POST") (lit "POST")) with true. cbn [negb].
  unfold hasMessageArray in Hbody. split.
  - destruct key as [[|k ks]|]; try reflexivity.
    destruct (bufferRequest req) as [rawBody| |]; try reflexivity.
    destruct (Json.parse rawBody) as [[| | | | |members]|]; try reflexivity.
    cbn [prop]. cbn [isArray] in Hbody.
    destruct (lookup (lit "messages") members) as [[| | | |items|]|];
      try reflexivity. discriminate.
  - intros apiKey rawBody v -> Hkey Hb Hp Hv.
    destruct apiKey as [|k ks]; [contradiction|].
    rewrite Hb in *. rewrite Hp in *.
    destruct v as [| | | | |members]; try reflexivity; [contradiction|].
    cbn [prop].
    destruct (lookup (lit "messages") members) as [[| | | |items|]|];
      try reflexivity. discriminate.
Qed.

Lemma handler_rejects_body_without_message_array_witness :
  let req := plainRequest (lit "POST") (quoted "{'messages':'Hi'}") in
  let fetch := sampleUpstream [[100; 97]]%Z Stream.Ends in
  handler (Some (lit "sk-test")) fetch req
  = {| upstreamCalls := [];
       response := [StatusJson 400 (lit "Invalid request payload.")] |}.
Proof.
  intros req fetch.
  destruct (@handler_rejects_body_without_message_array
              (Some (lit "sk-test")) fetch req) as [Hcalls Hreply].
  - reflexivity.
  - vm_compute. reflexivity.
  - specialize (Hreply (lit "sk-test") (quoted "{'messages':'Hi'}")
                       (JObject [(lit "messages", JString (lit "Hi"))])).
    destruct (handler (Some (lit "sk-test")) fetch req) as [calls reply].
    cbn [upstreamCalls response] in *. f_equal.
    + exact Hcalls.
    + apply Hreply.
      * reflexivity.
      * discriminate.
      * vm_compute. reflexivity.
      * vm_compute. reflexivity.
      * discriminate.
Defined.

(** C7, as stated, fails: the reply to a request that finds no credential
    says that the API key is not configured. *)
Lemma handler_missing_key_reply_names_configuration :
  let fetch := sampleUpstream [[100; 97]]%Z Stream.Ends in
  let req := plainRequest (lit "POST")
               (quoted "{'messages':[{'role':'user','content':'Hi'}]}") in
  ~ (forall fetch req,
        method req = lit "POST" ->
        upstreamCalls (handler None fetch req) = []
        /\ exists s errorText,
             response (handler None fetch req) = [StatusJson s errorText]
             /\ isServerError s = true
             /\ namesConfiguration errorText = false)
  /\ response (handler None fetch req)
     = [StatusJson 500 (lit "OpenAI API key is not configured.")]
  /\ namesConfiguration (lit "OpenAI API key is not configured.") = true.
Proof.
  intros fetch req. split; [|split; vm_compute; reflexivity].
  intros claim.
  destruct (claim fetch req) as [_ (s & e & Hr & _ & Hn)]; [reflexivity|].
  vm_compute in Hr. injection Hr as <- <-. vm_compute in Hn. discriminate.
Qed.

(** C7, amended: a POST request that finds no credential (the variable is
    unset or empty) causes no upstream call and is answered with status
    500 and the text "OpenAI API key is not configured.", whatever its
    body. *)
Theorem handler_without_key_replies_500
        (key : option jsstring) (fetch : UpstreamRequest -> awaited UpstreamResponse)
        (req : NextApiRequest) :
  method req = lit "POST" ->
  key = None \/ key = Some [] ->
  handler key fetch req
  = {| upstreamCalls := [];
       response := [StatusJson 500 (lit "OpenAI API key is not configured.")] |}.
Proof.
  intros Hpost Hkey. unfold handler. rewrite Hpost.
  change (JSString.eqb (lit "POST") (lit "POST")) with true.
  now destruct Hkey as [-> | ->].
Qed.

Lemma handler_without_key_replies_500_witness :
  statusOf (response (handler None (sampleUpstream [] Stream.Ends)
                        (plainRequest (lit "POST") (quoted "{'messages':[]}"))))
  = Some 500%Z.
Proof.
  rewrite (@handler_without_key_replies_500 None (sampleUpstream [] Stream.Ends)
             (plainRequest (lit "POST") (quoted "{'messages':[]}"))).
  - reflexivity.
  - reflexivity.
  - left. reflexivity.
Defined.

End RelayEndpoint.

Section ParsingLoop.

Lemma jsstring_eqb_eq (a b : jsstring) : JSString.eqb a b = true -> a = b.
Proof.
  revert b. induction a as [|x a IH]; intros [|y b]; simpl; try discriminate.
  - reflexivity.
  - intros H. apply andb_prop in H as [Hx Hab].
    apply Z.eqb_eq in Hx. f_equal; auto.
Qed.

Lemma jsstring_eqb_refl (a : jsstring) : JSString.eqb a a = true.
Proof. induction a; simpl; [reflexivity|]. now rewrite Z.eqb_refl. Qed.

Lemma processLine_not_data (t : turn) (line : jsstring) :
  isDataLine line = false -> processLine t line = Continue t.
Proof.
  unfold isDataLine, processLine. cbv zeta.
  destruct (isEmpty (trim line)); [reflexivity|].
  cbn [negb andb orb]. now intros ->.
Qed.

Lemma processLine_data (t : turn) (line : jsstring) :
  isDataLine line = true ->
  processLine t line
  = if JSString.eqb (payloadOf line) DONE then Return (stopStreaming t)
    else match Json.parse (payloadOf line) with
         | None => Continue t
         | Some parsed =>
             match deltaOf parsed with
             | None => Continue t
             | Some delta =>
                 if truthy delta then Continue (applyDelta t delta)
                 else Continue t
             end
         end.
Proof.
  unfold isDataLine, processLine, payloadOf. cbv zeta.
  destruct (isEmpty (trim line)); [discriminate|].
  cbn [negb andb orb]. now intros ->.
Qed.

Lemma processLine_done (t : turn) (line : jsstring) :
  isDoneLine line = true -> processLine t line = Return (stopStreaming t).
Proof.
  unfold isDoneLine. intros H. apply andb_prop in H as [Hd He].
  now rewrite processLine_data, He.
Qed.

Lemma processLines_app (t : turn) (l1 l2 : list jsstring) :
  processLines t (l1 ++ l2)
  = match processLines t l1 with
    | Continue t' => processLines t' l2
    | Return t' => Return t'
    end.
Proof.
  revert t. induction l1 as [|l l1 IH]; intros t; simpl; [reflexivity|].
  destruct (processLine t l); [apply IH|reflexivity].
Qed.

Lemma readChunks_app (d : Utf8.TextDecoder) (t : turn) (c1 c2 : list (list Z)) :
  readChunks d t (c1 ++ c2)
  = match readChunks d t c1 with
    | Exhausted d' t' => readChunks d' t' c2
    | Sentinel t' => Sentinel t'
    end.
Proof.
  revert d t. induction c1 as [|c c1 IH]; intros d t; simpl; [reflexivity|].
  destruct (Utf8.decodeStream d c) as [d' text].
  destruct (processLines t (split 10 text)); [apply IH|reflexivity].
Qed.

Lemma replaceLast_snoc (m x : ChatMessageData) (prev : list ChatMessageData) :
  replaceLast m (prev ++ [x]) = prev ++ [m].
Proof.
  unfold replaceLast. rewrite removelast_last.
  destruct prev; reflexivity.
Qed.

(** The loop touches the page only through the last message and, at the
    sentinel, the streaming flag. *)
Lemma applyDelta_view base prev s (t : turn) (delta : json) :
  view t = shown base prev (assistantMessage t) s ->
  view (applyDelta t delta)
  = shown base prev (assistantMessage (applyDelta t delta)) s.
Proof.
  intros H. unfold applyDelta. cbn [view assistantMessage].
  rewrite H. unfold setMessages, shown. cbn.
  now rewrite replaceLast_snoc.
Qed.

Lemma processLine_view base prev s (t : turn) (line : jsstring) :
  view t = shown base prev (assistantMessage t) s ->
  match processLine t line with
  | Continue t' => view t' = shown base prev (assistantMessage t') s
  | Return t' => view t' = shown base prev (assistantMessage t') false
  end.
Proof.
  intros H. unfold processLine. cbv zeta.
  destruct (isEmpty (trim line) || negb (startsWith (trim line) (lit "data:")));
    [exact H|].
  destruct (JSString.eqb (removeDataPrefix (trim line)) DONE).
  { cbn [stopStreaming view assistantMessage]. now rewrite H. }
  destruct (Json.parse (removeDataPrefix (trim line))) as [parsed|]; [|exact H].
  destruct (deltaOf parsed) as [delta|]; [|exact H].
  destruct (truthy delta); [|exact H].
  now apply applyDelta_view.
Qed.

Lemma processLines_view base prev s (lines : list jsstring) (t : turn) :
  view t = shown base prev (assistantMessage t) s ->
  match processLines t lines with
  | Continue t' => view t' = shown base prev (assistantMessage t') s
  | Return t' => view t' = shown base prev (assistantMessage t') false
  end.
Proof.
  revert t. induction lines as [|l ls IH]; intros t H; cbn [processLines].
  - exact H.
  - pose proof (@processLine_view base prev s t l H) as Hl.
    destruct (processLine t l) as [t'|t']; [now apply IH|exact Hl].
Qed.

Lemma readChunks_view base prev s (chunks : list (list Z))
      (d : Utf8.TextDecoder) (t : turn) :
  view t = shown base prev (assistantMessage t) s ->
  match readChunks d t chunks with
  | Exhausted _ t' => view t' = shown base prev (assistantMessage t') s
  | Sentinel t' => view t' = shown base prev (assistantMessage t') false
  end.
Proof.
  revert d t. induction chunks as [|c cs IH]; intros d t H; cbn [readChunks].
  - exact H.
  - destruct (Utf8.decodeStream d c) as [d' text].
    pose proof (@processLines_view base prev s (split 10 text) t H) as Hl.
    destruct (processLines t (split 10 text)) as [t'|t']; [now apply IH|exact Hl].
Qed.

Lemma openTurn_view (newId : jsstring) (now : Z) (st : HomeState) :
  view (openTurn newId now st)
  = shown (setError None st) (messages st)
          (assistantMessage (openTurn newId now st)) true.
Proof. reflexivity. Qed.

Lemma processLine_head (t : turn) (line : jsstring) :
  match processLine t line with
  | Continue t' | Return t' => sameHead (assistantMessage t) (assistantMessage t')
  end.
Proof.
  unfold processLine, sameHead. cbv zeta.
  destruct (isEmpty (trim line) || negb (startsWith (trim line) (lit "data:")));
    [tauto|].
  destruct (JSString.eqb (removeDataPrefix (trim line)) DONE); [cbn; tauto|].
  destruct (Json.parse (removeDataPrefix (trim line))) as [parsed|]; [|tauto].
  destruct (deltaOf parsed) as [delta|]; [|tauto].
  destruct (truthy delta); [cbn|]; tauto.
Qed.

Lemma processLines_head (lines : list jsstring) (t : turn) :
  match processLines t lines with
  | Continue t' | Return t' => sameHead (assistantMessage t) (assistantMessage t')
  end.
Proof.
  revert t. induction lines as [|l ls IH]; intros t; cbn [processLines].
  - unfold sameHead; tauto.
  - pose proof (processLine_head t l) as Hl.
    destruct (processLine t l) as [t'|t']; [|exact Hl].
    specialize (IH t'). unfold sameHead in *.
    destruct (processLines t' ls); intuition congruence.
Qed.

Lemma readChunks_head (chunks : list (list Z)) (d : Utf8.TextDecoder) (t : turn) :
  match readChunks d t chunks with
  | Exhausted _ t' | Sentinel t' =>
      sameHead (assistantMessage t) (assistantMessage t')
  end.
Proof.
  revert d t. induction chunks as [|c cs IH]; intros d t; cbn [readChunks].
  - unfold sameHead; tauto.
  - destruct (Utf8.decodeStream d c) as [d' text].
    pose proof (processLines_head (split 10 text) t) as Hl.
    destruct (processLines t (split 10 text)) as [t'|t']; [|exact Hl].
    specialize (IH d' t'). unfold sameHead in *.
    destruct (readChunks d' t' cs); intuition congruence.
Qed.

(** [sendTextMessage] once the relay has answered with a stream. *)
Lemma sendTextMessage_streamed
      (fetch : ChatRequest -> awaited Response) (newId : jsstring) (now : Z)
      (st : HomeState) (history : list ApiMessage)
      (r : Response) (b : Stream.body) :
  history <> [] ->
  fetch (chatRequest (memory st) history) = Fulfilled r ->
  Stream.okStatus (status r) = true ->
  body r = Some b ->
  sendTextMessage fetch newId now st history
  = let request := chatRequest (memory st) history in
    match readLoop Utf8.newTextDecoder (openTurn newId now st) b with
    | Returned t => {| after := view t; requests := [request]; settled := true |}
    | Broke t => {| after := setIsStreaming false (view t);
                    requests := [request]; settled := true |}
    | Threw t => {| after := turnFailed (view t);
                    requests := [request]; settled := true |}
    | Waiting t => {| after := view t; requests := [request]; settled := false |}
    end.
Proof.
  intros Hhist Hfetch Hok Hbody.
  unfold sendTextMessage. destruct history as [|h hs]; [contradiction|].
  cbv zeta. now rewrite Hfetch, Hok, Hbody.
Qed.

(** C3: once a line of a decoded chunk carries the payload [[DONE]], the
    call returns with the streaming flag cleared and with the assistant
    message as the lines before it left it.  The lines after it in the
    chunk, the chunks after it and the way the stream goes on do not
    appear in the result: none of them is processed. *)
Theorem done_sentinel_ends_turn
        (fetch : ChatRequest -> awaited Response) (newId : jsstring) (now : Z)
        (st : HomeState) (history : list ApiMessage)
        (r : Response) (b : Stream.body)
        (pre rest : list (list Z)) (value : list Z)
        (d1 d2 : Utf8.TextDecoder) (t1 t2 : turn)
        (text line : jsstring) (before later : list jsstring) :
  history <> [] ->
  fetch (chatRequest (memory st) history) = Fulfilled r ->
  Stream.okStatus (status r) = true ->
  body r = Some b ->
  Stream.chunks b = pre ++ value :: rest ->
  readChunks Utf8.newTextDecoder (openTurn newId now st) pre = Exhausted d1 t1 ->
  Utf8.decodeStream d1 value = (d2, text) ->
  split 10 text = before ++ line :: later ->
  processLines t1 before = Continue t2 ->
  isDoneLine line = true ->
  sendTextMessage fetch newId now st history
  = {| after := setIsStreaming false (view t2);
       requests := [chatRequest (memory st) history];
       settled := true |}
  /\ isStreaming (after (sendTextMessage fetch newId now st history)) = false
  /\ messages (after (sendTextMessage fetch newId now st history))
     = messages (view t2).
Proof.
  intros Hhist Hfetch Hok Hbody Hchunks Hpre Hdec Hsplit Hbefore Hdone.
  assert (Hloop : readLoop Utf8.newTextDecoder (openTurn newId now st) b
                  = Returned (stopStreaming t2)).
  { unfold readLoop. rewrite Hchunks, readChunks_app, Hpre.
    cbn [readChunks]. rewrite Hdec, Hsplit, processLines_app, Hbefore.
    cbn [processLines]. now rewrite (processLine_done t2 line Hdone). }
  assert (Hres : sendTextMessage fetch newId now st history
                 = {| after := setIsStreaming false (view t2);
                      requests := [chatRequest (memory st) history];
                      settled := true |}).
  { rewrite (@sendTextMessage_streamed fetch newId now st history r b Hhist Hfetch Hok Hbody).
    cbv zeta. now rewrite Hloop. }
  rewrite Hres. repeat split.
Qed.


End ParsingLoop.

Section Turns.

Lemma done_sentinel_ends_turn_witness :
  let chunks :=
    [Utf8.encode (deltaEvent (lit "Hel"));
     Utf8.encode (deltaEvent (lit "lo") ++ sseEvent DONE ++ deltaEvent (lit "!"));
     Utf8.encode (deltaEvent (lit "late"))] in
  let res := sendTextMessage (mockedRelay chunks Stream.Errors) (lit "a1") 2
               hiPage hiHistory in
  isStreaming (after res) = false
  /\ map content (messages (after res)) = [lit "Hi"; lit "Hello"].
Proof.
  intros chunks res.
  destruct (@done_sentinel_ends_turn
              (mockedRelay chunks Stream.Errors) (lit "a1") 2 hiPage hiHistory
              {| status := 200;
                 body := Some {| Stream.chunks := chunks;
                                 Stream.ending_of := Stream.Errors |} |}
              {| Stream.chunks := chunks; Stream.ending_of := Stream.Errors |}
              [Utf8.encode (deltaEvent (lit "Hel"))]
              [Utf8.encode (deltaEvent (lit "late"))]
              (Utf8.encode (deltaEvent (lit "lo") ++ sseEvent DONE
                            ++ deltaEvent (lit "!")))
              {| Utf8.bytesState := Utf8.idle; Utf8.bomSeen := true |}
              {| Utf8.bytesState := Utf8.idle; Utf8.bomSeen := true |}
              (applyDelta (openTurn (lit "a1") 2 hiPage) (JString (lit "Hel")))
              (applyDelta
                 (applyDelta (openTurn (lit "a1") 2 hiPage) (JString (lit "Hel")))
                 (JString (lit "lo")))
              (deltaEvent (lit "lo") ++ sseEvent DONE ++ deltaEvent (lit "!"))
              (dataLine DONE)
              [dataLine (deltaPayload (lit "lo")); []]
              [[]; dataLine (deltaPayload (lit "!")); []; []])
    as (Hres & Hflag & Hmsgs).
  - discriminate.
  - reflexivity.
  - reflexivity.
  - reflexivity.
  - reflexivity.
  - vm_compute. reflexivity.
  - vm_compute. reflexivity.
  - vm_compute. reflexivity.
  - vm_compute. reflexivity.
  - vm_compute. reflexivity.
  - split; [exact Hflag|]. subst res. rewrite Hmsgs. vm_compute. reflexivity.
Defined.


Lemma sentinel_turn_result
      (fetch : ChatRequest -> awaited Response) (newId : jsstring) (now : Z)
      (st : HomeState) (history : list ApiMessage)
      (r : Response) (b : Stream.body) (t : turn) :
  history <> [] ->
  fetch (chatRequest (memory st) history) = Fulfilled r ->
  Stream.okStatus (status r) = true ->
  body r = Some b ->
  readChunks Utf8.newTextDecoder (openTurn newId now st) (Stream.chunks b)
  = Sentinel t ->
  after (sendTextMessage fetch newId now st history)
  = shown (setError None st) (messages st) (assistantMessage t) false.
Proof.
  intros Hhist Hfetch Hok Hbody Hrun.
  rewrite (@sendTextMessage_streamed fetch newId now st history r b
             Hhist Hfetch Hok Hbody).
  cbv zeta. unfold readLoop. rewrite Hrun. cbn [after].
  pose proof (@readChunks_view (setError None st) (messages st) true
                (Stream.chunks b) Utf8.newTextDecoder (openTurn newId now st)
                (openTurn_view newId now st)) as Hv.
  now rewrite Hrun in Hv.
Qed.

(** C5: with the history [{user, "Hi"}] and a relay stream made of the
    delta events "Hel" and "lo" followed by the sentinel, delivered event
    by event or in one piece, the turn ends with the assistant message
    "Hello" as last message of the page and the streaming flag cleared,
    whatever the page held before and however the stream goes on. *)
Theorem hello_deltas_render_hello
        (newId : jsstring) (now : Z) (st : HomeState) (e : Stream.ending) :
  let hello := {| id := newId; role := assistant;
                  content := lit "Hello"; createdAt := now |} in
  let expected := {| messages := messages st ++ [hello]; input := input st;
                     isStreaming := false; error := None;
                     isHydrated := isHydrated st; memory := memory st |} in
  after (sendTextMessage (mockedRelay (map Utf8.encode helloEvents) e)
           newId now st hiHistory) = expected
  /\ after (sendTextMessage (mockedRelay [Utf8.encode (concat helloEvents)] e)
              newId now st hiHistory) = expected.
Proof.
  intros hello expected. split.
  - assert (H : match readChunks Utf8.newTextDecoder (openTurn newId now st)
                        (map Utf8.encode helloEvents) with
                | Sentinel t => assistantMessage t = hello
                | Exhausted _ _ => False
                end) by (vm_compute; reflexivity).
    destruct (readChunks Utf8.newTextDecoder (openTurn newId now st)
                (map Utf8.encode helloEvents)) as [|t] eqn:Hrun; [contradiction|].
    rewrite (@sentinel_turn_result _ newId now st hiHistory
               {| status := 200;
                  body := Some {| Stream.chunks := map Utf8.encode helloEvents;
                                  Stream.ending_of := e |} |}
               {| Stream.chunks := map Utf8.encode helloEvents;
                  Stream.ending_of := e |} t);
      try reflexivity; try discriminate; try exact Hrun.
    now rewrite H.
  - assert (H : match readChunks Utf8.newTextDecoder (openTurn newId now st)
                        [Utf8.encode (concat helloEvents)] with
                | Sentinel t => assistantMessage t = hello
                | Exhausted _ _ => False
                end) by (vm_compute; reflexivity).
    destruct (readChunks Utf8.newTextDecoder (openTurn newId now st)
                [Utf8.encode (concat helloEvents)]) as [|t] eqn:Hrun;
      [contradiction|].
    rewrite (@sentinel_turn_result _ newId now st hiHistory
               {| status := 200;
                  body := Some {| Stream.chunks := [Utf8.encode (concat helloEvents)];
                                  Stream.ending_of := e |} |}
               {| Stream.chunks := [Utf8.encode (concat helloEvents)];
                  Stream.ending_of := e |} t);
      try reflexivity; try discriminate; try exact Hrun.
    now rewrite H.
Qed.

(** C2 fails on the code: the loop splits every decoded chunk into lines
    on its own, so an event line cut by a chunk boundary is lost.  The
    event whose delta is "caf" followed by e-acute gives that text when it
    comes in one chunk; cut in three, the second cut falling inside the
    two-byte character, it gives no text; and so does every cut in two
    inside the line. *)
Theorem split_event_line_loses_delta :
  let parts := [firstn 20 cafeBytes; firstn 43 (skipn 20 cafeBytes);
                skipn 63 cafeBytes] in
  rendered [cafeBytes] = [lit "Hi"; lit "caf" ++ [233]%Z]
  /\ concat parts = cafeBytes
  /\ rendered parts = [lit "Hi"; []]
  /\ forallb (fun n =>
                match rendered [firstn n cafeBytes; skipn n cafeBytes] with
                | [_; []] => true
                | _ => false
                end) (seq 1 89) = true.
Proof. vm_compute. repeat split. Qed.

(** The streaming flag is set as long as the call has not come to its
    end, and cleared afterwards. *)
Lemma turn_streams_until_settled
      (fetch : ChatRequest -> awaited Response) (newId : jsstring) (now : Z)
      (st : HomeState) (history : list ApiMessage) :
  isStreaming (after (sendTextMessage fetch newId now st history))
  = negb (settled (sendTextMessage fetch newId now st history)).
Proof.
  unfold sendTextMessage. destruct history as [|h hs]; [reflexivity|].
  cbv zeta. destruct (fetch _) as [r| |]; try reflexivity.
  destruct (Stream.okStatus (status r)); [|reflexivity].
  destruct (body r) as [b|]; [|reflexivity].
  change {| assistantMessage := createMessage newId now assistant [];
            view := setMessages
                      (fun prev => prev ++ [createMessage newId now assistant []])
                      (setError None (setIsStreaming true st)) |}
    with (openTurn newId now st).
  unfold readLoop.
  pose proof (@readChunks_view (setError None st) (messages st) true
                (Stream.chunks b) Utf8.newTextDecoder (openTurn newId now st)
                (openTurn_view newId now st)) as Hv.
  destruct (readChunks Utf8.newTextDecoder (openTurn newId now st)
              (Stream.chunks b)) as [d t|t].
  - destruct (Stream.ending_of b); cbn; try reflexivity. now rewrite Hv.
  - cbn. now rewrite Hv.
Qed.

(** C8: while the streaming flag is set, a submitted prompt is dropped:
    the page, its message list included, stays as it is and no request
    goes out; the same holds for the form's submit action, and the text
    area and the send button are disabled. *)
Theorem prompt_rejected_while_streaming
        (fetch : ChatRequest -> awaited Response) (newId : jsstring) (now : Z)
        (userId : jsstring) (userNow : Z)
        (st : HomeState) (prompt : jsstring) :
  isStreaming st = true ->
  sendUserPrompt fetch newId now userId userNow st prompt
  = {| after := st; requests := []; settled := true |}
  /\ submitMessage fetch newId now userId userNow st
     = {| after := st; requests := []; settled := true |}
  /\ textareaDisabled st = true
  /\ submitDisabled st = true.
Proof.
  intros Hs.
  assert (Hp : forall p, sendUserPrompt fetch newId now userId userNow st p
                         = {| after := st; requests := []; settled := true |}).
  { intros p. unfold sendUserPrompt. cbv zeta. rewrite Hs.
    now rewrite orb_true_r. }
  repeat split.
  - apply Hp.
  - unfold submitMessage. destruct (isEmpty (trim (input st))); [reflexivity|apply Hp].
  - exact Hs.
  - unfold submitDisabled. now rewrite Hs.
Qed.

(** A first turn whose stream has delivered "Hel" and then stalls is still
    in flight; a second prompt on the page it left is dropped. *)
Lemma prompt_rejected_while_streaming_witness :
  let fetch := mockedRelay [Utf8.encode (deltaEvent (lit "Hel"))] Stream.Stalls in
  let first := sendTextMessage fetch (lit "a1") 2 hiPage hiHistory in
  settled first = false
  /\ sendUserPrompt fetch (lit "a2") 4 (lit "u2") 3 (after first) (lit "again")
     = {| after := after first; requests := []; settled := true |}.
Proof.
  intros fetch first. split; [vm_compute; reflexivity|].
  apply (@prompt_rejected_while_streaming fetch (lit "a2") 4 (lit "u2") 3
           (after first) (lit "again")).
  vm_compute. reflexivity.
Defined.

Lemma filter_keeps_partial (m : ChatMessageData) :
  role m = assistant ->
  filter keepsMessage [m] = if isEmpty (content m) then [] else [m].
Proof.
  intros Hr. cbn [filter]. unfold keepsMessage. rewrite Hr. cbn.
  now destruct (isEmpty (content m)).
Qed.

(** C9: a turn that fails before the stream is open (the request is
    rejected, or the response is not ok or has no body) and a turn whose
    stream fails while it is read both end with the streaming flag
    cleared and the retry message as error.  The message list is filtered
    by the test of the [catch] block; for a stream that failed, the
    partial assistant message is the last one of the list when it has
    received content and is absent from the list when it has not. *)
Theorem failed_turn_cleanup
        (fetch : ChatRequest -> awaited Response) (newId : jsstring) (now : Z)
        (st : HomeState) (history : list ApiMessage) :
  history <> [] ->
  let request := chatRequest (memory st) history in
  let res := sendTextMessage fetch newId now st history in
  let early := {| after := failedPage st (filter keepsMessage (messages st));
                  requests := [request]; settled := true |} in
  (fetch request = Rejected -> res = early)
  /\ (forall r, fetch request = Fulfilled r ->
                Stream.okStatus (status r) = false \/ body r = None ->
                res = early)
  /\ (forall r b d t,
        fetch request = Fulfilled r ->
        Stream.okStatus (status r) = true ->
        body r = Some b ->
        Stream.ending_of b = Stream.Errors ->
        readChunks Utf8.newTextDecoder (openTurn newId now st) (Stream.chunks b)
        = Exhausted d t ->
        let partial := assistantMessage t in
        res = {| after := failedPage st
                            (filter keepsMessage (messages st)
                             ++ (if isEmpty (content partial) then [] else [partial]));
                 requests := [request]; settled := true |}
        /\ (In partial (messages (after res)) <-> content partial <> [])).
Proof.
  intros Hhist request res early.
  assert (Hearly : forall r, fetch request = Fulfilled r ->
                             Stream.okStatus (status r) = false \/ body r = None ->
                             res = early).
  { intros r Hf Hbad. subst res early request.
    destruct history as [|h hs]; [contradiction|].
    unfold sendTextMessage. cbv zeta. rewrite Hf.
    destruct Hbad as [-> | ->]; [reflexivity|].
    now destruct (Stream.okStatus (status r)). }
  split; [|split; [exact Hearly|]].
  - intros Hf. subst res early request.
    destruct history as [|h hs]; [contradiction|].
    unfold sendTextMessage. cbv zeta. now rewrite Hf.
  - intros r b d t Hf Hok Hb Herr Hrun partial.
    pose proof (@readChunks_view (setError None st) (messages st) true
                  (Stream.chunks b) Utf8.newTextDecoder (openTurn newId now st)
                  (openTurn_view newId now st)) as Hv.
    pose proof (readChunks_head (Stream.chunks b) Utf8.newTextDecoder
                  (openTurn newId now st)) as Hh.
    rewrite Hrun in Hv, Hh. destruct Hh as (_ & Hrole & _).
    change (role (assistantMessage (openTurn newId now st))) with assistant in Hrole.
    assert (Hres : res = {| after := failedPage st
                              (filter keepsMessage (messages st)
                               ++ (if isEmpty (content partial) then [] else [partial]));
                            requests := [request]; settled := true |}).
    { subst res.
      rewrite (@sendTextMessage_streamed fetch newId now st history r b
                 Hhist Hf Hok Hb).
      cbv zeta. unfold readLoop. rewrite Hrun, Herr. fold request. f_equal.
      unfold turnFailed. rewrite Hv. unfold setMessages, shown, failedPage. cbn.
      f_equal. rewrite filter_app. f_equal.
      now apply filter_keeps_partial. }
    split; [exact Hres|].
    rewrite Hres. cbn [after failedPage messages]. rewrite in_app_iff. split.
    + intros [Hin | Hin].
      * apply filter_In in Hin as [_ Hk]. unfold keepsMessage in Hk.
        fold partial in Hrole. rewrite Hrole in Hk. cbn in Hk.
        intros Hc. rewrite Hc in Hk. discriminate.
      * destruct (content partial); [contradiction|discriminate].
    + intros Hc. right. destruct (content partial); [contradiction|].
      cbn. now left.
Qed.

(** A stream that fails after the delta "Hel" leaves the partial message;
    one that fails before any delta leaves none; a request that is rejected
    leaves the page with the retry message. *)
Lemma failed_turn_cleanup_witness :
  map content
    (messages (after (sendTextMessage
                        (mockedRelay [Utf8.encode (deltaEvent (lit "Hel"))]
                           Stream.Errors)
                        (lit "a1") 2 hiPage hiHistory)))
  = [lit "Hi"; lit "Hel"]
  /\ map content
       (messages (after (sendTextMessage (mockedRelay [] Stream.Errors)
                           (lit "a1") 2 hiPage hiHistory)))
     = [lit "Hi"]
  /\ after (sendTextMessage (fun _ => Rejected) (lit "a1") 2 hiPage hiHistory)
     = failedPage hiPage (messages hiPage).
Proof.
  split; [|split].
  - destruct (@failed_turn_cleanup
                (mockedRelay [Utf8.encode (deltaEvent (lit "Hel"))] Stream.Errors)
                (lit "a1") 2 hiPage hiHistory) as (_ & _ & Hmid);
      [discriminate|].
    destruct (Hmid
                {| status := 200;
                   body := Some {| Stream.chunks := [Utf8.encode (deltaEvent (lit "Hel"))];
                                   Stream.ending_of := Stream.Errors |} |}
                {| Stream.chunks := [Utf8.encode (deltaEvent (lit "Hel"))];
                   Stream.ending_of := Stream.Errors |}
                {| Utf8.bytesState := Utf8.idle; Utf8.bomSeen := true |}
                (applyDelta (openTurn (lit "a1") 2 hiPage) (JString (lit "Hel"))))
      as [Hres _];
      [reflexivity | reflexivity | reflexivity | reflexivity
       | vm_compute; reflexivity | ].
    rewrite Hres. vm_compute. reflexivity.
  - destruct (@failed_turn_cleanup (mockedRelay [] Stream.Errors)
                (lit "a1") 2 hiPage hiHistory) as (_ & _ & Hmid);
      [discriminate|].
    destruct (Hmid
                {| status := 200;
                   body := Some {| Stream.chunks := [];
                                   Stream.ending_of := Stream.Errors |} |}
                {| Stream.chunks := []; Stream.ending_of := Stream.Errors |}
                Utf8.newTextDecoder (openTurn (lit "a1") 2 hiPage))
      as [Hres _];
      [reflexivity | reflexivity | reflexivity | reflexivity | reflexivity | ].
    rewrite Hres. vm_compute. reflexivity.
  - destruct (@failed_turn_cleanup (fun _ => Rejected)
                (lit "a1") 2 hiPage hiHistory) as (Hearly & _ & _);
      [discriminate|].
    rewrite Hearly by reflexivity. reflexivity.
Defined.

End Turns.

Section RelayReplies.

Import Relay.

Lemma handler_calls_cases
      (key : option jsstring) (fetch : UpstreamRequest -> awaited UpstreamResponse)
      (req : NextApiRequest) :
  (upstreamCalls (handler key fetch req) = []
   /\ ~ (JSString.eqb (method req) (lit "POST") = true
         /\ (exists k, key = Some k /\ k <> [])
         /\ hasMessageArray req = true))
  \/ (exists k rawBody members items,
        JSString.eqb (method req) (lit "POST") = true
        /\ key = Some k /\ k <> []
        /\ bufferRequest req = Fulfilled rawBody
        /\ Json.parse rawBody = Some (JObject members)
        /\ lookup (lit "messages") members = Some (JArray items)
        /\ hasMessageArray req = true
        /\ upstreamCalls (handler key fetch req) = [upstreamRequest k (JArray items)]).
Proof.
  unfold handler, hasMessageArray.
  destruct (JSString.eqb (method req) (lit "POST")) eqn:Em; cbn [negb].
  2:{ left. split; [reflexivity|]. intros (H & _). discriminate. }
  destruct key as [[|k ks]|].
  1:{ left. split; [reflexivity|]. intros (_ & (k' & Hk & Hne) & _). congruence. }
  2:{ left. split; [reflexivity|]. intros (_ & (k' & Hk & Hne) & _). congruence. }
  destruct (bufferRequest req) as [rawBody| |] eqn:Eb.
  2,3: left; (split; [reflexivity|]); intros (_ & _ & H); discriminate.
  destruct (Json.parse rawBody) as [[| | | | |members]|] eqn:Ep.
  1-5,7: left; (split; [reflexivity|]); intros (_ & _ & H); discriminate.
  cbn [prop isArray].
  destruct (lookup (lit "messages") members) as [[| | | |items|]|] eqn:El.
  1-4,6,7: left; (split; [reflexivity|]); intros (_ & _ & H); discriminate.
  right. exists (k :: ks), rawBody, members, items.
  repeat split; try reflexivity; try assumption. discriminate.
Qed.

(** X1: the relay contacts the provider at most once per request, and it
    does so exactly when the method is POST, the credential is set and the
    body decodes to an object with an array [messages].  The call then
    carries the credential as bearer token, asks for a stream, and passes
    the array on as it stands in the body, with nothing put before it. *)
Theorem handler_upstream_call
        (key : option jsstring) (fetch : UpstreamRequest -> awaited UpstreamResponse)
        (req : NextApiRequest) :
  let made := upstreamCalls (handler key fetch req) in
  (length made <= 1)%nat
  /\ (made <> [] <->
      JSString.eqb (method req) (lit "POST") = true
      /\ (exists k, key = Some k /\ k <> [])
      /\ hasMessageArray req = true)
  /\ (forall rq, In rq made ->
        exists k rawBody members,
          key = Some k
          /\ bufferRequest req = Fulfilled rawBody
          /\ Json.parse rawBody = Some (JObject members)
          /\ lookup (lit "messages") members = Some (upstreamMessages rq)
          /\ authorization rq = lit "Bearer " ++ k
          /\ upstreamMethod rq = lit "POST"
          /\ stream rq = true).
Proof.
  intros made. subst made.
  destruct (handler_calls_cases key fetch req)
    as [[-> Hnot] | (k & rawBody & members & items & Hm & Hk & Hne & Hb & Hp & Hl & Ha & ->)].
  - split; [cbn; lia|]. split; [|intros rq []].
    split; [intros H; now elim H | intros H; now elim Hnot].
  - split; [cbn; lia|]. split.
    + split; [|discriminate]. intros _. repeat split; auto. now exists k.
    + intros rq [<-|[]]. exists k, rawBody, members. cbn. auto 10.
Qed.

Lemma handler_upstream_call_witness :
  upstreamCalls
    (handler (Some (lit "sk-test")) (fun _ => Rejected)
       (plainRequest (lit "POST")
          (quoted "{'messages':[{'role':'user','content':'Hi'}]}")))
  <> [].
Proof.
  apply (proj2 (proj1 (proj2
           (handler_upstream_call (Some (lit "sk-test")) (fun _ => Rejected)
              (plainRequest (lit "POST")
                 (quoted "{'messages':[{'role':'user','content':'Hi'}]}")))))).
  split; [reflexivity|]. split; [|vm_compute; reflexivity].
  exists (lit "sk-test"). split; [reflexivity|discriminate].
Defined.

(** X2: every reply of the relay has one of four shapes: nothing yet; one
    JSON error; an [Allow] header and one JSON error; or a head followed by
    body writes only and then, at most once and last, the end.  A JSON
    error is never mixed with streamed bytes and nothing is written after
    the end. *)
Theorem handler_reply_well_formed
        (key : option jsstring) (fetch : UpstreamRequest -> awaited UpstreamResponse)
        (req : NextApiRequest) :
  wellFormedReply (response (handler key fetch req)).
Proof.
  unfold handler.
  destruct (negb (JSString.eqb (method req) (lit "POST"))); [constructor|].
  destruct key as [[|k ks]|]; try constructor.
  destruct (bufferRequest req) as [rawBody| |]; try constructor.
  destruct (Json.parse rawBody) as [[| | | | |members]|]; try constructor.
  cbn [prop].
  destruct (lookup (lit "messages") members) as [[| | | |items|]|]; try constructor.
  cbn [response].
  destruct (fetch _) as [r| |]; try constructor.
  destruct (Stream.okStatus (upstreamStatus r)).
  - destruct (upstreamBody r) as [b|].
    + rewrite pipe_emitted. constructor.
      destruct (Stream.ending_of b); auto.
    + destruct (text r); constructor.
  - destruct (upstreamBody r); destruct (text r); constructor.
Qed.

(** X3: when the upstream call is made and fails, the caller gets a fixed
    text: status 500 and the generic message if the call is rejected; the
    upstream's own status and "Failed to fetch from OpenAI." if the
    upstream answers without an ok status or without a body.  The text of
    the upstream's answer is not part of the reply. *)
Theorem handler_upstream_failure
        (key : option jsstring) (fetch : UpstreamRequest -> awaited UpstreamResponse)
        (req : NextApiRequest) (rq : UpstreamRequest) :
  In rq (upstreamCalls (handler key fetch req)) ->
  (fetch rq = Rejected ->
   response (handler key fetch req)
   = [StatusJson 500 (lit "Something went wrong. Please try again.")])
  /\ (forall r detail,
        fetch rq = Fulfilled r ->
        Stream.okStatus (upstreamStatus r) = false \/ upstreamBody r = None ->
        text r = Fulfilled detail ->
        response (handler key fetch req)
        = [StatusJson (upstreamStatus r) (lit "Failed to fetch from OpenAI.")]).
Proof.
  unfold handler.
  destruct (negb (JSString.eqb (method req) (lit "POST"))); [intros []|].
  destruct key as [[|k ks]|]; try solve [intros []].
  destruct (bufferRequest req) as [rawBody| |]; try solve [intros []].
  destruct (Json.parse rawBody) as [[| | | | |members]|]; try solve [intros []].
  cbn [prop].
  destruct (lookup (lit "messages") members) as [[| | | |items|]|]; try solve [intros []].
  cbn [upstreamCalls response In]. intros [<-|[]]. split.
  - now intros ->.
  - intros r detail -> Hbad ->.
    destruct Hbad as [-> | ->]; [reflexivity|].
    now destruct (Stream.okStatus (upstreamStatus r)).
Qed.

Lemma handler_upstream_failure_witness :
  let req := plainRequest (lit "POST") (quoted "{'messages':[]}") in
  let fetch := fun _ : UpstreamRequest =>
                 Fulfilled {| upstreamStatus := 429; upstreamBody := None;
                              text := Fulfilled (lit "rate limit for sk-test") |} in
  response (handler (Some (lit "sk-test")) fetch req)
  = [StatusJson 429 (lit "Failed to fetch from OpenAI.")].
Proof.
  intros req fetch.
  destruct (@handler_upstream_failure (Some (lit "sk-test")) fetch req
              (upstreamRequest (lit "sk-test") (JArray []))) as [_ H].
  - vm_compute. left. reflexivity.
  - apply (H {| upstreamStatus := 429; upstreamBody := None;
                text := Fulfilled (lit "rate limit for sk-test") |}
             (lit "rate limit for sk-test")).
    + reflexivity.
    + right. reflexivity.
    + reflexivity.
Defined.

(** X4: the relay reads the whole request body before it parses it, so its
    behaviour depends on the bytes of the body only, not on how they were
    cut into chunks nor on whether a chunk came as text or as bytes. *)
Theorem handler_ignores_request_chunking
        (key : option jsstring) (fetch : UpstreamRequest -> awaited UpstreamResponse)
        (req1 req2 : NextApiRequest) :
  method req1 = method req2 ->
  bodyEnding req1 = bodyEnding req2 ->
  requestBytes req1 = requestBytes req2 ->
  handler key fetch req1 = handler key fetch req2.
Proof.
  intros Hm He Hb.
  assert (Hbuf : bufferRequest req1 = bufferRequest req2).
  { unfold bufferRequest. rewrite He.
    change (concat (map (fun chunk => match chunk with
                                      | Text s => Utf8.encode s
                                      | Bytes b => b
                                      end) (bodyChunks req1)))
      with (requestBytes req1).
    change (concat (map (fun chunk => match chunk with
                                      | Text s => Utf8.encode s
                                      | Bytes b => b
                                      end) (bodyChunks req2)))
      with (requestBytes req2).
    now rewrite Hb. }
  unfold handler. now rewrite Hm, Hbuf.
Qed.

Lemma handler_ignores_request_chunking_witness :
  let body := quoted "{'messages':[{'role':'user','content':'caf" ++ [233]%Z
              ++ quoted "'}]}" in
  let bytes := Utf8.encode body in
  let cut := {| method := lit "POST";
                bodyChunks := [Bytes (firstn 44 bytes); Bytes (skipn 44 bytes)];
                bodyEnding := Stream.Ends |} in
  handler (Some (lit "sk-test")) (sampleUpstream [] Stream.Ends) cut
  = handler (Some (lit "sk-test")) (sampleUpstream [] Stream.Ends)
            (plainRequest (lit "POST") body).
Proof.
  intros body bytes cut.
  apply handler_ignores_request_chunking.
  - reflexivity.
  - reflexivity.
  - vm_compute. reflexivity.
Defined.

End RelayReplies.

Section Trimming.

Lemma trimStart_fixed (c : Z) (r : jsstring) :
  isWhiteSpace c = false -> trimStart (c :: r) = c :: r.
Proof. intros H. cbn. now rewrite H. Qed.

Lemma trimStart_idem (s : jsstring) : trimStart (trimStart s) = trimStart s.
Proof.
  induction s as [|c r IH]; [reflexivity|].
  cbn. destruct (isWhiteSpace c) eqn:E; [exact IH|].
  now apply trimStart_fixed.
Qed.

(** What [trimStart] leaves is empty or starts with a unit that is not
    white space. *)
Lemma trimStart_head (s : jsstring) :
  trimStart s = [] \/ exists c r, trimStart s = c :: r /\ isWhiteSpace c = false.
Proof.
  induction s as [|c r IH]; [now left|].
  cbn. destruct (isWhiteSpace c) eqn:E; [exact IH|].
  right. now exists c, r.
Qed.

Lemma trimStart_snoc (l : jsstring) (c : Z) :
  isWhiteSpace c = false -> exists l', trimStart (l ++ [c]) = l' ++ [c].
Proof.
  intros H. induction l as [|x l IH]; cbn.
  - rewrite H. now exists [].
  - destruct (isWhiteSpace x); [exact IH|]. now exists (x :: l).
Qed.

Lemma trimEnd_idem (s : jsstring) : trimEnd (trimEnd s) = trimEnd s.
Proof. unfold trimEnd. now rewrite rev_involutive, trimStart_idem. Qed.

(** [trimEnd] keeps a first unit that is not white space. *)
Lemma trimEnd_head (c : Z) (r : jsstring) :
  isWhiteSpace c = false -> exists r', trimEnd (c :: r) = c :: r'.
Proof.
  intros H. unfold trimEnd. cbn [rev].
  destruct (@trimStart_snoc (rev r) c H) as [l' ->].
  rewrite rev_app_distr. cbn. now exists (rev l').
Qed.

Lemma trim_head (s : jsstring) :
  trim s = [] \/ exists c r, trim s = c :: r /\ isWhiteSpace c = false.
Proof.
  unfold trim. destruct (trimStart_head s) as [-> | (c & r & -> & Hc)].
  - now left.
  - right. destruct (@trimEnd_head c r Hc) as [r' ->]. now exists c, r'.
Qed.

Lemma trim_idem (s : jsstring) : trim (trim s) = trim s.
Proof.
  destruct (trim_head s) as [-> | (c & r & E & Hc)]; [reflexivity|].
  unfold trim at 1. rewrite E, (@trimStart_fixed c r Hc), <- E.
  unfold trim. apply trimEnd_idem.
Qed.

End Trimming.

Section Prompts.

(** X5: the messages sent to the relay hold no system message and no blank
    text: each one is a user or assistant message of the page, in the
    page's order, with its text trimmed and not empty; there are never more
    of them than messages on the page. *)
Theorem mapMessagesToApi_clean (history : list ChatMessageData) :
  Forall (fun m => Api.role m <> system
                   /\ Api.content m <> []
                   /\ trim (Api.content m) = Api.content m
                   /\ exists source, In source history
                                     /\ Api.role m = role source
                                     /\ Api.content m = trim (content source))
         (mapMessagesToApi history)
  /\ (length (mapMessagesToApi history) <= length history)%nat
  /\ mapMessagesToApi (filter isDialogue history) = mapMessagesToApi history.
Proof.
  unfold mapMessagesToApi. split; [|split].
  - apply Forall_forall. intros m Hm.
    apply filter_In in Hm as [Hin Hne].
    apply in_map_iff in Hin as (source & <- & Hs).
    apply filter_In in Hs as [Hs Hd]. cbn in *.
    repeat split.
    + unfold isDialogue in Hd. intros E. rewrite E in Hd. discriminate.
    + intros E. rewrite E in Hne. discriminate.
    + apply trim_idem.
    + now exists source.
  - etransitivity; [apply filter_length_le|].
    rewrite length_map. apply filter_length_le.
  - f_equal. f_equal. induction history as [|m h IH]; [reflexivity|].
    cbn. destruct (isDialogue m) eqn:E; cbn; [rewrite E|]; now rewrite IH.
Qed.

Lemma mapMessagesToApi_snoc (history : list ChatMessageData) (m : ChatMessageData) :
  role m = user -> trim (content m) <> [] ->
  mapMessagesToApi (history ++ [m])
  = mapMessagesToApi history
    ++ [{| Api.role := user; Api.content := trim (content m) |}].
Proof.
  intros Hr Hc. unfold mapMessagesToApi.
  rewrite filter_app, map_app, filter_app. f_equal.
  cbn. unfold isDialogue. rewrite Hr. cbn.
  destruct (trim (content m)); [contradiction|]. cbn. now rewrite Hr.
Qed.

(** The function built by a render and called on the page of that render
    is the turn of the sections above. *)
Lemma sendTextMessageOf_same
      (fetch : ChatRequest -> awaited Response) (newId : jsstring) (now : Z)
      (st : HomeState) (history : list ApiMessage) :
  sendTextMessageOf fetch newId now st st history
  = sendTextMessage fetch newId now st history.
Proof. reflexivity. Qed.

Lemma sendUserPromptOf_same
      (fetch : ChatRequest -> awaited Response) (newId : jsstring) (now : Z)
      (userId : jsstring) (userNow : Z) (st : HomeState) (prompt : jsstring) :
  sendUserPromptOf fetch newId now userId userNow st st prompt
  = sendUserPrompt fetch newId now userId userNow st prompt.
Proof. reflexivity. Qed.

(** The requests of a turn, whatever the network does. *)
Lemma sendTextMessageOf_requests
      (fetch : ChatRequest -> awaited Response) (newId : jsstring) (now : Z)
      (render st : HomeState) (history : list ApiMessage) :
  requests (sendTextMessageOf fetch newId now render st history)
  = match history with
    | [] => []
    | _ => [chatRequest (memory render) history]
    end.
Proof.
  unfold sendTextMessageOf. destruct history as [|h hs]; [reflexivity|].
  cbv zeta.
  destruct (fetch _) as [r| |]; try reflexivity.
  destruct (Stream.okStatus (status r)); [|reflexivity].
  destruct (body r) as [b|]; [|reflexivity].
  destruct (readLoop _ _ b); reflexivity.
Qed.

(** X6: the [sendUserPrompt] kept from the render [built] sends a prompt
    exactly when the trimmed text is not empty, the page is hydrated and no
    turn is streaming.  Then one request is made, whatever the network
    does: its messages are the system messages with the memory digest of
    the render [built] (not the one the page holds when the prompt is
    sent), the earlier user and assistant messages of the page, and last
    the trimmed prompt; the page gets the user message, an empty input box
    and no error before the turn starts, and keeps its own memory.
    Otherwise nothing changes and nothing is sent. *)
Theorem sendUserPrompt_sends_iff
        (fetch : ChatRequest -> awaited Response) (newId : jsstring) (now : Z)
        (userId : jsstring) (userNow : Z) (built st : HomeState)
        (prompt : jsstring) :
  keepsCallback built st ->
  let res := sendUserPromptOf fetch newId now userId userNow built st prompt in
  let userMessage := createMessage userId userNow user (trim prompt) in
  let accepted := negb (isEmpty (trim prompt)) && negb (isStreaming st)
                  && isHydrated st in
  (accepted = false ->
   res = {| after := st; requests := []; settled := true |})
  /\ (accepted = true ->
      requests res
      = [chatRequest (memory built)
           (mapMessagesToApi (messages st)
            ++ [{| Api.role := user; Api.content := trim prompt |}])]
      /\ res = sendTextMessageOf fetch newId now built
                 {| messages := messages st ++ [userMessage]; input := [];
                    isStreaming := false; error := None;
                    isHydrated := true; memory := memory st |}
                 (mapMessagesToApi (messages st ++ [userMessage]))).
Proof.
  intros (Hh & Hs & Hm) res userMessage accepted. subst res accepted.
  unfold sendUserPromptOf. cbv zeta. rewrite <- Hh, <- Hs, <- Hm.
  destruct (isEmpty (trim prompt)) eqn:Ee; cbn [negb andb orb].
  { split; [reflexivity|discriminate]. }
  destruct (isStreaming st) eqn:Es; cbn [negb andb orb].
  { split; [reflexivity|discriminate]. }
  destruct (isHydrated st) eqn:Eh; cbn [negb andb orb].
  2:{ split; [reflexivity|discriminate]. }
  split; [discriminate|]. intros _.
  assert (Hst : setInput [] (setMessages (fun _ => messages st ++ [userMessage])
                               (setError None st))
                = {| messages := messages st ++ [userMessage]; input := [];
                     isStreaming := false; error := None;
                     isHydrated := true; memory := memory st |}).
  { unfold setInput, setMessages, setError. cbn. now rewrite Es, Eh. }
  fold userMessage. rewrite Hst. split; [|reflexivity].
  assert (Hne : trim (content userMessage) <> []).
  { change (content userMessage) with (trim prompt). rewrite trim_idem.
    intros E. rewrite E in Ee. discriminate. }
  rewrite sendTextMessageOf_requests.
  rewrite (@mapMessagesToApi_snoc (messages st) userMessage eq_refl Hne).
  change (content userMessage) with (trim prompt). rewrite trim_idem.
  destruct (mapMessagesToApi (messages st)
            ++ [{| Api.role := user; Api.content := trim prompt |}]) as [|h hs] eqn:El.
  { destruct (mapMessagesToApi (messages st)); discriminate. }
  reflexivity.
Qed.

Lemma sendUserPrompt_sends_iff_witness :
  requests (sendUserPromptOf (fun _ => Rejected) (lit "a1") 2 (lit "u2") 3
              hiPage remindedPage (lit "  again "))
  = [{| url := lit "/api/chat"; httpMethod := lit "POST";
        contentType := lit "application/json";
        bodyMessages :=
          [SYSTEM_PROMPT;
           {| Api.role := user; Api.content := lit "Hi" |};
           {| Api.role := user; Api.content := lit "again" |}] |}]
  /\ sendUserPromptOf (fun _ => Rejected) (lit "a1") 2 (lit "u2") 3
       hiPage remindedPage (lit "   ")
     = {| after := remindedPage; requests := []; settled := true |}.
Proof.
  assert (Hkept : keepsCallback hiPage remindedPage)
    by (repeat split; reflexivity).
  split.
  - destruct (@sendUserPrompt_sends_iff (fun _ => Rejected) (lit "a1") 2
                (lit "u2") 3 hiPage remindedPage (lit "  again ") Hkept)
      as [_ H].
    destruct H as [H _]; [vm_compute; reflexivity|].
    rewrite H. vm_compute. reflexivity.
  - destruct (@sendUserPrompt_sends_iff (fun _ => Rejected) (lit "a1") 2
                (lit "u2") 3 hiPage remindedPage (lit "   ") Hkept) as [H _].
    apply H. vm_compute. reflexivity.
Defined.

End Prompts.

Section TurnOutcome.


(** X7: a turn makes one request when the history is not empty and none
    when it is, whatever the network does and whatever the page holds when
    the call is made; the request is a POST to [/api/chat] whose messages
    are the system prompt, then the memory digest of the render that built
    the function, as a second system message, when that digest is not
    empty, then the history as given.  The memory of the page the call
    finds plays no part; for a function called on the page of its own
    render the two are the same. *)
Theorem sendTextMessage_request
        (fetch : ChatRequest -> awaited Response) (newId : jsstring) (now : Z)
        (render st : HomeState) (history : list ApiMessage) :
  requests (sendTextMessageOf fetch newId now render st history)
  = match history with
    | [] => []
    | _ => [{| url := lit "/api/chat"; httpMethod := lit "POST";
               contentType := lit "application/json";
               bodyMessages :=
                 SYSTEM_PROMPT
                   :: (if isEmpty (memory render) then []
                       else [{| Api.role := system;
                                Api.content := lit "Long-term memory summary: "
                                               ++ memory render |}])
                   ++ history |}]
    end
  /\ sendTextMessage fetch newId now st history
     = sendTextMessageOf fetch newId now st st history.
Proof.
  split; [|reflexivity].
  rewrite sendTextMessageOf_requests.
  destruct history as [|h hs]; [reflexivity|].
  unfold chatRequest, systemMessages. now destruct (isEmpty (memory render)).
Qed.


Lemma withText_nil (m : ChatMessageData) : withText m [] = m.
Proof. destruct m. unfold withText. cbn. now rewrite app_nil_r. Qed.

Lemma withText_app (m : ChatMessageData) (a b : jsstring) :
  withText (withText m a) b = withText m (a ++ b).
Proof. unfold withText. cbn. now rewrite app_assoc. Qed.

(** A silent line carries no text. *)
Lemma isSilent_lineDelta (line : jsstring) : isSilent line -> lineDelta line = [].
Proof.
  unfold lineDelta.
  intros [H | [H | (parsed & H & [Hd | (delta & Hd & Ht)])]]; rewrite H;
    try reflexivity.
  - destruct (isDataLine line); reflexivity.
  - rewrite Hd. destruct (isDataLine line); reflexivity.
  - rewrite Hd, Ht. destruct (isDataLine line); reflexivity.
Qed.

(** A line other than the sentinel adds its text to the assistant message
    and to the last message of the page, and the loop goes on. *)
Lemma processLine_lineDelta (base : HomeState) (prev : list ChatMessageData)
      (s : bool) (t : turn) (line : jsstring) :
  view t = shown base prev (assistantMessage t) s ->
  isDoneLine line = false ->
  processLine t line
  = Continue {| assistantMessage := withText (assistantMessage t) (lineDelta line);
                view := shown base prev
                          (withText (assistantMessage t) (lineDelta line)) s |}.
Proof.
  intros Hv Hdone.
  assert (Hsame : Continue t
                  = Continue {| assistantMessage := withText (assistantMessage t) [];
                                view := shown base prev
                                          (withText (assistantMessage t) []) s |}).
  { rewrite withText_nil, <- Hv. now destruct t. }
  unfold isDoneLine in Hdone. unfold lineDelta.
  destruct (isDataLine line) eqn:Ed.
  2:{ rewrite processLine_not_data by exact Ed. exact Hsame. }
  rewrite processLine_data by exact Ed. cbn [andb] in Hdone. rewrite Hdone.
  destruct (Json.parse (payloadOf line)) as [parsed|]; [|exact Hsame].
  destruct (deltaOf parsed) as [delta|]; [|exact Hsame].
  destruct (truthy delta); [|exact Hsame].
  unfold applyDelta. fold (withText (assistantMessage t) (toText delta)).
  f_equal. f_equal. rewrite Hv. unfold setMessages, shown. cbn.
  now rewrite replaceLast_snoc.
Qed.

Lemma processLines_lineDelta (base : HomeState) (prev : list ChatMessageData)
      (s : bool) (lines : list jsstring) (t : turn) :
  view t = shown base prev (assistantMessage t) s ->
  existsb isDoneLine lines = false ->
  processLines t lines
  = Continue {| assistantMessage :=
                  withText (assistantMessage t) (concat (map lineDelta lines));
                view := shown base prev
                          (withText (assistantMessage t)
                             (concat (map lineDelta lines))) s |}.
Proof.
  revert t. induction lines as [|line rest IH]; intros t Hv Hnone.
  - cbn. rewrite withText_nil, <- Hv. now destruct t.
  - cbn [existsb] in Hnone. apply orb_false_iff in Hnone as [Hline Hrest].
    cbn [processLines map concat].
    rewrite (@processLine_lineDelta base prev s t line Hv Hline).
    rewrite IH by (reflexivity || exact Hrest).
    cbn [assistantMessage]. now rewrite withText_app.
Qed.

Lemma readChunks_lineDelta (base : HomeState) (prev : list ChatMessageData)
      (chunks : list (list Z)) (decoder : Utf8.TextDecoder) (t : turn) :
  view t = shown base prev (assistantMessage t) true ->
  existsb isDoneLine (streamLines decoder chunks) = false ->
  exists decoder',
    readChunks decoder t chunks
    = Exhausted decoder'
        {| assistantMessage :=
             withText (assistantMessage t)
               (concat (map lineDelta (streamLines decoder chunks)));
           view := shown base prev
                     (withText (assistantMessage t)
                        (concat (map lineDelta (streamLines decoder chunks))))
                     true |}.
Proof.
  revert decoder t. induction chunks as [|value rest IH]; intros decoder t Hv Hnone.
  - exists decoder. cbn. rewrite withText_nil, <- Hv. now destruct t.
  - cbn [streamLines readChunks] in *.
    destruct (Utf8.decodeStream decoder value) as [decoder1 chunkValue].
    rewrite existsb_app in Hnone. apply orb_false_iff in Hnone as [Hhere Hrest].
    rewrite (@processLines_lineDelta base prev true (split 10 chunkValue) t Hv Hhere).
    destruct (IH decoder1
                {| assistantMessage :=
                     withText (assistantMessage t)
                       (concat (map lineDelta (split 10 chunkValue)));
                   view := shown base prev
                             (withText (assistantMessage t)
                                (concat (map lineDelta (split 10 chunkValue))))
                             true |} eq_refl Hrest) as (decoder' & ->).
    exists decoder'. cbn [assistantMessage].
    now rewrite withText_app, map_app, concat_app.
Qed.

(** [sendTextMessageOf] once the relay has answered with a stream. *)
Lemma sendTextMessageOf_streamed
      (fetch : ChatRequest -> awaited Response) (newId : jsstring) (now : Z)
      (render st : HomeState) (history : list ApiMessage)
      (r : Response) (b : Stream.body) :
  history <> [] ->
  fetch (chatRequest (memory render) history) = Fulfilled r ->
  Stream.okStatus (status r) = true ->
  body r = Some b ->
  sendTextMessageOf fetch newId now render st history
  = let request := chatRequest (memory render) history in
    match readLoop Utf8.newTextDecoder (openTurn newId now st) b with
    | Returned t => {| after := view t; requests := [request]; settled := true |}
    | Broke t => {| after := setIsStreaming false (view t);
                    requests := [request]; settled := true |}
    | Threw t => {| after := turnFailed (view t);
                    requests := [request]; settled := true |}
    | Waiting t => {| after := view t; requests := [request]; settled := false |}
    end.
Proof.
  intros Hhist Hfetch Hok Hbody.
  unfold sendTextMessageOf. destruct history as [|h hs]; [contradiction|].
  cbv zeta. now rewrite Hfetch, Hok, Hbody.
Qed.

(** X9: a stream that closes without the sentinel on any of its lines ends
    the turn all the same, whichever render built the function: the
    streaming flag is cleared, no error is set, one request was made, and
    the assistant message stays as last message of the page.  When the deltas of the stream are strings, its text is
    the deltas of all the lines of the stream in order.  When every line is
    silent (blank lines, comments, data that does not parse, events without
    a text), it stays with an empty text. *)
Theorem stream_end_completes_turn
        (fetch : ChatRequest -> awaited Response) (newId : jsstring) (now : Z)
        (render st : HomeState) (history : list ApiMessage)
        (r : Response) (b : Stream.body) :
  history <> [] ->
  fetch (chatRequest (memory render) history) = Fulfilled r ->
  Stream.okStatus (status r) = true ->
  body r = Some b ->
  Stream.ending_of b = Stream.Ends ->
  existsb isDoneLine (streamLines Utf8.newTextDecoder (Stream.chunks b)) = false ->
  let lines := streamLines Utf8.newTextDecoder (Stream.chunks b) in
  let page text :=
    {| messages := messages st
                   ++ [{| id := newId; role := assistant; content := text;
                          createdAt := now |}];
       input := input st; isStreaming := false; error := None;
       isHydrated := isHydrated st; memory := memory st |} in
  (exists text,
      sendTextMessageOf fetch newId now render st history
      = {| after := page text;
           requests := [chatRequest (memory render) history];
           settled := true |})
  /\ (forallb plainDelta lines = true ->
      sendTextMessageOf fetch newId now render st history
      = {| after := page (concat (map lineDelta lines));
           requests := [chatRequest (memory render) history];
           settled := true |})
  /\ (Forall isSilent lines ->
      sendTextMessageOf fetch newId now render st history
      = {| after := page [];
           requests := [chatRequest (memory render) history];
           settled := true |}).
Proof.
  intros Hhist Hf Hok Hb He Hnone lines page.
  assert (Hres : sendTextMessageOf fetch newId now render st history
                 = {| after := page (concat (map lineDelta lines));
                      requests := [chatRequest (memory render) history];
                      settled := true |}).
  { rewrite (@sendTextMessageOf_streamed fetch newId now render st history r b
               Hhist Hf Hok Hb).
    cbv zeta. unfold readLoop.
    destruct (@readChunks_lineDelta (setError None st) (messages st)
                (Stream.chunks b) Utf8.newTextDecoder (openTurn newId now st)
                (openTurn_view newId now st) Hnone) as (decoder' & ->).
    rewrite He. reflexivity. }
  split; [eexists; exact Hres|].
  split; [intros _; exact Hres|].
  intros Hsilent. rewrite Hres. f_equal. f_equal.
  clear - Hsilent. induction Hsilent as [|line rest Hline _ IH]; [reflexivity|].
  cbn [map concat]. now rewrite (isSilent_lineDelta Hline), IH.
Qed.

Lemma stream_end_completes_turn_witness :
  map content
    (messages (after (sendTextMessageOf (mockedRelay quietThenHel Stream.Ends)
                        (lit "a1") 2 hiPage remindedPage hiHistory)))
  = [lit "Hi"; lit "Hel"]
  /\ map content
       (messages (after (sendTextMessageOf (mockedRelay quietChunks Stream.Ends)
                           (lit "a1") 2 hiPage remindedPage hiHistory)))
     = [lit "Hi"; []].
Proof.
  split.
  - destruct (@stream_end_completes_turn (mockedRelay quietThenHel Stream.Ends)
                (lit "a1") 2 hiPage remindedPage hiHistory
                {| status := 200;
                   body := Some {| Stream.chunks := quietThenHel;
                                   Stream.ending_of := Stream.Ends |} |}
                {| Stream.chunks := quietThenHel; Stream.ending_of := Stream.Ends |})
      as (_ & H & _);
      [discriminate | reflexivity | reflexivity | reflexivity | reflexivity
       | vm_compute; reflexivity | ].
    rewrite H; vm_compute; reflexivity.
  - destruct (@stream_end_completes_turn (mockedRelay quietChunks Stream.Ends)
                (lit "a1") 2 hiPage remindedPage hiHistory
                {| status := 200;
                   body := Some {| Stream.chunks := quietChunks;
                                   Stream.ending_of := Stream.Ends |} |}
                {| Stream.chunks := quietChunks; Stream.ending_of := Stream.Ends |})
      as (_ & _ & H);
      [discriminate | reflexivity | reflexivity | reflexivity | reflexivity
       | vm_compute; reflexivity | ].
    rewrite H; [reflexivity|].
    assert (Hlines : streamLines Utf8.newTextDecoder
                       (Stream.chunks {| Stream.chunks := quietChunks;
                                         Stream.ending_of := Stream.Ends |})
                     = [lit ": keep-alive"; []; lit "data: ";
                        quoted "{'choices':[{'delta':"; [];
                        dataLine (quoted "{'choices':[{'delta':{'role':'assistant'}}]}"); [];
                        dataLine (quoted "{'id':'c1'}"); []; []])
      by (vm_compute; reflexivity).
    rewrite Hlines.
    repeat apply Forall_cons; try apply Forall_nil.
    + left. vm_compute. reflexivity.
    + left. vm_compute. reflexivity.
    + right. left. vm_compute. reflexivity.
    + left. vm_compute. reflexivity.
    + left. vm_compute. reflexivity.
    + right. right.
      exists (JObject
                [(lit "choices",
                  JArray
                    [JObject
                       [(lit "delta",
                         JObject [(lit "role", JString (lit "assistant"))])]])]).
      split; [vm_compute; reflexivity|].
      right. exists (JString []). split; vm_compute; reflexivity.
    + left. vm_compute. reflexivity.
    + right. right.
      exists (JObject [(lit "id", JString (lit "c1"))]).
      split; [vm_compute; reflexivity|].
      right. exists (JString []). split; vm_compute; reflexivity.
    + left. vm_compute. reflexivity.
    + left. vm_compute. reflexivity.
Defined.

End TurnOutcome.

Section LineAlignedChunks.

Lemma lead_inRange (b : Z) : decoderInRange (fst (Utf8.lead b)).
Proof.
  unfold Utf8.lead, decoderInRange.
  repeat match goal with
         | |- context [if ?c then _ else _] => destruct c
         end; cbn; lia.
Qed.

Lemma step_inRange (d : Utf8.decoder) (b : Z) : decoderInRange (fst (Utf8.step d b)).
Proof.
  unfold Utf8.step.
  destruct (Utf8.bytesNeeded d =? 0)%Z; [apply lead_inRange|].
  destruct (negb _).
  - pose proof (lead_inRange b). now destruct (Utf8.lead b).
  - destruct (_ =? _)%Z; unfold decoderInRange; cbn; lia.
Qed.

Lemma run_inRange (bytes : list Z) (d : Utf8.decoder) :
  decoderInRange d -> decoderInRange (fst (Utf8.run d bytes)).
Proof.
  revert d. induction bytes as [|b r IH]; intros d Hd; cbn; [exact Hd|].
  pose proof (step_inRange d b) as Hs.
  destruct (Utf8.step d b) as [d1 o1]. cbn in Hs.
  specialize (IH d1 Hs). now destruct (Utf8.run d1 r).
Qed.

Lemma run_app (a b : list Z) (d : Utf8.decoder) :
  Utf8.run d (a ++ b)
  = let (d1, o1) := Utf8.run d a in
    let (d2, o2) := Utf8.run d1 b in (d2, o1 ++ o2).
Proof.
  revert d. induction a as [|x a IH]; intros d; cbn.
  - now destruct (Utf8.run d b).
  - destruct (Utf8.step d x) as [d1 o1]. rewrite IH.
    destruct (Utf8.run d1 a) as [d2 o2]. destruct (Utf8.run d2 b) as [d3 o3].
    now rewrite app_assoc.
Qed.

(** A line feed closes whatever sequence was open and comes out itself. *)
Lemma step_line_feed (d : Utf8.decoder) :
  decoderInRange d ->
  exists pre, Utf8.step d 10 = (Utf8.idle, pre ++ [10%Z]).
Proof.
  intros Hd. unfold Utf8.step.
  destruct (Utf8.bytesNeeded d =? 0)%Z; [now exists []|].
  unfold Utf8.between. unfold decoderInRange in Hd.
  replace (Utf8.lowerBoundary d <=? 10)%Z with false
    by (symmetry; apply Z.leb_gt; lia).
  cbn. now exists [Utf8.REPLACEMENT].
Qed.

(** Decoding two chunks one after the other gives the text of the two
    chunks joined. *)
Lemma decodeStream_app (t : Utf8.TextDecoder) (a b : list Z) :
  Utf8.decodeStream t (a ++ b)
  = let (t1, text1) := Utf8.decodeStream t a in
    let (t2, text2) := Utf8.decodeStream t1 b in (t2, text1 ++ text2).
Proof.
  unfold Utf8.decodeStream. rewrite run_app.
  destruct (Utf8.run (Utf8.bytesState t) a) as [d1 o1].
  destruct o1 as [|c o1]; cbn [Utf8.bytesState Utf8.bomSeen app].
  - destruct (Utf8.run d1 b) as [d2 o2]. now destruct o2.
  - destruct (Utf8.run d1 b) as [d2 o2].
    cbn [negb andb]. destruct o2 as [|c2 o2].
    + rewrite !app_nil_r. reflexivity.
    + destruct (negb (Utf8.bomSeen t) && (c =? 65279)%Z).
      * now rewrite flat_map_app.
      * change (flat_map Utf8.units (c :: o1 ++ c2 :: o2))
          with (flat_map Utf8.units ((c :: o1) ++ c2 :: o2)).
        now rewrite flat_map_app.
Qed.

Lemma decodeStream_inRange (t : Utf8.TextDecoder) (chunk : list Z) :
  decoderInRange (Utf8.bytesState t) ->
  decoderInRange (Utf8.bytesState (fst (Utf8.decodeStream t chunk))).
Proof.
  intros Hd. unfold Utf8.decodeStream.
  pose proof (run_inRange chunk Hd) as Hr.
  destruct (Utf8.run (Utf8.bytesState t) chunk) as [d o]. now destruct o.
Qed.

Lemma decodeStream_line_feed (t : Utf8.TextDecoder) (chunk : list Z) :
  decoderInRange (Utf8.bytesState t) ->
  exists text, snd (Utf8.decodeStream t (chunk ++ [10%Z])) = text ++ [10%Z].
Proof.
  intros Hd. unfold Utf8.decodeStream. rewrite run_app.
  pose proof (run_inRange chunk Hd) as Hr.
  destruct (Utf8.run (Utf8.bytesState t) chunk) as [d1 o1]. cbn in Hr.
  cbn [Utf8.run]. destruct (step_line_feed Hr) as [pre ->].
  rewrite app_nil_r, app_assoc.
  destruct (o1 ++ pre) as [|c q] eqn:E; cbn [app snd].
  - rewrite andb_false_r. now exists [].
  - destruct (negb (Utf8.bomSeen t) && (c =? 65279)%Z).
    + rewrite flat_map_app. now exists (flat_map Utf8.units q).
    + change (c :: q ++ [10%Z]) with ((c :: q) ++ [10%Z]).
      rewrite flat_map_app. now exists (flat_map Utf8.units (c :: q)).
Qed.

Lemma split_nonempty (sep : Z) (s : jsstring) : split sep s <> [].
Proof.
  destruct s as [|c r]; cbn; [discriminate|].
  destruct (c =? sep)%Z; [discriminate|]. now destruct (split sep r).
Qed.

Lemma split_app_sep (sep : Z) (a b : jsstring) :
  split sep (a ++ sep :: b) = split sep a ++ split sep b.
Proof.
  induction a as [|c a IH]; cbn.
  - now rewrite Z.eqb_refl.
  - destruct (c =? sep)%Z; [now rewrite IH|].
    rewrite IH. pose proof (split_nonempty sep a).
    now destruct (split sep a).
Qed.

Lemma endsWithLineFeed_inv (chunk : list Z) :
  endsWithLineFeed chunk = true -> exists c, chunk = c ++ [10%Z].
Proof.
  unfold endsWithLineFeed. intros H.
  destruct (rev chunk) as [|x r] eqn:E; [discriminate|].
  apply Z.eqb_eq in H. subst x. exists (rev r).
  rewrite <- (rev_involutive chunk), E. reflexivity.
Qed.

(** Two chunks of which the first ends with a line feed are read as their
    concatenation is. *)
Lemma readChunks_merge (d : Utf8.TextDecoder) (t : turn)
      (c1 c2 : list Z) (rest : list (list Z)) :
  decoderInRange (Utf8.bytesState d) ->
  endsWithLineFeed c1 = true ->
  readChunks d t (c1 :: c2 :: rest) = readChunks d t ((c1 ++ c2) :: rest).
Proof.
  intros Hd Hlf. destruct (endsWithLineFeed_inv c1 Hlf) as [c ->].
  cbn [readChunks]. rewrite (decodeStream_app d (c ++ [10%Z]) c2).
  destruct (@decodeStream_line_feed d c Hd) as [text Htext].
  destruct (Utf8.decodeStream d (c ++ [10%Z])) as [d1 text1]. cbn in Htext. subst text1.
  destruct (Utf8.decodeStream d1 c2) as [d2 text2].
  rewrite <- app_assoc. cbn [app].
  rewrite (split_app_sep 10 text text2), (split_app_sep 10 text []).
  cbn [split]. rewrite !processLines_app.
  destruct (processLines t (split 10 text)) as [t1|t1]; reflexivity.
Qed.

Lemma readChunks_merge_all (chunks : list (list Z)) (d : Utf8.TextDecoder) (t : turn)
      (c : list Z) :
  decoderInRange (Utf8.bytesState d) ->
  endsWithLineFeed c = true ->
  Forall (fun chunk => endsWithLineFeed chunk = true) chunks ->
  readChunks d t (c :: chunks) = readChunks d t [c ++ concat chunks].
Proof.
  revert c. induction chunks as [|c2 rest IH]; intros c Hd Hc Hall.
  - cbn [concat]. now rewrite app_nil_r.
  - inversion Hall as [|? ? Hc2 Hrest]; subst.
    rewrite readChunks_merge by assumption.
    rewrite IH; try assumption.
    + cbn [concat]. now rewrite app_assoc.
    + destruct (endsWithLineFeed_inv c2 Hc2) as [c' ->].
      unfold endsWithLineFeed. now rewrite app_assoc, rev_app_distr.
Qed.

(** X10: when every chunk of the relay's answer ends with a line feed, the
    way the answer is cut into chunks does not matter: the turn ends as it
    does when the whole answer comes in one chunk. *)
Theorem line_aligned_chunks_read_as_whole
        (newId : jsstring) (now : Z) (st : HomeState) (history : list ApiMessage)
        (chunks : list (list Z)) (e : Stream.ending) (t : turn) :
  Forall (fun chunk => endsWithLineFeed chunk = true) chunks ->
  readChunks Utf8.newTextDecoder t chunks
  = readChunks Utf8.newTextDecoder t [concat chunks]
  /\ sendTextMessage (mockedRelay chunks e) newId now st history
     = sendTextMessage (mockedRelay [concat chunks] e) newId now st history.
Proof.
  intros Hall.
  assert (Hread : forall t', readChunks Utf8.newTextDecoder t' chunks
                             = readChunks Utf8.newTextDecoder t' [concat chunks]).
  { intros t'. destruct chunks as [|c rest]; [reflexivity|].
    inversion Hall; subst.
    apply readChunks_merge_all; try assumption.
    unfold decoderInRange. cbn. lia. }
  split; [apply Hread|].
  unfold sendTextMessage. destruct history as [|h hs]; [reflexivity|].
  cbv zeta. unfold mockedRelay. cbn [status body Stream.okStatus].
  cbn. unfold readLoop. cbn [Stream.chunks Stream.ending_of].
  now rewrite Hread.
Qed.

Lemma line_aligned_chunks_read_as_whole_witness :
  rendered (map Utf8.encode [deltaEvent (lit "caf" ++ [233]%Z);
                             dataLine (deltaPayload (lit " au")) ++ [10]%Z;
                             [10]%Z;
                             deltaEvent (lit " lait")])
  = rendered [Utf8.encode (concat [deltaEvent (lit "caf" ++ [233]%Z);
                                   dataLine (deltaPayload (lit " au")) ++ [10]%Z;
                                   [10]%Z;
                                   deltaEvent (lit " lait")])].
Proof.
  unfold rendered.
  destruct (@line_aligned_chunks_read_as_whole (lit "a1") 2 hiPage hiHistory
              (map Utf8.encode [deltaEvent (lit "caf" ++ [233]%Z);
                                dataLine (deltaPayload (lit " au")) ++ [10]%Z;
                                [10]%Z;
                                deltaEvent (lit " lait")])
              Stream.Ends (openTurn (lit "a1") 2 hiPage)) as [_ H].
  - repeat constructor.
  - rewrite H. vm_compute. reflexivity.
Defined.

End LineAlignedChunks.

Section TitlesAndTokens.

Lemma find_app {A} (p : A -> bool) (a b : list A) :
  find p (a ++ b) = match find p a with
                    | Some x => Some x
                    | None => find p b
                    end.
Proof.
  induction a as [|x a IH]; cbn; [reflexivity|].
  now destruct (p x).
Qed.

Lemma find_existsb {A} (p : A -> bool) (l : list A) :
  existsb p l = match find p l with Some _ => true | None => false end.
Proof.
  induction l as [|x l IH]; cbn; [reflexivity|].
  now destruct (p x).
Qed.

(** X11: a title is never empty and never longer than 41 code units (40 of
    the text and the ellipsis).  It is "New Chat" as long as no user message
    has text other than white space; once one has, messages that come later
    do not change the title. *)
Theorem deriveConversationTitle_stable (history : list ChatMessageData) :
  (1 <= length (deriveConversationTitle history) <= 41)%nat
  /\ (existsb titleSource history = false ->
      deriveConversationTitle history = lit "New Chat")
  /\ (existsb titleSource history = true ->
      forall later,
        deriveConversationTitle (history ++ later) = deriveConversationTitle history).
Proof.
  unfold deriveConversationTitle. rewrite find_existsb.
  destruct (find titleSource history) as [m|] eqn:Ef.
  - split; [|split; [discriminate|]].
    + apply find_some in Ef as [_ Hm]. unfold titleSource in Hm.
      apply andb_prop in Hm as [_ Hlen]. apply Nat.ltb_lt in Hlen.
      cbv zeta. destruct (Nat.ltb_spec 40 (length (trim (content m)))).
      * unfold sliceTo. rewrite length_app, length_firstn.
        change (length [8230%Z]) with 1%nat. lia.
      * lia.
    + intros _ later. now rewrite find_app, Ef.
  - split; [cbn; lia|]. split; [reflexivity|discriminate].
Qed.

Lemma deriveConversationTitle_stable_witness :
  deriveConversationTitle
    (messages hiPage ++ [createMessage (lit "u2") 3 user (lit "Second question")])
  = lit "Hi".
Proof.
  destruct (deriveConversationTitle_stable (messages hiPage)) as (_ & _ & H).
  rewrite H; [|vm_compute; reflexivity]. vm_compute. reflexivity.
Defined.

Lemma tokens_cons (c : Z) (r : jsstring) :
  tokens (c :: r)
  = match tokens r with
    | (d :: tok) :: toks =>
        if Bool.eqb (isWhiteSpace c) (isWhiteSpace d)
        then (c :: d :: tok) :: toks
        else [c] :: (d :: tok) :: toks
    | _ => [[c]]
    end.
Proof. reflexivity. Qed.

Lemma tokens_partition_full (s : jsstring) :
  concat (tokens s) = s
  /\ forallb uniformToken (tokens s) = true
  /\ alternating (tokens s) = true
  /\ (tokens s = [] <-> s = []).
Proof.
  induction s as [|c r (Hcat & Huni & Halt & Hnil)].
  - cbn. repeat split; auto.
  - rewrite tokens_cons.
    destruct (tokens r) as [|[|d tok] toks] eqn:Et.
    + assert (r = []) by now apply Hnil. subst r.
      cbn. rewrite eqb_reflx. repeat split; auto; discriminate.
    + cbn in Huni. discriminate.
    + cbn [concat] in Hcat.
      assert (Hd : uniformToken (d :: tok) = true /\ forallb uniformToken toks = true).
      { cbn [forallb] in Huni. now apply andb_prop in Huni. }
      destruct Hd as [Hd Htoks].
      destruct (Bool.eqb (isWhiteSpace c) (isWhiteSpace d)) eqn:Ecd.
      * repeat split; try discriminate.
        -- cbn [concat]. cbn [app]. f_equal. exact Hcat.
        -- cbn [forallb]. rewrite Htoks, andb_true_r.
           unfold uniformToken in *. cbn [isEmpty negb andb tokenClass forallb] in *.
           rewrite eqb_reflx. cbn [andb].
           apply eqb_prop in Ecd. rewrite Ecd. exact Hd.
        -- destruct toks as [|b toks']; [reflexivity|].
           cbn [alternating tokenClass] in *.
           apply eqb_prop in Ecd. now rewrite Ecd.
      * repeat split; try discriminate.
        -- cbn [concat]. cbn [app]. f_equal. exact Hcat.
        -- cbn [forallb]. rewrite Hd, Htoks.
           unfold uniformToken. cbn. now rewrite eqb_reflx.
        -- cbn [alternating tokenClass]. rewrite Ecd. cbn [negb andb].
           exact Halt.
Qed.

(** X12: the tokens a message is rendered from put together give back its
    text; no token is empty; each one is all white space or free of white
    space; and neighbours differ in that, so that every token is a maximal
    run. *)
Theorem tokens_partition (s : jsstring) :
  concat (tokens s) = s
  /\ forallb uniformToken (tokens s) = true
  /\ alternating (tokens s) = true.
Proof.
  destruct (tokens_partition_full s) as (H1 & H2 & H3 & _). auto.
Qed.

End TitlesAndTokens.

Section DigestAndEffects.

Lemma plain_collapseFrom (inRun : bool) (s : jsstring) :
  forallb plainUnit (collapseFrom inRun s) = true.
Proof.
  revert inRun. induction s as [|c r IH]; intros inRun; cbn; [reflexivity|].
  destruct (isWhiteSpace c) eqn:E.
  - destruct inRun; cbn; now rewrite ?IH.
  - cbn. unfold plainUnit at 1. rewrite E. cbn. apply IH.
Qed.

Lemma plain_trimStart (s : jsstring) :
  forallb plainUnit s = true -> forallb plainUnit (trimStart s) = true.
Proof.
  induction s as [|c r IH]; cbn; [reflexivity|].
  intros H. apply andb_prop in H as [Hc Hr].
  destruct (isWhiteSpace c); [now apply IH|].
  cbn. now rewrite Hc, Hr.
Qed.

Lemma plain_rev (s : jsstring) :
  forallb plainUnit s = true -> forallb plainUnit (rev s) = true.
Proof.
  intros H. apply forallb_forall. intros x Hx.
  apply in_rev in Hx. revert x Hx. now apply forallb_forall.
Qed.

Lemma plain_trim (s : jsstring) :
  forallb plainUnit s = true -> forallb plainUnit (trim s) = true.
Proof.
  intros H. unfold trim, trimEnd.
  now apply plain_rev, plain_trimStart, plain_rev, plain_trimStart.
Qed.

Lemma plain_summaryLine (m : ChatMessageData) (line : jsstring) :
  summaryLine m = Some line -> forallb plainUnit line = true.
Proof.
  unfold summaryLine. cbv zeta.
  destruct (isEmpty (trim (collapseWhiteSpace (content m)))); [discriminate|].
  intros H. injection H as <-.
  pose proof (@plain_trim (collapseWhiteSpace (content m))
                (plain_collapseFrom false (content m))) as Hc.
  rewrite forallb_app. cbn [forallb]. rewrite Hc.
  now destruct (ChatRole_eqb (role m) assistant).
Qed.

Lemma plain_keepTruthy (ls : list (option jsstring)) :
  Forall (fun o => forall l, o = Some l -> forallb plainUnit l = true) ls ->
  Forall (fun l => forallb plainUnit l = true) (keepTruthy ls).
Proof.
  induction 1 as [|o ls Ho _ IH]; cbn; [constructor|].
  destruct o as [l|]; [|exact IH].
  destruct (isEmpty l); [exact IH|]. constructor; [now apply Ho|exact IH].
Qed.

Lemma plain_join (sep : jsstring) (parts : list jsstring) :
  forallb plainUnit sep = true ->
  Forall (fun l => forallb plainUnit l = true) parts ->
  forallb plainUnit (join sep parts) = true.
Proof.
  intros Hsep. induction 1 as [|p ps Hp Hps IH]; [reflexivity|].
  cbn [join]. destruct ps as [|q ps]; [exact Hp|].
  rewrite !forallb_app, Hp, Hsep. exact IH.
Qed.

Lemma plain_firstn (n : nat) (s : jsstring) :
  forallb plainUnit s = true -> forallb plainUnit (firstn n s) = true.
Proof.
  intros H. rewrite <- (firstn_skipn n s), forallb_app in H.
  now apply andb_prop in H.
Qed.

(** X13: the memory digest is one line of text: it holds no line break,
    tab or other white space than the plain space, whatever the messages
    contain. *)
Theorem generateConversationSummary_one_line
        (history : list ChatMessageData) (c : Z) :
  In c (generateConversationSummary history) ->
  isWhiteSpace c = true -> c = 32%Z.
Proof.
  assert (H : forallb plainUnit (generateConversationSummary history) = true).
  { unfold generateConversationSummary. cbv zeta.
    destruct (Nat.eqb _ 0); [reflexivity|].
    destruct (Nat.eqb _ 0); [reflexivity|].
    assert (Hj : forallb plainUnit
                   (join (lit " | ")
                      (keepTruthy (map summaryLine (recentDialogue history)))) = true).
    { apply plain_join; [reflexivity|]. apply plain_keepTruthy.
      apply Forall_forall. intros o Ho l ->.
      apply in_map_iff in Ho as (m & Hm & _). now apply plain_summaryLine in Hm. }
    destruct (Nat.ltb 600 _); [|exact Hj].
    unfold sliceTo. rewrite forallb_app. apply andb_true_intro. split.
    - now apply plain_firstn.
    - reflexivity. }
  intros Hin Hws. rewrite forallb_forall in H. specialize (H c Hin).
  unfold plainUnit in H. rewrite Hws in H. cbn in H. now apply Z.eqb_eq.
Qed.

Lemma generateConversationSummary_one_line_witness :
  nth 8 (generateConversationSummary
           [createMessage (lit "u1") 1 user
              [72; 105; 10; 9; 116; 104; 101; 114; 101]%Z]) 0%Z
  = 32%Z.
Proof.
  apply (@generateConversationSummary_one_line
           [createMessage (lit "u1") 1 user
              [72; 105; 10; 9; 116; 104; 101; 114; 101]%Z]).
  - vm_compute. auto 20.
  - vm_compute. reflexivity.
Defined.

Lemma generateConversationSummary_length (history : list ChatMessageData) :
  (length (generateConversationSummary history) <= 600)%nat.
Proof.
  unfold generateConversationSummary. cbv zeta.
  destruct (Nat.eqb _ 0); [cbn; lia|].
  destruct (Nat.eqb _ 0); [cbn; lia|].
  destruct (Nat.ltb_spec 600
              (length (join (lit " | ")
                         (keepTruthy (map summaryLine (recentDialogue history))))))
    as [Hlong|Hshort]; [|exact Hshort].
  unfold sliceTo. rewrite length_app, length_firstn.
  change (length (lit "...")) with 3%nat. lia.
Qed.

(** X14: the effect that refreshes the memory changes nothing but the
    memory, leaves it alone while a turn is streaming, before hydration and
    on a page of fewer than four messages, and never sets it to a text of
    more than 600 code units.  Run a second time on its own result it
    changes nothing, so it comes to rest. *)
Theorem refreshMemory_settles (st : HomeState) :
  refreshMemory (refreshMemory st) = refreshMemory st
  /\ (isStreaming st = true \/ isHydrated st = false
      \/ (length (messages st) < 4)%nat -> refreshMemory st = st)
  /\ (refreshMemory st = st
      \/ (refreshMemory st = setMemory (generateConversationSummary (messages st)) st
          /\ memory (refreshMemory st) <> []
          /\ (length (memory (refreshMemory st)) <= 600)%nat)).
Proof.
  assert (Hcases : refreshMemory st = st
                   \/ (isHydrated st = true /\ isStreaming st = false
                       /\ Nat.ltb (length (messages st)) 4 = false
                       /\ isEmpty (generateConversationSummary (messages st)) = false
                       /\ refreshMemory st
                          = setMemory (generateConversationSummary (messages st)) st)).
  { unfold refreshMemory. cbv zeta.
    destruct (isHydrated st); cbn [negb orb]; [|now left].
    destruct (isStreaming st); [now left|].
    destruct (Nat.ltb (length (messages st)) 4); [now left|].
    destruct (isEmpty (generateConversationSummary (messages st))) eqn:Ee;
      cbn [orb]; [now left|].
    destruct (JSString.eqb _ (memory st)); [now left|].
    right. auto. }
  split; [|split].
  - destruct Hcases as [E | (Hh & Hs & Hl & He & ->)]; [now rewrite !E|].
    unfold refreshMemory at 1. cbv zeta. cbn [isHydrated isStreaming messages memory setMemory].
    rewrite Hh, Hs, Hl, jsstring_eqb_refl, orb_true_r. reflexivity.
  - unfold refreshMemory. cbv zeta. intros [-> | [-> | Hlt]].
    + now rewrite orb_true_r.
    + reflexivity.
    + apply Nat.ltb_lt in Hlt. rewrite Hlt. now destruct (negb _ || _).
  - destruct Hcases as [E | (Hh & Hs & Hl & He & ->)]; [now left|].
    right. split; [reflexivity|]. cbn [memory setMemory]. split.
    + intros E. rewrite E in He. discriminate.
    + apply generateConversationSummary_length.
Qed.

Lemma refreshMemory_settles_witness :
  let streaming := setIsStreaming true
                     (setMessages (fun l => l ++ l ++ l ++ l) hiPage) in
  refreshMemory streaming = streaming.
Proof.
  intros streaming.
  destruct (refreshMemory_settles streaming) as (_ & H & _).
  apply H. left. reflexivity.
Defined.

End DigestAndEffects.

Section GreetingAndConversations.

Variable greetingId : jsstring.
Variable greetingNow : Z.
Variable conversationId0 : jsstring.
Variable conversationNow : Z.

Lemma greeting_not_blank : Nat.eqb (length (trim INITIAL_GREETING)) 0 = false.
Proof. vm_compute. reflexivity. Qed.

(** The first message is an assistant message with text. *)
Lemma ensureGreeting_cases (st : HomeState) :
  isHydrated st = true ->
  (ensureGreeting greetingId greetingNow st = st
   /\ exists first rest, messages st = first :: rest
                         /\ role first = assistant
                         /\ Nat.eqb (length (trim (content first))) 0 = false)
  \/ (messages (ensureGreeting greetingId greetingNow st)
      = createMessage greetingId greetingNow assistant INITIAL_GREETING :: messages st).
Proof.
  intros Hh. unfold ensureGreeting. rewrite Hh. cbn [negb].
  destruct (messages st) as [|first rest] eqn:Em.
  - right. cbn. reflexivity.
  - destruct (ChatRole_eqb (role first) assistant) eqn:Er; cbn [negb orb].
    + destruct (Nat.eqb (length (trim (content first))) 0) eqn:Ec.
      * right. reflexivity.
      * left. split; [reflexivity|]. exists first, rest. repeat split; auto.
        now destruct (role first).
    + right. reflexivity.
Qed.

(** X15: on a hydrated page the greeting effect only ever puts one message
    in front: afterwards the list starts with an assistant message that
    has text, the messages that were there follow unchanged, and running
    the effect again (with any new identifier and clock) changes nothing.
    Before hydration it does nothing. *)
Theorem ensureGreeting_settles (st : HomeState) (otherId : jsstring) (otherNow : Z) :
  let st' := ensureGreeting greetingId greetingNow st in
  (isHydrated st = false -> st' = st)
  /\ (isHydrated st = true ->
      (exists first rest,
          messages st' = first :: rest
          /\ role first = assistant
          /\ trim (content first) <> [])
      /\ (messages st' = messages st
          \/ messages st'
             = createMessage greetingId greetingNow assistant INITIAL_GREETING
                 :: messages st)
      /\ ensureGreeting otherId otherNow st' = st').
Proof.
  intros st'. subst st'. split.
  - intros Hh. unfold ensureGreeting. now rewrite Hh.
  - intros Hh.
    assert (Hfirst : exists first rest,
               messages (ensureGreeting greetingId greetingNow st) = first :: rest
               /\ role first = assistant
               /\ Nat.eqb (length (trim (content first))) 0 = false).
    { destruct (ensureGreeting_cases st Hh)
        as [(-> & first & rest & Hm & Hr & Hc) | ->].
      - now exists first, rest.
      - eexists _, _. split; [reflexivity|]. split; [reflexivity|].
        apply greeting_not_blank. }
    split; [|split].
    + destruct Hfirst as (first & rest & Hm & Hr & Hc).
      exists first, rest. repeat split; auto.
      intros E. rewrite E in Hc. discriminate.
    + destruct (ensureGreeting_cases st Hh) as [(-> & _) | ->]; auto.
    + destruct Hfirst as (first & rest & Hm & Hr & Hc).
      unfold ensureGreeting at 1.
      assert (Hh' : isHydrated (ensureGreeting greetingId greetingNow st) = true).
      { unfold ensureGreeting. rewrite Hh. cbn [negb].
        destruct (messages st) as [|f r]; [exact Hh|].
        destruct (_ || _); exact Hh. }
      rewrite Hh', Hm, Hr, Hc. reflexivity.
Qed.

Lemma hasId_eq (cid : jsstring) (c : Conversation) :
  hasId cid c = true -> Conv.id c = cid.
Proof. apply jsstring_eqb_eq. Qed.

Lemma resetActive_ids (active : jsstring) (reset : list ChatMessageData)
      (clock : nat -> Z) (cs : list Conversation) (k : nat) :
  map Conv.id (resetActive active reset clock k cs) = map Conv.id cs.
Proof.
  revert k. induction cs as [|c cs IH]; intros k; cbn; [reflexivity|].
  destruct (hasId active c); cbn; now rewrite IH.
Qed.

Lemma activeListed_ids (w : Workspace) :
  activeListed w <-> In (activeConversationId w) (map Conv.id (conversations w)).
Proof.
  unfold activeListed. rewrite in_map_iff. split.
  - intros (c & Hin & Hid). now exists c.
  - intros (c & Hid & Hin). now exists c.
Qed.

(** X16: the active identifier always names a conversation of the list: a
    new conversation establishes this, and selecting, removing and
    clearing keep it.  Removing the active conversation never leaves the
    list empty. *)
Theorem active_conversation_listed (w : Workspace) (cid : jsstring)
        (clock : nat -> Z) :
  activeListed (handleNewConversation greetingId greetingNow
                  conversationId0 conversationNow w)
  /\ (activeListed w -> activeListed (handleSelectConversation w cid))
  /\ (activeListed w ->
      activeListed (handleRemoveConversation greetingId greetingNow
                      conversationId0 conversationNow w cid))
  /\ (activeListed w -> activeListed (clearChat greetingId greetingNow clock w))
  /\ conversations (handleRemoveConversation greetingId greetingNow
                      conversationId0 conversationNow w (activeConversationId w))
     <> [].
Proof.
  assert (Hnew : forall w', activeListed (handleNewConversation greetingId greetingNow
                                           conversationId0 conversationNow w')).
  { intros w'. unfold activeListed, handleNewConversation. cbv zeta.
    cbn [conversations activeConversationId sliceTo firstn].
    eexists. split; [left; reflexivity|reflexivity]. }
  split; [apply Hnew|]. split; [|split; [|split]].
  - intros Hact. unfold handleSelectConversation.
    destruct (JSString.eqb cid (activeConversationId w)); [exact Hact|].
    destruct (find (hasId cid) (conversations w)) as [c|] eqn:Ef; [|exact Hact].
    apply find_some in Ef as [Hin Hid]. exists c. split; [exact Hin|].
    now apply hasId_eq.
  - intros (c & Hin & Hid). unfold handleRemoveConversation. cbv zeta.
    destruct (JSString.eqb cid (activeConversationId w)) eqn:Ec.
    + destruct (filter _ (conversations w)) as [|next rest] eqn:Er.
      * apply Hnew.
      * exists next. split; [now left|reflexivity].
    + exists c. split; [|exact Hid]. cbn [conversations].
      apply filter_In. split; [exact Hin|].
      destruct (hasId cid c) eqn:Eh; [|reflexivity].
      apply hasId_eq in Eh. rewrite <- Eh, Hid, jsstring_eqb_refl in Ec.
      discriminate.
  - intros Hact. apply activeListed_ids. apply activeListed_ids in Hact.
    cbn [clearChat conversations activeConversationId].
    unfold clearChat. cbn [conversations activeConversationId].
    now rewrite resetActive_ids.
  - unfold handleRemoveConversation. cbv zeta. rewrite jsstring_eqb_refl.
    destruct (filter _ (conversations w)) as [|next rest]; discriminate.
Qed.

Lemma resetActive_length (active : jsstring) (reset : list ChatMessageData)
      (clock : nat -> Z) (cs : list Conversation) (k : nat) :
  length (resetActive active reset clock k cs) = length cs.
Proof.
  rewrite <- (length_map Conv.id), resetActive_ids. apply length_map.
Qed.

(** X17: the list of conversations is capped at 25.  A new conversation is
    put first and made active, the conversations that were there follow in
    their order and only those beyond the 24th are dropped; a list of at
    most 25 conversations stays so under selecting, removing and
    clearing. *)
Theorem conversations_capped (w : Workspace) (cid : jsstring) (clock : nat -> Z) :
  let fresh := handleNewConversation greetingId greetingNow
                 conversationId0 conversationNow w in
  (length (conversations fresh) = Nat.min 25 (S (length (conversations w))))%nat
  /\ (exists newConversation,
         conversations fresh = newConversation :: firstn 24 (conversations w)
         /\ Conv.id newConversation = activeConversationId fresh
         /\ Conv.messages newConversation = messages (page fresh))
  /\ ((length (conversations w) <= 25)%nat ->
      (length (conversations (handleSelectConversation w cid)) <= 25)%nat
      /\ (length (conversations
                    (handleRemoveConversation greetingId greetingNow
                       conversationId0 conversationNow w cid)) <= 25)%nat
      /\ (length (conversations (clearChat greetingId greetingNow clock w))
          <= 25)%nat).
Proof.
  intros fresh. subst fresh. split; [|split].
  - unfold handleNewConversation. cbv zeta. cbn [conversations].
    unfold sliceTo. rewrite length_firstn. cbn [length]. lia.
  - eexists. unfold handleNewConversation. cbv zeta.
    cbn [conversations activeConversationId page sliceTo firstn].
    split; [reflexivity|]. split; reflexivity.
  - intros Hlen. split; [|split].
    + unfold handleSelectConversation.
      destruct (JSString.eqb cid (activeConversationId w)); [exact Hlen|].
      destruct (find (hasId cid) (conversations w)); exact Hlen.
    + unfold handleRemoveConversation. cbv zeta.
      pose proof (filter_length_le
                    (fun conversation => negb (hasId cid conversation))
                    (conversations w)) as Hf.
      destruct (JSString.eqb cid (activeConversationId w)).
      * destruct (filter _ (conversations w)) as [|next rest] eqn:Er.
        -- cbn. lia.
        -- cbn [conversations]. lia.
      * cbn [conversations]. lia.
    + unfold clearChat. cbn [conversations]. now rewrite resetActive_length.
Qed.

End GreetingAndConversations.

Lemma conversations_capped_witness :
  let w := handleNewConversation (lit "g1") 0 (lit "c1") 5
             {| page := hiPage; conversations := []; activeConversationId := [] |} in
  (length (conversations
             (handleRemoveConversation (lit "g2") 1 (lit "c2") 6 w (lit "c1")))
   <= 25)%nat.
Proof.
  intros w.
  destruct (conversations_capped (lit "g2") 1 (lit "c2") 6 w (lit "c1")
              (fun _ => 0%Z)) as (_ & _ & H).
  apply H. vm_compute. lia.
Defined.

Lemma ensureGreeting_settles_witness :
  map role (messages (ensureGreeting (lit "g1") 0 hiPage))
  = [assistant; user].
Proof.
  destruct (ensureGreeting_settles (lit "g1") 0 hiPage [] 0) as [_ H].
  destruct H as (_ & [H | H] & _); [reflexivity | | ].
  - exfalso. revert H. vm_compute. discriminate.
  - rewrite H. reflexivity.
Defined.

Lemma active_conversation_listed_witness :
  let w := handleNewConversation (lit "g1") 0 (lit "c1") 5
             {| page := hiPage; conversations := []; activeConversationId := [] |} in
  activeListed (handleRemoveConversation (lit "g1") 0
                  (lit "c2") 6 w (lit "c1")).
Proof.
  intros w.
  destruct (active_conversation_listed (lit "g1") 0 (lit "c2") 6 w (lit "c1")
              (fun _ => 0%Z))
    as (_ & _ & H & _).
  apply H. exists {| Conv.id := lit "c1"; Conv.title := lit "New Chat";
                     Conv.messages :=
                       [createMessage (lit "g1") 0 assistant INITIAL_GREETING];
                     Conv.updatedAt := 5; Conv.memory := Some [] |}.
  split; [left; reflexivity|reflexivity].
Defined.


Section RecentChats.

Lemma insertByRecency_perm (c : Conversation) (l : list Conversation) :
  Permutation (insertByRecency c l) (c :: l).
Proof.
  induction l as [|d l IH]; cbn; [reflexivity|].
  destruct (Conv.updatedAt c <? Conv.updatedAt d)%Z; [|reflexivity].
  rewrite IH. apply perm_swap.
Qed.

Lemma sortByRecency_perm (cs : list Conversation) :
  Permutation (sortByRecency cs) cs.
Proof.
  induction cs as [|c cs IH]; cbn; [reflexivity|].
  rewrite insertByRecency_perm. now constructor.
Qed.

Lemma insertByRecency_sorted (c : Conversation) (l : list Conversation) :
  StronglySorted newerFirst l -> StronglySorted newerFirst (insertByRecency c l).
Proof.
  induction 1 as [|d l Hs IH Hd]; cbn.
  - constructor; constructor.
  - destruct (Z.ltb_spec (Conv.updatedAt c) (Conv.updatedAt d)) as [Hlt|Hge].
    + constructor; [exact IH|].
      apply Forall_forall. intros x Hx.
      apply (Permutation_in _ (insertByRecency_perm c l)) in Hx.
      destruct Hx as [<-|Hx].
      * unfold newerFirst. lia.
      * revert x Hx. now apply Forall_forall.
    + constructor; [now constructor|].
      constructor; [exact Hge|].
      apply Forall_forall. intros x Hx.
      rewrite Forall_forall in Hd. specialize (Hd x Hx).
      unfold newerFirst in *. lia.
Qed.

Lemma sortByRecency_sorted (cs : list Conversation) :
  StronglySorted newerFirst (sortByRecency cs).
Proof.
  induction cs as [|c cs IH]; cbn; [constructor|].
  now apply insertByRecency_sorted.
Qed.

Lemma StronglySorted_firstn {A} (R : A -> A -> Prop) (n : nat) (l : list A) :
  StronglySorted R l -> StronglySorted R (firstn n l).
Proof.
  intros H. revert n. induction H as [|x l Hs IH Hx]; intros [|n]; cbn;
    try constructor.
  - apply IH.
  - apply Forall_forall. intros y Hy. rewrite Forall_forall in Hx. apply Hx.
    rewrite <- (firstn_skipn n l). apply in_or_app. now left.
Qed.

(** X18: the list of recent chats holds at most ten conversations, all
    taken from the conversations of the page, ordered from the most
    recently updated to the least; its first entry is a conversation
    updated no earlier than any other, and with ten conversations or fewer
    none is left out. *)
Theorem recentChats_sorted (cs : list Conversation) :
  (length (recentChats cs) <= 10)%nat
  /\ StronglySorted newerFirst (recentChats cs)
  /\ (forall c, In c (recentChats cs) -> In c cs)
  /\ (forall top c, hd_error (recentChats cs) = Some top -> In c cs ->
                    (Conv.updatedAt c <= Conv.updatedAt top)%Z)
  /\ ((length cs <= 10)%nat -> Permutation (recentChats cs) cs).
Proof.
  assert (Hshape : recentChats cs = firstn 10 (sortByRecency cs)).
  { unfold recentChats. destruct cs; reflexivity. }
  rewrite Hshape. split; [|split; [|split; [|split]]].
  - rewrite length_firstn. lia.
  - apply StronglySorted_firstn, sortByRecency_sorted.
  - intros c Hc. apply (Permutation_in _ (sortByRecency_perm cs)).
    rewrite <- (firstn_skipn 10 (sortByRecency cs)). apply in_or_app. now left.
  - intros top c Htop Hc.
    pose proof (sortByRecency_sorted cs) as Hs.
    apply (Permutation_in _ (Permutation_sym (sortByRecency_perm cs))) in Hc.
    destruct (sortByRecency cs) as [|x l]; [discriminate|].
    cbn in Htop. injection Htop as ->.
    destruct Hc as [<-|Hc]; [lia|].
    inversion Hs as [|? ? _ Hall]; subst.
    rewrite Forall_forall in Hall. now apply Hall.
  - intros Hlen. rewrite firstn_all2; [apply sortByRecency_perm|].
    now rewrite (Permutation_length (sortByRecency_perm cs)).
Qed.

Lemma recentChats_sorted_witness :
  let conversation (n : Z) : Conversation :=
    {| Conv.id := [n]; Conv.title := lit "New Chat"; Conv.messages := [];
       Conv.updatedAt := n; Conv.memory := None |} in
  Permutation (recentChats (map conversation [3; 9; 1; 9; 4]%Z))
              (map conversation [3; 9; 1; 9; 4]%Z).
Proof.
  intros conversation.
  apply (proj2 (proj2 (proj2 (proj2
           (recentChats_sorted (map conversation [3; 9; 1; 9; 4]%Z)))))).
  cbn. lia.
Defined.

End RecentChats.

Section Regenerate.

Lemma findIndexFrom_spec {A} (p : A -> bool) (xs : list A) (i : Z) :
  (findIndexFrom p i xs = (-1)%Z /\ Forall (fun x => p x = false) xs)
  \/ (exists pre x post,
         xs = pre ++ x :: post
         /\ Forall (fun y => p y = false) pre
         /\ p x = true
         /\ findIndexFrom p i xs = (i + Z.of_nat (length pre))%Z).
Proof.
  revert i. induction xs as [|x xs IH]; intros i; cbn.
  - left. split; [reflexivity|constructor].
  - destruct (p x) eqn:Ep.
    + right. exists [], x, xs. cbn. repeat split; auto. lia.
    + destruct (IH (i + 1)%Z) as [[Hr Hall] | (pre & y & post & -> & Hall & Hy & Hr)].
      * left. split; [exact Hr|]. now constructor.
      * right. exists (x :: pre), y, post. cbn [app length]. repeat split; auto.
        rewrite Hr. lia.
Qed.

(** The first entry that passes, after entries that do not. *)
Lemma findIndexFrom_first {A} (p : A -> bool) (pre : list A) (x : A)
      (post : list A) (i : Z) :
  Forall (fun y => p y = false) pre -> p x = true ->
  findIndexFrom p i (pre ++ x :: post) = (i + Z.of_nat (length pre))%Z.
Proof.
  intros Hpre Hx. revert i.
  induction Hpre as [|y pre Hy _ IH]; intros i; cbn [app findIndexFrom length].
  - rewrite Hx. lia.
  - rewrite Hy, IH. lia.
Qed.

Lemma findIndexFrom_none {A} (p : A -> bool) (xs : list A) (i : Z) :
  Forall (fun y => p y = false) xs -> findIndexFrom p i xs = (-1)%Z.
Proof.
  intros Hall. revert i. induction Hall as [|y xs Hy _ IH]; intros i; cbn.
  - reflexivity.
  - now rewrite Hy, IH.
Qed.

Lemma other_id (message : ChatMessageData) (ms : list ChatMessageData) :
  Forall (fun m => id m <> id message) ms ->
  Forall (fun m => JSString.eqb (id m) (id message) = false) ms.
Proof.
  intros H. eapply Forall_impl; [|exact H]. cbn. intros m Hm.
  destruct (JSString.eqb (id m) (id message)) eqn:E; [|reflexivity].
  apply jsstring_eqb_eq in E. contradiction.
Qed.

(** X19: regenerating the last message of an idle page, when it is an
    assistant message and no earlier message has its identifier, drops that
    message, and no other, and runs one turn on the messages before it.
    It does nothing while a turn is streaming, nothing for a message that
    is not an assistant message, nothing when the first message with the
    given identifier is not the last one, and nothing when a page that is
    not empty has no message with that identifier.  These are all the
    cases but one: on an empty page it runs a turn on the empty history. *)
Theorem handleRegenerate_drops_last
        (fetch : ChatRequest -> awaited Response) (newId : jsstring) (now : Z)
        (st : HomeState) (message : ChatMessageData) :
  let res := handleRegenerate fetch newId now st message in
  let nothing := {| after := st; requests := []; settled := true |} in
  (forall prev final,
      isStreaming st = false ->
      role message = assistant ->
      messages st = prev ++ [final] ->
      id final = id message ->
      Forall (fun m => id m <> id message) prev ->
      res = sendTextMessage fetch newId now
              {| messages := prev; input := input st; isStreaming := false;
                 error := error st; isHydrated := isHydrated st;
                 memory := memory st |}
              (mapMessagesToApi prev))
  /\ (isStreaming st = true -> res = nothing)
  /\ (role message <> assistant -> res = nothing)
  /\ (forall pre x post,
         messages st = pre ++ x :: post ->
         Forall (fun m => id m <> id message) pre ->
         id x = id message -> post <> [] -> res = nothing)
  /\ (messages st <> [] ->
      Forall (fun m => id m <> id message) (messages st) -> res = nothing)
  /\ (res = nothing
      \/ (isStreaming st = false
          /\ role message = assistant
          /\ ((messages st = []
               /\ res = sendTextMessage fetch newId now
                          (setMessages (fun _ => []) st) [])
              \/ exists prev final,
                   messages st = prev ++ [final]
                   /\ id final = id message
                   /\ Forall (fun m => id m <> id message) prev
                   /\ res = sendTextMessage fetch newId now
                              (setMessages (fun _ => prev) st)
                              (mapMessagesToApi prev)))).
Proof.
  intros res nothing. subst res nothing.
  split; [|split; [|split; [|split; [|split]]]].
  - intros prev final Es Hr Hm Hid Hprev. unfold handleRegenerate.
    rewrite Es, Hr, Hm. cbv zeta. unfold findIndex.
    rewrite (@findIndexFrom_first _ (fun msg => JSString.eqb (id msg) (id message))
               prev final [] 0 (@other_id message prev Hprev)).
    2:{ cbn. rewrite Hid. apply jsstring_eqb_refl. }
    rewrite length_app. cbn [length ChatRole_eqb negb orb].
    replace (0 + Z.of_nat (length prev) =? Z.of_nat (length prev + 1) - 1)%Z
      with true by (symmetry; apply Z.eqb_eq; lia).
    cbn [negb orb]. unfold sliceUpTo.
    replace (0 + Z.of_nat (length prev) <? 0)%Z with false
      by (symmetry; apply Z.ltb_ge; lia).
    rewrite Z.add_0_l, Nat2Z.id, firstn_app, firstn_all, Nat.sub_diag.
    cbn [firstn]. rewrite app_nil_r.
    unfold setMessages. cbn. now rewrite Es.
  - intros Es. unfold handleRegenerate. now rewrite Es.
  - intros Hr. unfold handleRegenerate.
    destruct (isStreaming st); [reflexivity|]. cbv zeta.
    destruct (role message); try contradiction; cbn [ChatRole_eqb negb];
      now rewrite orb_true_r.
  - intros pre x post Hm Hpre Hid Hpost. unfold handleRegenerate.
    destruct (isStreaming st); [reflexivity|]. cbv zeta. unfold findIndex.
    rewrite Hm.
    rewrite (@findIndexFrom_first _ (fun msg => JSString.eqb (id msg) (id message))
               pre x post 0 (@other_id message pre Hpre)).
    2:{ cbn. rewrite Hid. apply jsstring_eqb_refl. }
    rewrite length_app. cbn [length].
    replace (0 + Z.of_nat (length pre)
             =? Z.of_nat (length pre + S (length post)) - 1)%Z
      with false.
    + reflexivity.
    + symmetry. apply Z.eqb_neq. destruct post; [contradiction|]. cbn [length]. lia.
  - intros Hne Hall. unfold handleRegenerate.
    destruct (isStreaming st); [reflexivity|]. cbv zeta. unfold findIndex.
    rewrite (@findIndexFrom_none _ (fun msg => JSString.eqb (id msg) (id message))
               (messages st) 0 (@other_id message (messages st) Hall)).
    replace (-1 =? Z.of_nat (length (messages st)) - 1)%Z with false.
    + reflexivity.
    + symmetry. apply Z.eqb_neq. destruct (messages st); [contradiction|].
      cbn [length]. lia.
  - unfold handleRegenerate.
    destruct (isStreaming st) eqn:Es; [now left|].
    cbv zeta. unfold findIndex.
    destruct (ChatRole_eqb (role message) assistant) eqn:Er.
    2:{ left. now rewrite orb_true_r. }
    cbn [negb]. rewrite orb_false_r.
    destruct (Z.eqb_spec
                (findIndexFrom (fun msg => JSString.eqb (id msg) (id message)) 0
                   (messages st))
                (Z.of_nat (length (messages st)) - 1)) as [He|Hne]; cbn [negb].
    2:{ now left. }
    right. split; [reflexivity|]. split; [now destruct (role message)|].
    destruct (findIndexFrom_spec (fun msg => JSString.eqb (id msg) (id message))
                (messages st) 0)
      as [[Hr Hall] | (pre & x & post & Hm & Hall & Hx & Hr)].
    + left. rewrite Hr in He.
      assert (Hnil : messages st = []).
      { destruct (messages st); [reflexivity|]. cbn [length] in He. lia. }
      split; [exact Hnil|]. rewrite Hr, Hnil. reflexivity.
    + right. rewrite Hr in He. rewrite Hm in He. rewrite length_app in He.
      cbn [length] in He.
      assert (post = []) by (destruct post; [reflexivity|cbn [length] in He; lia]).
      subst post. exists pre, x. split; [exact Hm|].
      split; [now apply jsstring_eqb_eq|]. split.
      * apply Forall_forall. intros m Hin E.
        rewrite Forall_forall in Hall. specialize (Hall m Hin). cbn in Hall.
        rewrite E, jsstring_eqb_refl in Hall. discriminate.
      * rewrite Hr.
        assert (Hs : sliceUpTo (0 + Z.of_nat (length pre)) (messages st) = pre).
        { unfold sliceUpTo.
          replace (0 + Z.of_nat (length pre) <? 0)%Z with false
            by (symmetry; apply Z.ltb_ge; lia).
          rewrite Z.add_0_l, Nat2Z.id, Hm. rewrite firstn_app, firstn_all.
          rewrite Nat.sub_diag. cbn. apply app_nil_r. }
        now rewrite Hs.
Qed.

Lemma handleRegenerate_drops_last_witness :
  let res := handleRegenerate (mockedRelay [Utf8.encode (deltaEvent (lit "Hey"))]
                                 Stream.Ends)
               (lit "a1") 3 answeredPage helloAnswer in
  map content (messages (after res)) = [lit "Hi"; lit "Hey"]
  /\ requests res = [chatRequest [] hiHistory].
Proof.
  intros res. subst res.
  destruct (@handleRegenerate_drops_last
              (mockedRelay [Utf8.encode (deltaEvent (lit "Hey"))] Stream.Ends)
              (lit "a1") 3 answeredPage helloAnswer) as [H _].
  rewrite (H (messages hiPage) helloAnswer).
  - vm_compute. split; reflexivity.
  - reflexivity.
  - reflexivity.
  - reflexivity.
  - reflexivity.
  - repeat constructor. vm_compute. discriminate.
Defined.

End Regenerate.

Section SignUpForm.

Import SignUp.

Variable credential : Type.
Variable createUser : jsstring -> jsstring -> awaited credential.
Variable updateProfile : credential -> jsstring -> awaited unit.
Variable routerPush : jsstring -> awaited bool.

Ltac finish_submit :=
  cbn;
  repeat match goal with
         | |- _ /\ _ => split
         | |- forall _, _ => intro
         end;
  repeat match goal with
         | H : _ \/ _ |- _ => destruct H as [H|H]
         | H : False |- _ => destruct H
         end;
  try discriminate;
  repeat match goal with
         | H : UpdateProfile _ = UpdateProfile _ |- _ => injection H as <-
         | H : Push _ = Push _ |- _ => injection H as <-
         end;
  try congruence; eauto 6.

(** X20: a submission of the sign-up form first creates the account, with
    the trimmed e-mail and the password as typed; it sets the display name
    only when the trimmed name is not empty, and then to that trimmed
    name; it navigates to the home page only after every earlier step has
    succeeded.  When a step is rejected the failure text is shown; and the
    form is submitting exactly as long as the submission has not ended.
    The fields are left as typed. *)
Theorem handleSubmit_outcome (f : Form) :
  let res := handleSubmit createUser updateProfile routerPush f in
  isSubmitting (form res) = negb (settled res)
  /\ hd_error (calls res) = Some (CreateUser (trim (email f)) (password f))
  /\ (forall n, In (UpdateProfile n) (calls res) ->
                n = trim (name f) /\ n <> []
                /\ exists c, createUser (trim (email f)) (password f) = Fulfilled c)
  /\ (forall path, In (Push path) (calls res) ->
        path = lit "/"
        /\ exists c, createUser (trim (email f)) (password f) = Fulfilled c
                     /\ (trim (name f) = []
                         \/ exists u, updateProfile c (trim (name f)) = Fulfilled u))
  /\ (error (form res) = None \/ error (form res) = Some FAILURE)
  /\ (error (form res) = Some FAILURE -> settled res = true)
  /\ name (form res) = name f /\ email (form res) = email f
  /\ password (form res) = password f.
Proof.
  intros res. subst res. unfold handleSubmit. cbv zeta.
  destruct (createUser (trim (email f)) (password f)) as [c| |] eqn:Ec;
    [|finish_submit..].
  destruct (Nat.ltb 0 (length (trim (name f)))) eqn:En.
  - assert (Hne : trim (name f) <> []).
    { intros E. rewrite E in En. discriminate. }
    destruct (updateProfile c (trim (name f))) as [u| |] eqn:Eu;
      [|finish_submit..].
    unfold navigate. cbv zeta.
    destruct (routerPush (lit "/")); finish_submit.
  - assert (He : trim (name f) = []).
    { destruct (trim (name f)); [reflexivity|discriminate]. }
    unfold navigate. cbv zeta.
    destruct (routerPush (lit "/")); finish_submit.
Qed.

End SignUpForm.

Lemma handleSubmit_outcome_witness :
  let f := {| SignUp.name := lit " Ada "; SignUp.email := lit " ada@example.org";
              SignUp.password := lit " secret  "; SignUp.error := None;
              SignUp.isSubmitting := false |} in
  lit "Ada" = trim (SignUp.name f) /\ lit "Ada" <> []
  /\ exists c : unit, Fulfilled tt = Fulfilled c.
Proof.
  intros f.
  apply (proj1 (proj2 (proj2
           (@handleSubmit_outcome unit (fun _ _ => Fulfilled tt)
              (fun _ _ => Rejected) (fun _ => Fulfilled true) f)))
           (lit "Ada")).
  vm_compute. right. left. reflexivity.
Defined.

Section KeptCallback.

(** The requests of a prompt depend on the render that built the callback
    and on the prompt only. *)
Lemma sendUserPromptOf_requests
      (fetch : ChatRequest -> awaited Response) (newId : jsstring) (now : Z)
      (userId : jsstring) (userNow : Z) (built st : HomeState)
      (prompt : jsstring) :
  requests (sendUserPromptOf fetch newId now userId userNow built st prompt)
  = if isEmpty (trim prompt) || isStreaming built || negb (isHydrated built)
    then []
    else [chatRequest (memory built)
            (mapMessagesToApi (messages built)
             ++ [{| Api.role := user; Api.content := trim prompt |}])].
Proof.
  unfold sendUserPromptOf. cbv zeta.
  destruct (isEmpty (trim prompt)) eqn:Ee; cbn [orb]; [reflexivity|].
  destruct (isStreaming built || negb (isHydrated built)); [reflexivity|].
  rewrite sendTextMessageOf_requests.
  assert (Hne : trim (content (createMessage userId userNow user (trim prompt)))
                <> []).
  { cbn [content createMessage]. rewrite trim_idem.
    intros E. rewrite E in Ee. discriminate. }
  rewrite (@mapMessagesToApi_snoc (messages built)
             (createMessage userId userNow user (trim prompt)) eq_refl Hne).
  cbn [content createMessage]. rewrite trim_idem.
  destruct (mapMessagesToApi (messages built)
            ++ [{| Api.role := user; Api.content := trim prompt |}]) eqn:El;
    [|reflexivity].
  destruct (mapMessagesToApi (messages built)); discriminate.
Qed.

(** Two different digests, the second not empty, give different requests. *)
Lemma chatRequest_memory (mem mem' : jsstring) (history : list ApiMessage) :
  mem' <> [] -> mem <> mem' ->
  chatRequest mem history <> chatRequest mem' history.
Proof.
  intros Hne Hdiff E. unfold chatRequest in E.
  injection E as E. apply app_inv_tail in E.
  unfold systemMessages in E.
  destruct mem' as [|c' r']; [contradiction|]. cbn [isEmpty] in E.
  destruct mem as [|c r]; cbn [isEmpty] in E; [discriminate|].
  assert (E' : lit "Long-term memory summary: " ++ c :: r
               = lit "Long-term memory summary: " ++ c' :: r') by congruence.
  apply app_inv_head in E'. contradiction.
Qed.

(** X21: the effect that refreshes the memory digest never makes the page
    rebuild [sendUserPrompt]: the callback kept before the effect is kept
    after it, and a prompt sends the same requests whether the effect has
    run or not.  So when the effect has just replaced the digest of the
    render that built the callback, an accepted prompt still sends one
    request with the digest from before, which differs from the request
    the page's memory would give. *)
Theorem refreshed_memory_is_not_sent
        (fetch : ChatRequest -> awaited Response) (newId : jsstring) (now : Z)
        (userId : jsstring) (userNow : Z) (built st : HomeState)
        (prompt : jsstring) :
  keepsCallback built st ->
  let send page :=
    requests (sendUserPromptOf fetch newId now userId userNow built page prompt) in
  keepsCallback built (refreshMemory st)
  /\ send (refreshMemory st) = send st
  /\ (refreshMemory st <> st -> memory built = memory st ->
      isEmpty (trim prompt) = false ->
      let history := mapMessagesToApi (messages st)
                     ++ [{| Api.role := user; Api.content := trim prompt |}] in
      memory (refreshMemory st) = generateConversationSummary (messages st)
      /\ send (refreshMemory st) = [chatRequest (memory st) history]
      /\ chatRequest (memory st) history
         <> chatRequest (memory (refreshMemory st)) history).
Proof.
  intros (Hh & Hs & Hm) send. subst send. cbv beta.
  assert (Hcases :
            refreshMemory st = st
            \/ (isHydrated st = true /\ isStreaming st = false
                /\ generateConversationSummary (messages st) <> []
                /\ generateConversationSummary (messages st) <> memory st
                /\ refreshMemory st
                   = setMemory (generateConversationSummary (messages st)) st)).
  { unfold refreshMemory.
    destruct (isHydrated st); cbn [negb orb]; [|now left].
    destruct (isStreaming st); [now left|].
    destruct (Nat.ltb (length (messages st)) 4); [now left|]. cbv zeta.
    destruct (generateConversationSummary (messages st)) as [|c r] eqn:Eg;
      cbn [isEmpty orb]; [now left|].
    destruct (JSString.eqb (c :: r) (memory st)) eqn:Eq; [now left|].
    right. repeat split; try discriminate.
    intros E. rewrite <- E, jsstring_eqb_refl in Eq. discriminate. }
  split; [|split].
  - destruct Hcases as [E | (_ & _ & _ & _ & E)]; rewrite E.
    + repeat split; assumption.
    + repeat split; assumption.
  - now rewrite !sendUserPromptOf_requests.
  - intros Hchanged Hmem Hprompt history.
    destruct Hcases as [E | (Ehy & Est & Hne & Hdiff & E)]; [contradiction|].
    split; [now rewrite E|]. split.
    + rewrite sendUserPromptOf_requests.
      rewrite Hprompt, <- Hs, <- Hh, Est, Ehy, Hmem, <- Hm. reflexivity.
    + apply chatRequest_memory; rewrite E; cbn [memory setMemory].
      * exact Hne.
      * intros E'. apply Hdiff. now rewrite <- E'.
Qed.

Lemma refreshed_memory_is_not_sent_witness :
  requests (sendUserPromptOf (fun _ => Rejected) (lit "a2") 6 (lit "u3") 5
              fourPage (refreshMemory fourPage) (lit "again"))
  = [{| url := lit "/api/chat"; httpMethod := lit "POST";
        contentType := lit "application/json";
        bodyMessages :=
          [SYSTEM_PROMPT;
           {| Api.role := user; Api.content := lit "Hi" |};
           {| Api.role := assistant; Api.content := lit "Hello" |};
           {| Api.role := user; Api.content := lit "More" |};
           {| Api.role := assistant; Api.content := lit "Sure" |};
           {| Api.role := user; Api.content := lit "again" |}] |}]
  /\ memory (refreshMemory fourPage)
     = lit "User: Hi | Eco AI: Hello | User: More | Eco AI: Sure".
Proof.
  destruct (@refreshed_memory_is_not_sent (fun _ => Rejected) (lit "a2") 6
              (lit "u3") 5 fourPage fourPage (lit "again"))
    as (_ & _ & H).
  - repeat split; reflexivity.
  - destruct H as (Hmemory & Hsent & _).
    + vm_compute. discriminate.
    + reflexivity.
    + vm_compute. reflexivity.
    + split.
      * rewrite Hsent. vm_compute. reflexivity.
      * rewrite Hmemory. vm_compute. reflexivity.
Defined.

End KeptCallback.
